(** * ChatRoom: the Socket.IO session, room-membership and message core

    A shallow embedding of [app/database.py] ([get_or_create_user]) and
    [app/sockets.py] ([get_username_from_query], [get_ai_response],
    [connect], [disconnect], [join_room], [leave_room], [send_message]),
    and the properties of the realtime core that follow from the code.
    The HTTP routes of [app/routes] are embedded in the same monad further
    down, with the properties of the routes at the end.

    Conventions of the embedding.
    - A Python [str] is a [string]; each character stands for the code
      point of the same number, so the model covers text in the range
      U+0000..U+00FF. [strip], [lower] and the regular expression of
      [get_ai_response] are written out for that range.
    - A handler is a computation in the monad [M]: it threads the shared
      server state (session table, database, Socket.IO rooms), appends what
      it does to a log of effects, and returns a value or raises.
    - Every [await] of a driver or Socket.IO call is a suspension point:
      after the call, the other tasks of the event loop may change the
      shared state. What they do at the n-th suspension of the running
      handler is the parameter [sched n].
    - The libraries the handlers call ([json.loads], [bson.ObjectId],
      [urllib.parse.parse_qs], the Gemini client, the system clock and the
      driver's id generator) are parameters of the development. *)

From Stdlib Require Import ZArith Ascii String List.
From stdpp Require Import base decidable option list strings gmap.

Set Warnings "-register-all".

Local Open Scope string_scope.
Local Open Scope list_scope.

(** ** Python strings *)

Module PyStr.

(** [str.isspace] for one character: TAB..CR, FS..US, SPACE, NEL, NBSP. *)
Definition isspace (c : ascii) : bool :=
  let n := nat_of_ascii c in
  (((9 <=? n) && (n <=? 13)) || ((28 <=? n) && (n <=? 32))
   || (n =? 133) || (n =? 160))%nat.

(** [str.lower] for one character: A..Z and the capital letters
    U+00C0..U+00DE (U+00D7, the multiplication sign, has no case). *)
Definition lower_char (c : ascii) : ascii :=
  let n := nat_of_ascii c in
  if (((65 <=? n) && (n <=? 90))
      || ((192 <=? n) && (n <=? 222) && negb (n =? 215)))%nat
  then ascii_of_nat (n + 32) else c.

Fixpoint lower (s : string) : string :=
  match s with
  | EmptyString => EmptyString
  | String c s' => String (lower_char c) (lower s')
  end.

(** [s.lstrip()] *)
Fixpoint lstrip (s : string) : string :=
  match s with
  | EmptyString => EmptyString
  | String c s' => if isspace c then lstrip s' else s
  end.

(** [s.rstrip()]: a character is kept when it is not a space or when
    something is kept after it. *)
Fixpoint rstrip (s : string) : string :=
  match s with
  | EmptyString => EmptyString
  | String c s' =>
      match rstrip s' with
      | EmptyString => if isspace c then EmptyString else String c EmptyString
      | r => String c r
      end
  end.

(** [s.strip()] *)
Definition strip (s : string) : string := rstrip (lstrip s).

(** [needle in hay] *)
Fixpoint contains (needle hay : string) : bool :=
  if String.prefix needle hay then true
  else match hay with
       | EmptyString => false
       | String _ hay' => contains needle hay'
       end.

(** [s[:n]] *)
Definition take (n : nat) (s : string) : string := String.substring 0 n s.

(** [re.match(r'@AI', s, re.IGNORECASE)]: the first three characters are
    the mention, in any case. *)
Definition starts_mention (s : string) : bool :=
  String.eqb (lower (take 3 s)) "@ai".

(** [re.sub(r'@AI\s*', '', s, flags=re.IGNORECASE)], left to right:
    [skip] counts the characters of a matched mention still to drop,
    [spaces] says that the spaces after a mention are being dropped. *)
Fixpoint re_sub_mention (skip : nat) (spaces : bool) (s : string) : string :=
  match s with
  | EmptyString => EmptyString
  | String c s' =>
      match skip with
      | S k => re_sub_mention k true s'
      | O =>
          if spaces && isspace c then re_sub_mention 0 true s'
          else if starts_mention s then re_sub_mention 2 true s'
          else String c (re_sub_mention 0 false s')
      end
  end.

(** Every character of [s] is a space. *)
Fixpoint all_space (s : string) : bool :=
  match s with
  | EmptyString => true
  | String c s' => isspace c && all_space s'
  end.

End PyStr.

(** ** Python values carried by an event payload *)

(** What [json.loads] returns and what python-socketio hands to a handler
    as [data]. Of a float only its truth value is observed by the
    handlers, so a float is kept as "zero or not". A dict is its list of
    items. *)
Inductive pyval : Type :=
| PNone
| PBool (b : bool)
| PInt (z : Z)
| PFloat (nonzero : bool)
| PStr (s : string)
| PList (l : list pyval)
| PDict (items : list (string * pyval)).

(** [bool(v)], the test behind [if not v]. *)
Definition truthy (v : pyval) : bool :=
  match v with
  | PNone => false
  | PBool b => b
  | PInt z => negb (z =? 0)%Z
  | PFloat nz => nz
  | PStr s => negb (String.eqb s "")
  | PList l => match l with [] => false | _ => true end
  | PDict d => match d with [] => false | _ => true end
  end.

(** [d.get(key)] on the items of a dict. *)
Fixpoint dict_get (key : string) (items : list (string * pyval)) : option pyval :=
  match items with
  | [] => None
  | (k, v) :: rest => if String.eqb k key then Some v else dict_get key rest
  end.

(** [isinstance(v, dict)] *)
Definition is_dict (v : pyval) : bool :=
  match v with PDict _ => true | _ => false end.

(** ** Exceptions and results *)

Inductive exn : Type :=
| JSONDecodeError
| AttributeError
| DuplicateKeyError
| OtherError (name : string).

Inductive Res (A : Type) : Type :=
| Ret (a : A)
| Raise (e : exn).
Arguments Ret {A} a.
Arguments Raise {A} e.

(** ** Data model *)

(** The twelve bytes of a BSON ObjectId, as a number. *)
Abbreviation oid := N.

(** [db.users] documents. *)
Record User := { u_id : oid; u_username : string }.

(** [db.rooms] documents, as the room routes create them. *)
Record Room := {
  r_id : oid;
  r_name : string;
  r_owner_username : string;
  r_participant_usernames : list string;
  r_created_at : Z
}.

(** [db.messages] documents; [m_created_at] is a clock reading. *)
Record Message := {
  m_id : oid;
  m_room_id : oid;
  m_sender_username : string;
  m_text : string;
  m_created_at : Z
}.

(** The three collections, each in insertion order. *)
Record Database := {
  users : list User;
  rooms : list Room;
  messages : list Message
}.

(** The shared state of the process: the module-level dict
    [sid_to_username], the database behind [get_database()], and the rooms
    of the Socket.IO server [sio] (room name to the sids in it). *)
Record Server := {
  sid_to_username : gmap string string;
  db : Database;
  sio_rooms : gmap string (gset string)
}.

(** The body of an emitted event. [id] and [created_at] of a message are
    kept as the id and the clock reading that [str] and [isoformat]
    render. *)
Record MessageResponse := {
  mr_id : oid;
  mr_room_id : string;
  mr_sender_username : string;
  mr_text : string;
  mr_created_at : Z
}.

Inductive Payload : Type :=
| ErrorMessage (message : string)
| RoomRef (room_id : pyval)
| NewMessage (m : MessageResponse).

(** What a handler does, in the order it does it. [Emit] records the room
    the event is addressed to ([to=] and [room=] are one parameter of
    [sio.emit]) and the sids that were in it. *)
Inductive Effect : Type :=
| FindUser (username : string)
| InsertUser (username : string)
| FindRoom (id : oid)
| InsertMessage (m : Message)
| EnterRoom (sid room : string)
| LeaveRoom (sid room : string)
| Emit (event : string) (data : Payload) (room : string) (recipients : gset string)
| GenerateContent (prompt : string).

(** ** The libraries and the environment *)

Class Env := {
  (** [json.loads]: the value, [JSONDecodeError], or another exception. *)
  json_loads : string -> Res pyval;
  (** [bson.ObjectId] on a [str]; [None] when it raises. On a value that
      is not a [str] (None, a number, a list, a dict) it always raises. *)
  ObjectId : string -> option oid;
  (** [urllib.parse.parse_qs] *)
  parse_qs : string -> gmap string (list string);
  (** [gemini_model.generate_content(prompt).text], or what it raises. *)
  generate_content : string -> Res string;
  (** [datetime.utcnow()]: the n-th reading the handler takes. *)
  utcnow : nat -> Z;
  (** The [_id] the driver gives to an inserted document. *)
  new_oid : Database -> oid;
  (** What the other tasks do to the shared state at the n-th suspension
      of the running handler. *)
  sched : nat -> Server -> Server
}.

(** ** The handler monad *)

Record Task := {
  srv : Server;
  log : list Effect;
  awaits : nat;
  reads : nat
}.

Definition M (A : Type) : Type := Task -> Res A * Task.

Definition ret {A} (a : A) : M A := fun t => (Ret a, t).

Definition raise {A} (e : exn) : M A := fun t => (Raise e, t).

Definition bind {A B} (m : M A) (k : A -> M B) : M B :=
  fun t =>
    match m t with
    | (Ret a, t') => k a t'
    | (Raise e, t') => (Raise e, t')
    end.

Declare Scope handler_scope.
Delimit Scope handler_scope with handler.
Notation "x <- m ;; k" := (bind m (fun x => k))
  (at level 100, m at next level, right associativity) : handler_scope.
Notation "m ;;; k" := (bind m (fun _ => k))
  (at level 100, right associativity) : handler_scope.
Local Open Scope handler_scope.

(** A value or an exception of a call that touches no state. *)
Definition lift {A} (r : Res A) : M A := fun t => (r, t).

Definition get_srv : M Server := fun t => (Ret (srv t), t).

Definition set_srv (s : Server) : M unit :=
  fun t => (Ret tt, {| srv := s; log := log t; awaits := awaits t; reads := reads t |}).

Definition tell (e : Effect) : M unit :=
  fun t => (Ret tt, {| srv := srv t; log := log t ++ [e]; awaits := awaits t; reads := reads t |}).

(** The suspension that ends an [await]: the other tasks run. *)
Definition suspend {E : Env} : M unit :=
  fun t => (Ret tt, {| srv := sched (awaits t) (srv t); log := log t;
                       awaits := S (awaits t); reads := reads t |}).

(** [await m] for a driver or Socket.IO call [m]. *)
Definition await {E : Env} {A} (m : M A) : M A :=
  x <- m ;; suspend ;;; ret x.

(** [datetime.utcnow()] *)
Definition now {E : Env} : M Z :=
  fun t => (Ret (utcnow (reads t)),
            {| srv := srv t; log := log t; awaits := awaits t; reads := S (reads t) |}).

(** A fresh task on a server state. *)
Definition start (s : Server) : Task :=
  {| srv := s; log := []; awaits := 0; reads := 0 |}.

(** ** The store: [db.users], [db.rooms], [db.messages] *)

Definition with_db (s : Server) (d : Database) : Server :=
  {| sid_to_username := sid_to_username s; db := d; sio_rooms := sio_rooms s |}.

Definition with_sessions (s : Server) (m : gmap string string) : Server :=
  {| sid_to_username := m; db := db s; sio_rooms := sio_rooms s |}.

Definition with_rooms (s : Server) (g : gmap string (gset string)) : Server :=
  {| sid_to_username := sid_to_username s; db := db s; sio_rooms := g |}.

Definition has_username (username : string) (u : User) : bool :=
  String.eqb (u_username u) username.

Definition has_id (id : oid) (r : Room) : bool := N.eqb (r_id r) id.

(** [db.users.find_one({"username": username})] *)
Definition find_one_user (username : string) : M (option User) :=
  s <- get_srv ;;
  tell (FindUser username) ;;;
  ret (List.find (has_username username) (users (db s))).

(** [db.users.insert_one({"username": username})] under the unique index
    on [username] that [connect_to_mongo] creates: a second document with
    the same username is refused with [DuplicateKeyError]. *)
Definition insert_one_user {E : Env} (username : string) : M oid :=
  s <- get_srv ;;
  tell (InsertUser username) ;;;
  if existsb (has_username username) (users (db s))
  then raise DuplicateKeyError
  else
    let id := new_oid (db s) in
    set_srv (with_db s {| users := users (db s) ++ [{| u_id := id; u_username := username |}];
                          rooms := rooms (db s);
                          messages := messages (db s) |}) ;;;
    ret id.

(** [db.rooms.find_one({"_id": room_oid})] *)
Definition find_one_room (id : oid) : M (option Room) :=
  s <- get_srv ;;
  tell (FindRoom id) ;;;
  ret (List.find (has_id id) (rooms (db s))).

(** [db.messages.insert_one(doc)]; the result is [inserted_id]. *)
Definition insert_one_message {E : Env}
    (room_oid : oid) (sender text : string) (created_at : Z) : M oid :=
  s <- get_srv ;;
  let m := {| m_id := new_oid (db s); m_room_id := room_oid;
              m_sender_username := sender; m_text := text;
              m_created_at := created_at |} in
  tell (InsertMessage m) ;;;
  set_srv (with_db s {| users := users (db s);
                        rooms := rooms (db s);
                        messages := messages (db s) ++ [m] |}) ;;;
  ret (m_id m).

(** ** The Socket.IO server [sio]

    The room bookkeeping of python-socketio's manager, which the handlers
    reach through [sio.enter_room], [sio.leave_room] and [sio.emit], and
    which the server itself updates around the [connect] and [disconnect]
    handlers. *)

(** The sids in a room; a room that is not there is empty. *)
Definition participants (s : Server) (room : string) : gset string :=
  default ∅ (sio_rooms s !! room).

(** The manager may refuse a sid that it does not know; here every call
    succeeds, which only adds behaviours. *)
Definition sio_enter_room (sid room : string) : M unit :=
  s <- get_srv ;;
  tell (EnterRoom sid room) ;;;
  set_srv (with_rooms s (<[room := {[sid]} ∪ participants s room]> (sio_rooms s))).

(** Leaving drops the room when its last sid leaves. *)
Definition remove_sid (sid : string) (g : gset string) : option (gset string) :=
  let g' := g ∖ {[sid]} in
  if decide (g' = ∅) then None else Some g'.

Definition sio_leave_room (sid room : string) : M unit :=
  s <- get_srv ;;
  tell (LeaveRoom sid room) ;;;
  set_srv (with_rooms s (partial_alter (fun g => g ≫= remove_sid sid) room (sio_rooms s))).

(** [sio.emit(event, data, to=room)] and [sio.emit(event, data, room=room)] *)
Definition sio_emit (event : string) (data : Payload) (room : string) : M unit :=
  s <- get_srv ;;
  tell (Emit event data room (participants s room)).

(** The manager's own disconnect: the sid leaves every room. *)
Definition purge (sid : string) (g : gmap string (gset string)) : gmap string (gset string) :=
  omap (remove_sid sid) g.

Definition sio_manager_disconnect (sid : string) : M unit :=
  s <- get_srv ;;
  set_srv (with_rooms s (purge sid (sio_rooms s))).

(** The manager's own connect: the sid enters its personal room, the room
    that [to=sid] addresses. *)
Definition sio_manager_connect (sid : string) : M unit :=
  s <- get_srv ;;
  set_srv (with_rooms s (<[sid := {[sid]} ∪ participants s sid]> (sio_rooms s))).

(** ** [app/database.py] *)

Definition get_or_create_user {E : Env} (username : string) : M User :=
  user <- await (find_one_user username) ;;
  match user with
  | None =>
      result <- await (insert_one_user username) ;;
      ret {| u_id := result; u_username := username |}
  | Some u => ret u
  end.

(** ** [app/sockets.py] *)

Definition dquote : string := String "034"%char EmptyString.
Definition newline : string := String "010"%char EmptyString.

(** The reply sent when the generation service fails. *)
Definition fallback_text : string := "Sorry, I couldn't process that request.".

(** The sender name of assistant messages. *)
Definition AI : string := "AI".

Definition ai_prompt (room_name query : string) : string :=
  "You are a helpful AI assistant in a chat room called " +:+ dquote +:+ room_name
  +:+ dquote +:+ "." +:+ newline
  +:+ "A user is asking: " +:+ query +:+ newline +:+ newline
  +:+ "Give a concise, helpful response. Keep it brief and to the point.".

(** [get_ai_response]: a coroutine with no [await] inside; the call of
    the model and the reading of [response.text] sit in one
    [try ... except Exception]. *)
Definition get_ai_response {E : Env} (room_name user_message : string) : M string :=
  let query := PyStr.strip (PyStr.re_sub_mention 0 false user_message) in
  let prompt := ai_prompt room_name query in
  tell (GenerateContent prompt) ;;;
  match generate_content prompt with
  | Ret text => ret (PyStr.strip text)
  | Raise _ => ret fallback_text
  end.

Definition get_username_from_query {E : Env} (environ : gmap string string) : option string :=
  let query_string := default EmptyString (environ !! "QUERY_STRING") in
  let params := parse_qs query_string in
  let usernames := default [] (params !! "username") in
  match usernames with
  | u :: _ => Some (PyStr.strip u)
  | [] => None
  end.

(** [sid_to_username[sid] = username] *)
Definition register (sid username : string) : M unit :=
  s <- get_srv ;;
  set_srv (with_sessions s (<[sid := username]> (sid_to_username s))).

(** [sid_to_username.pop(sid, None)] *)
Definition unregister (sid : string) : M (option string) :=
  s <- get_srv ;;
  set_srv (with_sessions s (delete sid (sid_to_username s))) ;;;
  ret (sid_to_username s !! sid).

(** [sid_to_username.get(sid)] *)
Definition lookup_session (sid : string) : M (option string) :=
  s <- get_srv ;;
  ret (sid_to_username s !! sid).

(** [bool(username)] for [username : str | None] *)
Definition str_truthy (username : option string) : bool :=
  match username with
  | Some (String _ _) => true
  | _ => false
  end.

Definition connect {E : Env} (sid : string) (environ : gmap string string) : M bool :=
  let username := get_username_from_query environ in
  if negb (str_truthy username) then ret false
  else
    let username := default EmptyString username in
    get_or_create_user username ;;;
    register sid username ;;;
    ret true.

Definition disconnect (sid : string) : M unit :=
  unregister sid ;;; ret tt.

(** The first lines of the three event handlers: a [str] payload is
    parsed, and only [JSONDecodeError] is caught. *)
Definition parse_payload {E : Env} (data : pyval) : Res pyval :=
  match data with
  | PStr s =>
      match json_loads s with
      | Ret v => Ret v
      | Raise JSONDecodeError => Ret (PDict [])
      | Raise e => Raise e
      end
  | _ => Ret data
  end.

Definition load_payload {E : Env} (data : pyval) : M pyval := lift (parse_payload data).

(** [data.get(key) if isinstance(data, dict) else None] *)
Definition get_field (key : string) (data : pyval) : pyval :=
  match data with
  | PDict items => default PNone (dict_get key items)
  | _ => PNone
  end.

(** [(data.get("text", "") if isinstance(data, dict) else "").strip()];
    a value without [strip] raises [AttributeError]. *)
Definition text_of (data : pyval) : Res string :=
  match data with
  | PDict items =>
      match dict_get "text" items with
      | None => Ret EmptyString
      | Some (PStr s) => Ret (PyStr.strip s)
      | Some _ => Raise AttributeError
      end
  | _ => Ret EmptyString
  end.

Definition get_text (data : pyval) : M string := lift (text_of data).

(** [ObjectId(room_id)] inside [try ... except Exception]: the id, and
    the [str] it was read from. *)
Definition to_ObjectId {E : Env} (room_id : pyval) : option (oid * string) :=
  match room_id with
  | PStr s => (fun o => (o, s)) <$> ObjectId s
  | _ => None
  end.

(** [await sio.emit("error", {"message": message}, to=sid)] *)
Definition emit_error {E : Env} (sid message : string) : M unit :=
  await (sio_emit "error" (ErrorMessage message) sid).

Definition join_room {E : Env} (sid : string) (data : pyval) : M unit :=
  data <- load_payload data ;;
  let room_id := get_field "room_id" data in
  username <- lookup_session sid ;;
  if negb (str_truthy username) then emit_error sid "Not authenticated"
  else
    let username := default EmptyString username in
    if negb (truthy room_id) then emit_error sid "room_id is required"
    else
      match to_ObjectId room_id with
      | None => emit_error sid "Invalid room_id format"
      | Some (room_oid, room_id) =>
          room <- await (find_one_room room_oid) ;;
          match room with
          | None => emit_error sid "Room not found"
          | Some room =>
              if negb (bool_decide (username ∈ r_participant_usernames room))
              then emit_error sid "Not a participant of this room"
              else
                await (sio_enter_room sid room_id) ;;;
                await (sio_emit "joined_room" (RoomRef (PStr room_id)) sid)
          end
      end.

(** [sio.leave_room(sid, room_id)] for the value the payload carries: a
    [str] names a room; a list or a dict cannot be a key of the manager's
    table ([TypeError]); any other value names no room the handlers ever
    enter. *)
Definition sio_leave_room_value (sid : string) (room_id : pyval) : M unit :=
  match room_id with
  | PStr room => sio_leave_room sid room
  | PList _ | PDict _ => raise (OtherError "TypeError")
  | _ => ret tt
  end.

Definition leave_room {E : Env} (sid : string) (data : pyval) : M unit :=
  data <- load_payload data ;;
  let room_id := get_field "room_id" data in
  username <- lookup_session sid ;;
  if negb (str_truthy username) then emit_error sid "Not authenticated"
  else
    if negb (truthy room_id) then emit_error sid "room_id is required"
    else
      await (sio_leave_room_value sid room_id) ;;;
      await (sio_emit "left_room" (RoomRef room_id) sid).

(** [await sio.emit("new_message", message_response, room=room_id)] *)
Definition emit_new_message {E : Env}
    (id : oid) (room_id sender text : string) (created_at : Z) : M unit :=
  await (sio_emit "new_message"
           (NewMessage {| mr_id := id; mr_room_id := room_id;
                          mr_sender_username := sender; mr_text := text;
                          mr_created_at := created_at |})
           room_id).

Definition send_message {E : Env} (sid : string) (data : pyval) : M unit :=
  data <- load_payload data ;;
  let room_id := get_field "room_id" data in
  text <- get_text data ;;
  username <- lookup_session sid ;;
  if negb (str_truthy username) then emit_error sid "Not authenticated"
  else
    let username := default EmptyString username in
    if negb (truthy room_id) then emit_error sid "room_id is required"
    else if String.eqb text EmptyString then emit_error sid "text cannot be empty"
    else
      match to_ObjectId room_id with
      | None => emit_error sid "Invalid room_id format"
      | Some (room_oid, room_id) =>
          room <- await (find_one_room room_oid) ;;
          match room with
          | None => emit_error sid "Room not found"
          | Some room =>
              if negb (bool_decide (username ∈ r_participant_usernames room))
              then emit_error sid "Not a participant of this room"
              else
                created <- now ;;
                inserted_id <- await (insert_one_message room_oid username text created) ;;
                emit_new_message inserted_id room_id username text created ;;;
                if PyStr.contains "@ai" (PyStr.lower text) then
                  let room_name := r_name room in
                  ai_response_text <- get_ai_response room_name text ;;
                  ai_now <- now ;;
                  ai_id <- await (insert_one_message room_oid AI ai_response_text ai_now) ;;
                  emit_new_message ai_id room_id AI ai_response_text ai_now
                else ret tt
          end
      end.

(** ** The events of the server

    python-socketio registers a sid with its manager before it calls the
    [connect] handler and drops it again when the handler returns [False];
    on a disconnect it calls the [disconnect] handler and then removes the
    sid from every room. An exception of a handler is logged by the
    library and ends that handler only. *)

Definition on_connect {E : Env} (sid : string) (environ : gmap string string) : M bool :=
  sio_manager_connect sid ;;;
  ok <- connect sid environ ;;
  if ok then ret true else sio_manager_disconnect sid ;;; ret false.

Definition on_disconnect (sid : string) : M unit :=
  disconnect sid ;;;
  sio_manager_disconnect sid.

Inductive Event : Type :=
| Connect (sid : string) (environ : gmap string string)
| Disconnect (sid : string)
| JoinRoom (sid : string) (data : pyval)
| LeaveRoomOf (sid : string) (data : pyval)
| SendMessage (sid : string) (data : pyval).

Definition handle {E : Env} (e : Event) : M unit :=
  match e with
  | Connect sid environ => on_connect sid environ ;;; ret tt
  | Disconnect sid => on_disconnect sid
  | JoinRoom sid data => join_room sid data
  | LeaveRoomOf sid data => leave_room sid data
  | SendMessage sid data => send_message sid data
  end.

(** The events one after the other, on one task record: the log and the
    counters run on, and a handler that raises does not stop the server. *)
Fixpoint run {E : Env} (events : list Event) (t : Task) : Task :=
  match events with
  | [] => t
  | e :: rest => run rest (snd (handle e t))
  end.

(** ** A concrete environment

    Small stand-ins for the libraries, to run the handlers on concrete
    inputs. The theorems below hold for every environment. *)

Module Sample.

Definition hex_digit (c : ascii) : option N :=
  let n := N_of_ascii c in
  if ((48 <=? n) && (n <=? 57))%N then Some (n - 48)%N
  else if ((97 <=? n) && (n <=? 102))%N then Some (n - 87)%N
  else if ((65 <=? n) && (n <=? 70))%N then Some (n - 55)%N
  else None.

Fixpoint hex_value (acc : N) (s : string) : option N :=
  match s with
  | EmptyString => Some acc
  | String c s' =>
      match hex_digit c with
      | Some d => hex_value (16 * acc + d)%N s'
      | None => None
      end
  end.

(** An ObjectId from its 24 hexadecimal digits. *)
Definition read_oid (s : string) : option N :=
  if (String.length s =? 24)%nat then hex_value 0 s else None.

(** A reader that knows the three smallest JSON documents. *)
Definition read_json (s : string) : Res pyval :=
  if String.eqb s "{}" then Ret (PDict [])
  else if String.eqb s "[]" then Ret (PList [])
  else if String.eqb s "null" then Ret PNone
  else Raise JSONDecodeError.

Fixpoint split (sep : ascii) (s : string) : list string :=
  match s with
  | EmptyString => [EmptyString]
  | String c s' =>
      if Ascii.eqb c sep then EmptyString :: split sep s'
      else match split sep s' with
           | h :: t => String c h :: t
           | [] => [String c EmptyString]
           end
  end.

Fixpoint cut (sep : ascii) (s : string) : option (string * string) :=
  match s with
  | EmptyString => None
  | String c s' =>
      if Ascii.eqb c sep then Some (EmptyString, s')
      else match cut sep s' with
           | Some (a, b) => Some (String c a, b)
           | None => None
           end
  end.

Fixpoint plus_to_space (s : string) : string :=
  match s with
  | EmptyString => EmptyString
  | String c s' => String (if Ascii.eqb c "+"%char then " "%char else c) (plus_to_space s')
  end.

(** Fields [name=value] separated by [&]; fields with a blank value are
    skipped; [+] stands for a space; no percent-decoding. *)
Definition read_qs (s : string) : gmap string (list string) :=
  foldr (fun field m =>
           match cut "="%char field with
           | Some (k, String c v) =>
               <[plus_to_space k := plus_to_space (String c v)
                                    :: default [] (m !! plus_to_space k)]> m
           | _ => m
           end)
        ∅ (split "&"%char s).

Definition env (gen : string -> Res string) (clock : nat -> Z)
    (others : nat -> Server -> Server) : Env :=
  {| json_loads := read_json;
     ObjectId := read_oid;
     parse_qs := read_qs;
     generate_content := gen;
     utcnow := clock;
     new_oid := fun d => N.of_nat (length (users d) + length (rooms d) + length (messages d));
     sched := others |}.

(** A clock that advances by one at every reading, a service that
    answers, and no other task. *)
Definition quiet : Env :=
  env (fun _ => Ret "It is noon.") (fun n => 1000 + Z.of_nat n)%Z (fun _ s => s).

(** The service answers with an empty text. *)
Definition silent : Env :=
  env (fun _ => Ret EmptyString) (fun n => 1000 + Z.of_nat n)%Z (fun _ s => s).

(** The service fails. *)
Definition failing : Env :=
  env (fun _ => Raise (OtherError "DeadlineExceeded"))
      (fun n => 1000 + Z.of_nat n)%Z (fun _ s => s).

(** The answer of the service mentions the assistant. *)
Definition echoing : Env :=
  env (fun _ => Ret "Ask @AI again.") (fun n => 1000 + Z.of_nat n)%Z (fun _ s => s).

(** The clock does not advance between two readings. *)
Definition frozen : Env :=
  env (fun _ => Ret "It is noon.") (fun _ => 1000%Z) (fun _ s => s).

Definition room_hex : string := "0000000000000000000000aa".

Definition lobby : Room :=
  {| r_id := 170; r_name := "lobby"; r_owner_username := "alice";
     r_participant_usernames := ["alice"; "bob"]; r_created_at := 0 |}.

(** alice is connected as [s1] and carol as [s3]; the lobby admits
    alice and bob, and alice has joined its Socket.IO room. *)
Definition server : Server :=
  {| sid_to_username := {["s1" := "alice"; "s3" := "carol"]};
     db := {| users := [{| u_id := 1; u_username := "alice" |};
                        {| u_id := 2; u_username := "carol" |}];
              rooms := [lobby];
              messages := [] |};
     sio_rooms := {["s1" := {["s1"]}; "s3" := {["s3"]}; room_hex := {["s1"]}]} |}.

(** Another task signs [username] up while the running handler is
    suspended for the first time. *)
Definition signup_meanwhile (username : string) (n : nat) (s : Server) : Server :=
  match n with
  | O => with_db s {| users := users (db s) ++ [{| u_id := 99; u_username := username |}];
                      rooms := rooms (db s);
                      messages := messages (db s) |}
  | S _ => s
  end.

Definition racing (username : string) : Env :=
  env (fun _ => Ret "It is noon.") (fun n => 1000 + Z.of_nat n)%Z (signup_meanwhile username).

(** The owner takes alice off the lobby while the running handlers are
    suspended for the third time. *)
Definition revoke_meanwhile (n : nat) (s : Server) : Server :=
  match n with
  | 2 => with_db s {| users := users (db s);
                      rooms := [{| r_id := 170; r_name := "lobby";
                                   r_owner_username := "bob";
                                   r_participant_usernames := ["bob"];
                                   r_created_at := 0 |}];
                      messages := messages (db s) |}
  | _ => s
  end.

Definition revoking : Env :=
  env (fun _ => Ret "It is noon.") (fun n => 1000 + Z.of_nat n)%Z revoke_meanwhile.

Definition send (text : string) : pyval :=
  PDict [("room_id", PStr room_hex); ("text", PStr text)].

(** [n] times the digit [1]. *)
Definition ones (n : N) : string := N.iter n (String "1"%char) EmptyString.

Definition is_digit (c : ascii) : bool :=
  let n := N_of_ascii c in ((48 <=? n) && (n <=? 57))%N.

Fixpoint all_digits (s : string) : bool :=
  match s with
  | EmptyString => true
  | String c s' => is_digit c && all_digits s'
  end.

Fixpoint decimal (acc : Z) (s : string) : Z :=
  match s with
  | EmptyString => acc
  | String c s' => decimal (10 * acc + Z.of_N (N_of_ascii c - 48)) s'
  end.

(** A reader that also knows the integers written without a sign. As
    CPython does, it converts at most 4300 digits: a longer integer,
    which is valid JSON, is refused with [ValueError], not with
    [JSONDecodeError]. *)
Definition read_json_numbers (s : string) : Res pyval :=
  match s with
  | String c rest =>
      if all_digits s && (negb (Ascii.eqb c "0"%char) || String.eqb rest EmptyString)
      then if (4300 <? N.of_nat (String.length s))%N
           then Raise (OtherError "ValueError")
           else Ret (PInt (decimal 0 s))
      else read_json s
  | EmptyString => read_json s
  end.

(** The quiet environment with that reader. *)
Definition counting : Env :=
  {| json_loads := read_json_numbers;
     ObjectId := read_oid;
     parse_qs := read_qs;
     generate_content := fun _ => Ret "It is noon.";
     utcnow := fun n => (1000 + Z.of_nat n)%Z;
     new_oid := fun d => N.of_nat (length (users d) + length (rooms d) + length (messages d));
     sched := fun _ s => s |}.

End Sample.

(** Discharges [accepted] for a send of alice, connected as [s1], to the
    lobby of [Sample.server]. *)
Ltac sample_accepted :=
  split;
  [ eexists; repeat split; try reflexivity; discriminate
  | split; [reflexivity | repeat constructor] ].

(** ** Vocabulary of the properties *)

(** The connection request carries no username: the query string has no
    [username] field, or its first value is empty or all spaces. *)
Definition carries_no_username {E : Env} (environ : gmap string string) : Prop :=
  match default [] (parse_qs (default EmptyString (environ !! "QUERY_STRING")) !! "username") with
  | [] => True
  | u :: _ => PyStr.all_space u = true
  end.

(** The connection [sid] has a session for [username]. *)
Definition authenticated (s : Server) (sid username : string) : Prop :=
  sid_to_username s !! sid = Some username /\ username <> EmptyString.

(** What a handler leaves behind when all it does is report [message] to
    [sid]: one [error] event addressed to [sid], and one suspension. *)
Definition after_error {E : Env} (sid message : string) (t : Task) : Task :=
  {| srv := sched (awaits t) (srv t);
     log := log t ++ [Emit "error" (ErrorMessage message) sid (participants (srv t) sid)];
     awaits := S (awaits t);
     reads := reads t |}.

(** The task after [find_one_room] and its suspension. *)
Definition after_find {E : Env} (id : oid) (t : Task) : Task :=
  {| srv := sched (awaits t) (srv t);
     log := log t ++ [FindRoom id];
     awaits := S (awaits t);
     reads := reads t |}.

(** The send passes the checks that [send_message] makes before it asks
    the store for the room: the payload is (or parses to) a dict whose
    [room_id] is the non-empty [str] [rid] that [ObjectId] reads as [o]
    and whose [text] strips to the non-empty [text], and [sid] has a
    session for [u]. *)
Definition well_formed {E : Env} (sid : string) (data : pyval) (t : Task)
    (u rid : string) (o : oid) (text : string) : Prop :=
  exists d,
    parse_payload data = Ret d
    /\ get_field "room_id" d = PStr rid /\ rid <> EmptyString
    /\ ObjectId rid = Some o
    /\ text_of d = Ret text /\ text <> EmptyString
    /\ authenticated (srv t) sid u.

(** The send passes every check: it is well formed, the store has the
    room [room] under [o], and [u] is one of its participants. *)
Definition accepted {E : Env} (sid : string) (data : pyval) (t : Task)
    (u rid : string) (o : oid) (room : Room) (text : string) : Prop :=
  well_formed sid data t u rid o text
  /\ List.find (has_id o) (rooms (db (srv t))) = Some room
  /\ u ∈ r_participant_usernames room.


(** The payload is a string that is not valid JSON ([json.loads] raises
    [JSONDecodeError]), a string that [json.loads] reads as a value that
    is not an object, or a value that is neither a string nor a dict. *)
Definition no_fields_payload {E : Env} (data : pyval) : Prop :=
  match data with
  | PStr s =>
      json_loads s = Raise JSONDecodeError
      \/ exists v, json_loads s = Ret v /\ is_dict v = false
  | PDict _ => False
  | _ => True
  end.

(** What was logged between [t] and [t']. *)
Definition effects_since (t t' : Task) : list Effect :=
  drop (length (log t)) (log t').

(** The messages a log stores, and the number of calls of the generation
    service in it. *)
Definition stored (e : Effect) : option Message :=
  match e with InsertMessage m => Some m | _ => None end.

Definition persisted (l : list Effect) : list Message := omap stored l.

Definition is_dispatch (e : Effect) : bool :=
  match e with GenerateContent _ => true | _ => false end.

Definition dispatches (l : list Effect) : nat := length (List.filter is_dispatch l).

(** The events of a log: name, addressed room, and the sids they were
    delivered to. *)
Definition delivery (e : Effect) : option (string * string * list string) :=
  match e with
  | Emit event _ room recipients => Some (event, room, elements recipients)
  | _ => None
  end.

Definition deliveries (l : list Effect) : list (string * string * list string) :=
  omap delivery l.

(** The [new_message] event that carries the stored message [m] to the
    Socket.IO room [rid]. *)
Definition event_of (rid : string) (m : Message) (recipients : gset string) : Effect :=
  Emit "new_message"
    (NewMessage {| mr_id := m_id m; mr_room_id := rid;
                   mr_sender_username := m_sender_username m;
                   mr_text := m_text m; mr_created_at := m_created_at m |})
    rid recipients.

(** The message text mentions the assistant. *)
Definition mentions (text : string) : Prop :=
  exists pre post, PyStr.lower text = pre +:+ "@ai" +:+ post.

(** The prompt [get_ai_response] builds, and the reply it returns. *)
Definition prompt_for (room : Room) (text : string) : string :=
  ai_prompt (r_name room) (PyStr.strip (PyStr.re_sub_mention 0 false text)).

Definition reply_to {E : Env} (room : Room) (text : string) : string :=
  match generate_content (prompt_for room text) with
  | Ret answer => PyStr.strip answer
  | Raise _ => fallback_text
  end.

(** The connection [sid] is gone from the server: it has no session and
    is in no room. *)
Definition gone (sid : string) (s : Server) : Prop :=
  sid_to_username s !! sid = None /\ forall room, sid ∉ participants s room.

(** The effect is an event that was delivered to [sid]. *)
Definition delivered_to (sid : string) (e : Effect) : Prop :=
  match e with
  | Emit _ _ _ recipients => sid ∈ recipients
  | _ => False
  end.

(** No event of the log was delivered to [sid]. *)
Definition silent_for (sid : string) (l : list Effect) : Prop :=
  Forall (fun e => ~ delivered_to sid e) l.

(** The state of a task after [sid] has left: [sid] is gone, and nothing
    logged after [base] was delivered to it. *)
Definition left_behind (sid : string) (base : list Effect) (t : Task) : Prop :=
  gone sid (srv t) /\ exists l, log t = base ++ l /\ silent_for sid l.

(** The computation [m] keeps [sid] gone. *)
Definition keeps {A} (sid : string) (base : list Effect) (m : M A) : Prop :=
  forall t, left_behind sid base t -> left_behind sid base (snd (m t)).

(** [e] is a connection request for [sid]. *)
Definition connects (sid : string) (e : Event) : Prop :=
  match e with
  | Connect sid' _ => sid' = sid
  | _ => False
  end.

(** ** The HTTP routes: [app/routes] and [app/models.py]

    A route returns its response model or raises [HTTPException]; both are
    values of [Http] here, so that [Raise] stays what FastAPI answers with
    a 500. The header [X-Username] is the argument [x_username]: FastAPI
    refuses a request without it before the route runs. A response model
    is the document it is built from ([str] of an id is kept as the id).
    The calls of the driver that only the routes make (inserting, updating
    and deleting rooms, deleting and listing messages, listing users) have
    no entry in the log, which records the calls that the Socket.IO
    handlers make. *)

From stdpp Require Import sorting.

Inductive Http (A : Type) : Type :=
| Ok (a : A)
| HTTPException (status_code : nat) (detail : string).
Arguments Ok {A} a.
Arguments HTTPException {A} status_code detail.

(** The two orders that the code leaves to the runtime: the order in
    which the store returns documents that are sorted on [created_at], and
    the order in which [list(set(...))] lists the elements of a set. *)
Class Orders := {
  sort_created_at : list Message -> list Message;
  list_of_set : list string -> list string
}.

(** The request bodies [RoomCreate] and [RoomUpdate]. *)
Record RoomCreate := {
  rc_name : string;
  rc_participant_usernames : list string
}.

Record RoomUpdate := {
  ru_name : option string;
  ru_participant_usernames : option (list string)
}.

(** *** More of the store *)

Definition set_rooms (d : Database) (l : list Room) : Database :=
  {| users := users d; rooms := l; messages := messages d |}.

Definition set_messages (d : Database) (l : list Message) : Database :=
  {| users := users d; rooms := rooms d; messages := l |}.

(** The first element that satisfies [p] is replaced by its image. *)
Fixpoint update_first {A} (p : A -> bool) (f : A -> A) (l : list A) : list A :=
  match l with
  | [] => []
  | x :: l' => if p x then f x :: l' else x :: update_first p f l'
  end.

(** The first element that satisfies [p] is removed. *)
Fixpoint delete_first {A} (p : A -> bool) (l : list A) : list A :=
  match l with
  | [] => []
  | x :: l' => if p x then l' else x :: delete_first p l'
  end.

Definition has_participant (username : string) (r : Room) : bool :=
  bool_decide (username ∈ r_participant_usernames r).

Definition in_room (o : oid) (m : Message) : bool := N.eqb (m_room_id m) o.

Definition is_message (id o : oid) (m : Message) : bool :=
  N.eqb (m_id m) id && N.eqb (m_room_id m) o.

(** [db.rooms.insert_one(room_doc)] *)
Definition insert_one_room {E : Env}
    (name owner : string) (participants : list string) (created_at : Z) : M Room :=
  s <- get_srv ;;
  let room := {| r_id := new_oid (db s); r_name := name; r_owner_username := owner;
                 r_participant_usernames := participants;
                 r_created_at := created_at |} in
  set_srv (with_db s (set_rooms (db s) (rooms (db s) ++ [room]))) ;;;
  ret room.

(** [db.rooms.find({"participant_usernames": username}).to_list(length=100)] *)
Definition find_rooms_of (username : string) : M (list Room) :=
  s <- get_srv ;;
  ret (take 100 (List.filter (has_participant username) (rooms (db s)))).

(** [db.rooms.update_one({"_id": oid}, update)], with the update as the
    function it applies to the document. *)
Definition update_one_room (o : oid) (f : Room -> Room) : M unit :=
  s <- get_srv ;;
  set_srv (with_db s (set_rooms (db s) (update_first (has_id o) f (rooms (db s))))).

(** [{"$set": update_doc}] *)
Definition set_fields (name : option string) (participants : option (list string))
    (r : Room) : Room :=
  {| r_id := r_id r;
     r_name := default (r_name r) name;
     r_owner_username := r_owner_username r;
     r_participant_usernames := default (r_participant_usernames r) participants;
     r_created_at := r_created_at r |}.

(** [{"$push": {"participant_usernames": username}}] *)
Definition push_participant (username : string) (r : Room) : Room :=
  set_fields None (Some (r_participant_usernames r ++ [username])) r.

(** [{"$pull": {"participant_usernames": username}}] *)
Definition pull_participant (username : string) (r : Room) : Room :=
  set_fields None
    (Some (List.filter (fun p => negb (String.eqb p username)) (r_participant_usernames r)))
    r.

(** [db.rooms.delete_one({"_id": oid})] *)
Definition delete_one_room (o : oid) : M unit :=
  s <- get_srv ;;
  set_srv (with_db s (set_rooms (db s) (delete_first (has_id o) (rooms (db s))))).

(** [db.messages.delete_many({"room_id": oid})] *)
Definition delete_many_messages (o : oid) : M unit :=
  s <- get_srv ;;
  set_srv (with_db s (set_messages (db s)
                        (List.filter (fun m => negb (in_room o m)) (messages (db s))))).

(** [db.messages.find_one({"_id": msg_oid, "room_id": room_oid})] *)
Definition find_one_message (id o : oid) : M (option Message) :=
  s <- get_srv ;;
  ret (List.find (is_message id o) (messages (db s))).

(** [db.messages.delete_one({"_id": msg_oid})] *)
Definition delete_one_message (id : oid) : M unit :=
  s <- get_srv ;;
  set_srv (with_db s (set_messages (db s)
                        (delete_first (fun m => N.eqb (m_id m) id) (messages (db s))))).

(** [db.messages.find({"room_id": room_oid}).sort("created_at", 1)
    .limit(limit).to_list(length=limit)], for [limit >= 1]. *)
Definition find_messages {O : Orders} (o : oid) (limit : nat) : M (list Message) :=
  s <- get_srv ;;
  ret (take limit (sort_created_at (List.filter (in_room o) (messages (db s))))).

(** [db.users.find().to_list(length=1000)] *)
Definition find_users : M (list User) :=
  s <- get_srv ;;
  ret (take 1000 (users (db s))).

(** *** [app/models.py] *)

(** [room_to_response(room)]; on [None], which [find_one] returns for a
    room that is gone, the subscript raises [TypeError]. *)
Definition room_to_response (room : option Room) : M (Http Room) :=
  match room with
  | Some room => ret (Ok room)
  | None => raise (OtherError "TypeError")
  end.

(** [raise HTTPException(...)] *)
Definition http_error {A} (status_code : nat) (detail : string) : M (Http A) :=
  ret (HTTPException status_code detail).

(** The rest of a route after a call that may raise [HTTPException]. *)
Definition checked {A B} (h : Http A) (k : A -> M (Http B)) : M (Http B) :=
  match h with
  | Ok a => k a
  | HTTPException status_code detail => ret (HTTPException status_code detail)
  end.

(** *** [app/routes/rooms.py] *)

Module Rooms.

Definition validate_object_id {E : Env} (id_str : string) : Http oid :=
  match ObjectId id_str with
  | Some o => Ok o
  | None => HTTPException 400 "Invalid room ID format"
  end.

(** The loop of [create_room] over the requested participants. *)
Fixpoint add_requested {E : Env} (username : string) (requested participants : list string)
    : M (Http (list string)) :=
  match requested with
  | [] => ret (Ok participants)
  | participant :: rest =>
      let participant := PyStr.strip participant in
      if negb (String.eqb participant EmptyString) && negb (String.eqb participant username)
      then
        existing <- await (find_one_user participant) ;;
        match existing with
        | None => http_error 400 ("User '" +:+ participant +:+ "' does not exist")
        | Some _ =>
            add_requested username rest
              (if bool_decide (participant ∈ participants) then participants
               else participants ++ [participant])
        end
      else add_requested username rest participants
  end.

Definition create_room {E : Env} (room_data : RoomCreate) (x_username : string)
    : M (Http Room) :=
  let username := PyStr.strip x_username in
  get_or_create_user username ;;;
  added <- add_requested username (rc_participant_usernames room_data) [username] ;;
  checked added (fun participants =>
    created_at <- now ;;
    room <- await (insert_one_room (rc_name room_data) username participants created_at) ;;
    room_to_response (Some room)).

Definition get_my_rooms {E : Env} (x_username : string) : M (Http (list Room)) :=
  let username := PyStr.strip x_username in
  get_or_create_user username ;;;
  rooms <- await (find_rooms_of username) ;;
  ret (Ok rooms).

Definition get_room {E : Env} (room_id x_username : string) : M (Http Room) :=
  let username := PyStr.strip x_username in
  checked (validate_object_id room_id) (fun oid =>
    get_or_create_user username ;;;
    room <- await (find_one_room oid) ;;
    match room with
    | None => http_error 404 "Room not found"
    | Some room =>
        if negb (bool_decide (username ∈ r_participant_usernames room))
        then http_error 403 "Not a participant of this room"
        else room_to_response (Some room)
    end).

(** The loop of [update_room] that signs the participants up. *)
Fixpoint create_each {E : Env} (participants : list string) : M unit :=
  match participants with
  | [] => ret tt
  | participant :: rest => get_or_create_user participant ;;; create_each rest
  end.

Definition update_room {E : Env} {O : Orders}
    (room_id : string) (room_update : RoomUpdate) (x_username : string) : M (Http Room) :=
  let username := PyStr.strip x_username in
  checked (validate_object_id room_id) (fun oid =>
    get_or_create_user username ;;;
    room <- await (find_one_room oid) ;;
    match room with
    | None => http_error 404 "Room not found"
    | Some room =>
        if negb (String.eqb (r_owner_username room) username)
        then http_error 403 "Only owner can update room"
        else
          participants <-
            match ru_participant_usernames room_update with
            | None => ret None
            | Some requested =>
                let participants := list_of_set requested in
                let participants :=
                  if bool_decide (username ∈ participants) then participants
                  else participants ++ [username] in
                create_each participants ;;;
                ret (Some participants)
            end ;;
          match ru_name room_update, participants with
          | None, None => room_to_response (Some room)
          | name, participants =>
              await (update_one_room oid (set_fields name participants)) ;;;
              room <- await (find_one_room oid) ;;
              room_to_response room
          end
    end).

Definition delete_room {E : Env} (room_id x_username : string) : M (Http string) :=
  let username := PyStr.strip x_username in
  checked (validate_object_id room_id) (fun oid =>
    get_or_create_user username ;;;
    room <- await (find_one_room oid) ;;
    match room with
    | None => http_error 404 "Room not found"
    | Some room =>
        if negb (String.eqb (r_owner_username room) username)
        then http_error 403 "Only owner can delete room"
        else
          await (delete_many_messages oid) ;;;
          await (delete_one_room oid) ;;;
          ret (Ok "Room deleted successfully")
    end).

Definition add_participant {E : Env} (room_id participant_username x_username : string)
    : M (Http Room) :=
  let username := PyStr.strip x_username in
  let participant_username := PyStr.strip participant_username in
  checked (validate_object_id room_id) (fun oid =>
    get_or_create_user username ;;;
    room <- await (find_one_room oid) ;;
    match room with
    | None => http_error 404 "Room not found"
    | Some room =>
        if negb (String.eqb (r_owner_username room) username)
        then http_error 403 "Only owner can add participants"
        else
          existing <- await (find_one_user participant_username) ;;
          match existing with
          | None =>
              http_error 400 ("User '" +:+ participant_username +:+ "' does not exist")
          | Some _ =>
              if negb (bool_decide (participant_username ∈ r_participant_usernames room))
              then
                await (update_one_room oid (push_participant participant_username)) ;;;
                room <- await (find_one_room oid) ;;
                room_to_response room
              else room_to_response (Some room)
          end
    end).

Definition remove_participant {E : Env} (room_id participant_username x_username : string)
    : M (Http Room) :=
  let username := PyStr.strip x_username in
  let participant_username := PyStr.strip participant_username in
  checked (validate_object_id room_id) (fun oid =>
    get_or_create_user username ;;;
    room <- await (find_one_room oid) ;;
    match room with
    | None => http_error 404 "Room not found"
    | Some room =>
        if negb (String.eqb (r_owner_username room) username)
        then http_error 403 "Only owner can remove participants"
        else if String.eqb participant_username (r_owner_username room)
        then http_error 400 "Cannot remove owner from room"
        else if bool_decide (participant_username ∈ r_participant_usernames room)
        then
          await (update_one_room oid (pull_participant participant_username)) ;;;
          room <- await (find_one_room oid) ;;
          room_to_response room
        else room_to_response (Some room)
    end).

End Rooms.

(** *** [app/routes/messages.py] *)

Module Messages.

Definition validate_object_id {E : Env} (id_str field_name : string) : Http oid :=
  match ObjectId id_str with
  | Some o => Ok o
  | None => HTTPException 400 ("Invalid " +:+ field_name +:+ " format")
  end.

(** [limit] has passed FastAPI's check [1 <= limit <= 200]. *)
Definition get_messages {E : Env} {O : Orders} (room_id : string) (limit : nat)
    (x_username : string) : M (Http (list Message)) :=
  let username := PyStr.strip x_username in
  checked (validate_object_id room_id "room ID") (fun room_oid =>
    get_or_create_user username ;;;
    room <- await (find_one_room room_oid) ;;
    match room with
    | None => http_error 404 "Room not found"
    | Some room =>
        if negb (bool_decide (username ∈ r_participant_usernames room))
        then http_error 403 "Not a participant of this room"
        else
          messages <- await (find_messages room_oid limit) ;;
          ret (Ok messages)
    end).

Definition delete_message {E : Env} (room_id message_id x_username : string)
    : M (Http string) :=
  let username := PyStr.strip x_username in
  checked (validate_object_id room_id "room ID") (fun room_oid =>
  checked (validate_object_id message_id "message ID") (fun msg_oid =>
    get_or_create_user username ;;;
    room <- await (find_one_room room_oid) ;;
    match room with
    | None => http_error 404 "Room not found"
    | Some room =>
        message <- await (find_one_message msg_oid room_oid) ;;
        match message with
        | None => http_error 404 "Message not found"
        | Some message =>
            let is_sender := String.eqb (m_sender_username message) username in
            let is_owner := String.eqb (r_owner_username room) username in
            if negb is_sender && negb is_owner
            then http_error 403 "Only message sender or room owner can delete"
            else
              await (delete_one_message msg_oid) ;;;
              ret (Ok "Message deleted successfully")
        end
    end)).

End Messages.

(** *** [app/routes/users.py] *)

Module Users.

Definition get_users {E : Env} : M (Http (list User)) :=
  users <- await find_users ;;
  ret (Ok users).

Definition get_me {E : Env} (x_username : string) : M (Http User) :=
  if String.eqb x_username EmptyString || String.eqb (PyStr.strip x_username) EmptyString
  then http_error 400 "Username cannot be empty"
  else
    user <- get_or_create_user (PyStr.strip x_username) ;;
    ret (Ok user).

End Users.

(** *** The requests of the HTTP interface

    The routers that [app/main.py] includes, as the requests they accept.
    FastAPI has checked the query parameter [limit] of [get_messages]
    ([ge=1], [le=200]) before the route runs; a request that fails the
    check is answered without running any code of the application. The
    response goes to the client; what stays is the state. *)

Inductive Request : Type :=
| GetUsers
| GetMe (x_username : string)
| CreateRoom (room_data : RoomCreate) (x_username : string)
| GetMyRooms (x_username : string)
| GetRoom (room_id x_username : string)
| UpdateRoom (room_id : string) (room_update : RoomUpdate) (x_username : string)
| DeleteRoom (room_id x_username : string)
| AddParticipant (room_id participant_username x_username : string)
| RemoveParticipant (room_id participant_username x_username : string)
| GetMessages (room_id : string) (limit : nat) (x_username : string)
| DeleteMessage (room_id message_id x_username : string).

Definition serve {E : Env} {O : Orders} (r : Request) : M unit :=
  match r with
  | GetUsers => Users.get_users ;;; ret tt
  | GetMe x_username => Users.get_me x_username ;;; ret tt
  | CreateRoom room_data x_username => Rooms.create_room room_data x_username ;;; ret tt
  | GetMyRooms x_username => Rooms.get_my_rooms x_username ;;; ret tt
  | GetRoom room_id x_username => Rooms.get_room room_id x_username ;;; ret tt
  | UpdateRoom room_id room_update x_username =>
      Rooms.update_room room_id room_update x_username ;;; ret tt
  | DeleteRoom room_id x_username => Rooms.delete_room room_id x_username ;;; ret tt
  | AddParticipant room_id participant_username x_username =>
      Rooms.add_participant room_id participant_username x_username ;;; ret tt
  | RemoveParticipant room_id participant_username x_username =>
      Rooms.remove_participant room_id participant_username x_username ;;; ret tt
  | GetMessages room_id limit x_username =>
      if ((1 <=? limit) && (limit <=? 200))%nat
      then Messages.get_messages room_id limit x_username ;;; ret tt
      else ret tt
  | DeleteMessage room_id message_id x_username =>
      Messages.delete_message room_id message_id x_username ;;; ret tt
  end.

(** What reaches the combined ASGI application [socket_app]: an HTTP
    request or a Socket.IO event. *)
Inductive Call : Type :=
| OnRoute (r : Request)
| OnSocket (e : Event).

Definition answer {E : Env} {O : Orders} (c : Call) : M unit :=
  match c with
  | OnRoute r => serve r
  | OnSocket e => handle e
  end.

(** The calls one after the other; a call that raises is answered with a
    500 or logged, and the server goes on. *)
Fixpoint serve_all {E : Env} {O : Orders} (calls : list Call) (t : Task) : Task :=
  match calls with
  | [] => t
  | c :: rest => serve_all rest (snd (answer c t))
  end.

(** [created_at] ascending. *)
Definition older (a b : Message) : Prop := (m_created_at a <= m_created_at b)%Z.

#[global] Instance older_dec : RelDecision older :=
  fun a b => decide (m_created_at a <= m_created_at b)%Z.

(** *** A concrete store *)

Module SampleStore.

(** Documents sorted on [created_at] by a stable merge sort; the elements
    of a set in the order of their first occurrence. *)
Definition orders : Orders :=
  {| sort_created_at := merge_sort older;
     list_of_set := remove_dups |}.

Definition note (id : oid) (room : oid) (sender text : string) (created_at : Z) : Message :=
  {| m_id := id; m_room_id := room; m_sender_username := sender; m_text := text;
     m_created_at := created_at |}.

Definition den_hex : string := "0000000000000000000000bb".

Definition den : Room :=
  {| r_id := 187; r_name := "den"; r_owner_username := "carol";
     r_participant_usernames := ["carol"]; r_created_at := 5 |}.

(** The sample server with bob signed up, a second room that carol owns,
    and four stored messages, three of them in the lobby. *)
Definition server : Server :=
  {| sid_to_username := sid_to_username Sample.server;
     db := {| users := [{| u_id := 1; u_username := "alice" |};
                        {| u_id := 2; u_username := "carol" |};
                        {| u_id := 3; u_username := "bob" |}];
              rooms := [Sample.lobby; den];
              messages := [note 11 170 "alice" "third" 30; note 12 187 "carol" "memo" 15;
                           note 13 170 "bob" "first" 10; note 14 170 "alice" "second" 20] |};
     sio_rooms := sio_rooms Sample.server |}.

End SampleStore.

(** ** Vocabulary of the properties of the routes *)

(** The server state after [get_or_create_user username] when no other
    task runs in between. *)
Definition signed_up {E : Env} (username : string) (s : Server) : Server :=
  match List.find (has_username username) (users (db s)) with
  | Some _ => s
  | None =>
      with_db s {| users := users (db s)
                            ++ [{| u_id := new_oid (db s); u_username := username |}];
                   rooms := rooms (db s);
                   messages := messages (db s) |}
  end.

(** The store has a user of that name. *)
Definition known_user (s : Server) (username : string) : Prop :=
  exists user, user ∈ users (db s) /\ u_username user = username.

(** The owner of every stored room is one of its participants. *)
Definition owners_participate (s : Server) : Prop :=
  forall room, room ∈ rooms (db s) -> r_owner_username room ∈ r_participant_usernames room.

(** [room_id] reads as [o], the store has the room [room] under [o], and
    [username] owns it. *)
Definition owns {E : Env} (s : Server) (room_id username : string) (o : oid) (room : Room)
    : Prop :=
  ObjectId room_id = Some o
  /\ List.find (has_id o) (rooms (db s)) = Some room
  /\ r_owner_username room = username.

(** The route answered with its response model. *)
Definition answered_ok {A} (r : Res (Http A)) : Prop := exists a, r = Ret (Ok a).

(** The route did not answer with its response model, and the stored
    rooms and messages are what they were. *)
Definition turned_down {A} (r : Res (Http A) * Task) (t : Task) : Prop :=
  ~ answered_ok (fst r)
  /\ rooms (db (srv (snd r))) = rooms (db (srv t))
  /\ messages (db (srv (snd r))) = messages (db (srv t)).

(** The calls of the store that the log records: they notify nobody. *)
Definition store_only (e : Effect) : Prop :=
  match e with
  | FindUser _ | InsertUser _ | FindRoom _ => True
  | _ => False
  end.

(** Since the log was [base] the task has only called the store, and the
    sessions and the Socket.IO rooms satisfy [P]. *)
Definition offstage (P : gmap string string -> gmap string (gset string) -> Prop)
    (base : list Effect) (t : Task) : Prop :=
  P (sid_to_username (srv t)) (sio_rooms (srv t))
  /\ exists l, log t = base ++ l /\ Forall store_only l.

(** The computation [m] keeps the property [J] of the task. *)
Definition lasting {A} (J : Task -> Prop) (m : M A) : Prop :=
  forall t, J t -> J (snd (m t)).

(** What the code expects of the two orders: sorting rearranges the
    documents into ascending [created_at]; the list of a set has the
    elements of the set, each once. *)
Definition sorts_by_created_at {O : Orders} : Prop :=
  forall l, sort_created_at l ≡ₚ l /\ StronglySorted older (sort_created_at l).

Definition lists_each_once {O : Orders} : Prop :=
  forall l, NoDup (list_of_set l) /\ forall x, x ∈ list_of_set l <-> x ∈ l.

(** ** Vocabulary of the further properties *)

(** No other task touches the shared state while a handler is
    suspended. *)
Definition undisturbed {E : Env} : Prop := forall n s, sched n s = s.

(** A username as [connect] stores it: not empty, and equal to its own
    [strip]. *)
Definition trimmed (u : string) : Prop :=
  u <> EmptyString /\ PyStr.strip u = u.

(** Every session holds a trimmed username. *)
Definition sessions_trimmed (s : Server) : Prop :=
  forall sid u, sid_to_username s !! sid = Some u -> trimmed u.

(** The join passes every check of [join_room]: the payload is (or parses
    to) a dict whose [room_id] is the non-empty [str] [rid] that
    [ObjectId] reads as [o]; [sid] has a session for [u]; the store has
    the room [room] under [o], and [u] is one of its participants. *)
Definition may_join {E : Env} (sid : string) (data : pyval) (t : Task)
    (u rid : string) (o : oid) (room : Room) : Prop :=
  (exists d, parse_payload data = Ret d /\ get_field "room_id" d = PStr rid)
  /\ rid <> EmptyString
  /\ ObjectId rid = Some o
  /\ authenticated (srv t) sid u
  /\ List.find (has_id o) (rooms (db (srv t))) = Some room
  /\ u ∈ r_participant_usernames room.

(** The task after a join that passed: the room was fetched, the sid
    entered the Socket.IO room [rid], and [joined_room] was sent to it. *)
Definition after_join {E : Env} (sid rid : string) (o : oid) (t : Task) : Task :=
  let s1 := sched (awaits t) (srv t) in
  let s2 := sched (S (awaits t))
              (with_rooms s1 (<[rid := {[sid]} ∪ participants s1 rid]> (sio_rooms s1))) in
  {| srv := sched (S (S (awaits t))) s2;
     log := log t ++ [FindRoom o; EnterRoom sid rid;
                      Emit "joined_room" (RoomRef (PStr rid)) sid (participants s2 sid)];
     awaits := S (S (S (awaits t)));
     reads := reads t |}.

(** The computation [m] keeps the property [I] of the server state. *)
Definition steady {A} (I : Server -> Prop) (m : M A) : Prop :=
  forall t, I (srv t) -> I (srv (snd (m t))).

(** The database [d'] holds what [d] holds and possibly more: the same
    rooms, and the users and the messages of [d] followed by new ones. *)
Definition grown_from (d d' : Database) : Prop :=
  rooms d' = rooms d
  /\ users d `prefix_of` users d'
  /\ messages d `prefix_of` messages d'.

(** * Properties *)

(** ** Strings *)

Module PyStrFacts.
Import PyStr.

Lemma all_space_lstrip s : all_space (lstrip s) = all_space s.
Proof.
  induction s as [|c s IH]; simpl; [reflexivity|].
  destruct (isspace c) eqn:Hc; simpl; [exact IH | now rewrite Hc].
Qed.

Lemma rstrip_empty s : rstrip s = EmptyString <-> all_space s = true.
Proof.
  induction s as [|c s IH]; simpl; [tauto|].
  destruct (rstrip s) eqn:Hr, (isspace c) eqn:Hc; simpl; split; intros Hs;
    try discriminate; try reflexivity.
  - apply IH; reflexivity.
  - apply IH in Hs. discriminate.
Qed.

(** [s.strip()] is empty exactly when [s] is empty or all spaces. *)
Lemma strip_empty s : strip s = EmptyString <-> all_space s = true.
Proof. unfold strip. rewrite rstrip_empty, all_space_lstrip. reflexivity. Qed.

Lemma prefix_app needle hay :
  String.prefix needle hay = true <-> exists post, hay = needle +:+ post.
Proof.
  revert hay. induction needle as [|c n IH]; intros hay; simpl.
  - split; [intros _; now exists hay | intros _; destruct hay; reflexivity].
  - destruct hay as [|d h].
    + split; [discriminate | intros [post Hp]; discriminate].
    + simpl. destruct (ascii_dec c d) as [->|Hne].
      * split.
        -- intros Hp. apply IH in Hp as [post ->]. now exists post.
        -- intros [post Hp]. simpl in Hp. injection Hp as ->.
           apply IH. now exists post.
      * split; [discriminate | intros [post Hp]; simpl in Hp].
        injection Hp as Hcd _. now destruct Hne.
Qed.

(** [needle in hay] is the literal substring test. *)
Lemma contains_substring needle hay :
  contains needle hay = true <-> exists pre post, hay = pre +:+ needle +:+ post.
Proof.
  induction hay as [|d h IH].
  - cbn [contains]. destruct (String.prefix needle EmptyString) eqn:Hp.
    + apply prefix_app in Hp as [post Hp]. split; [|intros _; reflexivity].
      intros _. now exists EmptyString, post.
    + split; [discriminate|]. intros ([|c pre] & post & Hh); simpl in Hh.
      * assert (String.prefix needle EmptyString = true) as Ht
          by (apply prefix_app; now exists post).
        congruence.
      * discriminate.
  - cbn [contains]. destruct (String.prefix needle (String d h)) eqn:Hp.
    + apply prefix_app in Hp as [post Hp]. split; [|intros _; reflexivity].
      intros _. now exists EmptyString, post.
    + rewrite IH. split.
      * intros (pre & post & ->). now exists (String d pre), post.
      * intros ([|c pre] & post & Hh); simpl in Hh.
        -- assert (String.prefix needle (String d h) = true) as Ht
             by (apply prefix_app; now exists post).
           congruence.
        -- injection Hh as _ ->. now exists pre, post.
Qed.

End PyStrFacts.

(** ** Running the monad *)

Section Run.
Context {E : Env}.

Lemma emit_error_run sid message t :
  emit_error sid message t = (Ret tt, after_error sid message t).
Proof. reflexivity. Qed.

Lemma str_truthy_authenticated s sid (username : string) :
  authenticated s sid username -> str_truthy (sid_to_username s !! sid) = true.
Proof. intros [-> Hne]. destruct username; [congruence | reflexivity]. Qed.

End Run.

(** ** Identity: [get_or_create_user] and [connect] *)

Section Identity.
Context {E : Env}.

(** C1, as the code has it. [get_or_create_user] looks the username up
    once and, when the lookup finds nothing, inserts once. A user found
    by the lookup is returned. When the username is still free at the
    insert, the new user is stored and returned. When another task has
    created the username between the lookup and the insert, the insert
    fails and [DuplicateKeyError] is raised to the caller: there is no
    second lookup. *)
Theorem get_or_create_user_cases (username : string) (t : Task) :
  let s1 := sched (awaits t) (srv t) in
  (forall u, List.find (has_username username) (users (db (srv t))) = Some u ->
     get_or_create_user username t =
       (Ret u, {| srv := s1; log := log t ++ [FindUser username];
                  awaits := S (awaits t); reads := reads t |})
     /\ u_username u = username)
  /\ (List.find (has_username username) (users (db (srv t))) = None ->
      existsb (has_username username) (users (db s1)) = false ->
      let new := {| u_id := new_oid (db s1); u_username := username |} in
      get_or_create_user username t =
        (Ret new,
         {| srv := sched (S (awaits t))
                     (with_db s1 {| users := users (db s1) ++ [new];
                                    rooms := rooms (db s1);
                                    messages := messages (db s1) |});
            log := log t ++ [FindUser username; InsertUser username];
            awaits := S (S (awaits t)); reads := reads t |}))
  /\ (List.find (has_username username) (users (db (srv t))) = None ->
      existsb (has_username username) (users (db s1)) = true ->
      get_or_create_user username t =
        (Raise DuplicateKeyError,
         {| srv := s1; log := log t ++ [FindUser username; InsertUser username];
            awaits := S (awaits t); reads := reads t |})).
Proof.
  intros s1. unfold get_or_create_user, await, find_one_user, insert_one_user.
  split; [|split].
  - intros u Hu. split.
    + unfold bind; simpl. now rewrite Hu.
    + apply find_some in Hu as [_ Hu]. now apply String.eqb_eq in Hu.
  - intros Hf Hex. unfold bind; simpl. rewrite Hf; simpl. fold s1.
    rewrite Hex. simpl. now rewrite <- app_assoc.
  - intros Hf Hex. unfold bind; simpl. rewrite Hf; simpl. fold s1.
    rewrite Hex; simpl. now rewrite <- app_assoc.
Qed.

(** C2. A connection request that carries no username is rejected by
    [connect] before anything else happens: the handler returns [False]
    and the task is as it was (no lookup or insert in the store, no
    event, no suspension, no session). The server then drops the sid:
    after [on_connect] the session table and the database are unchanged,
    nothing was logged, and the sid is in no room. *)
Theorem connect_without_username_rejected
    (sid : string) (environ : gmap string string) (t : Task) :
  carries_no_username environ ->
  connect sid environ t = (Ret false, t)
  /\ fst (on_connect sid environ t) = Ret false
  /\ sid_to_username (srv (snd (on_connect sid environ t))) = sid_to_username (srv t)
  /\ db (srv (snd (on_connect sid environ t))) = db (srv t)
  /\ log (snd (on_connect sid environ t)) = log t
  /\ awaits (snd (on_connect sid environ t)) = awaits t.
Proof.
  intros Hno.
  assert (str_truthy (get_username_from_query environ) = false) as Hq.
  { unfold carries_no_username in Hno. unfold get_username_from_query.
    destruct (default [] _) as [|u rest]; [reflexivity|].
    apply PyStrFacts.strip_empty in Hno. now rewrite Hno. }
  assert (connect sid environ t = (Ret false, t)) as Hc.
  { unfold connect. now rewrite Hq. }
  split; [exact Hc|].
  unfold on_connect, sio_manager_connect, sio_manager_disconnect.
  unfold bind at 1 2 3. simpl. unfold connect. rewrite Hq. simpl.
  repeat split.
Qed.

End Identity.

(** C1 as the specification states it fails: alice and carol are the only
    users, and another task signs dave up between the lookup and the
    insert of [get_or_create_user "dave"]. The insert fails, and the
    caller gets [DuplicateKeyError] instead of the user that now exists;
    one lookup was made, before the insert, and none after it. [connect]
    passes the exception on. *)
Lemma get_or_create_user_raced :
  List.find (has_username "dave") (users (db Sample.server)) = None
  /\ fst (get_or_create_user (E := Sample.racing "dave") "dave" (start Sample.server))
     = Raise DuplicateKeyError
  /\ log (snd (get_or_create_user (E := Sample.racing "dave") "dave" (start Sample.server)))
     = [FindUser "dave"; InsertUser "dave"]
  /\ users (db (srv (snd (get_or_create_user (E := Sample.racing "dave") "dave"
                            (start Sample.server)))))
     = [{| u_id := 1; u_username := "alice" |}; {| u_id := 2; u_username := "carol" |};
        {| u_id := 99; u_username := "dave" |}]
  /\ fst (connect (E := Sample.racing "dave") "s4"
            {["QUERY_STRING" := "EIO=4&username=dave"]} (start Sample.server))
     = Raise DuplicateKeyError.
Proof. vm_compute. repeat split. Qed.

Lemma get_or_create_user_cases_witness :
  fst (get_or_create_user (E := Sample.quiet) "alice" (start Sample.server))
    = Ret {| u_id := 1; u_username := "alice" |}
  /\ fst (get_or_create_user (E := Sample.quiet) "dave" (start Sample.server))
    = Ret {| u_id := 3; u_username := "dave" |}
  /\ fst (get_or_create_user (E := Sample.racing "erin") "erin" (start Sample.server))
    = Raise DuplicateKeyError.
Proof.
  pose proof (get_or_create_user_cases (E := Sample.quiet) "alice" (start Sample.server))
    as (Hfound & _ & _).
  pose proof (get_or_create_user_cases (E := Sample.quiet) "dave" (start Sample.server))
    as (_ & Hnew & _).
  pose proof (get_or_create_user_cases (E := Sample.racing "erin") "erin" (start Sample.server))
    as (_ & _ & Hraced).
  destruct (Hfound _ eq_refl) as [-> _].
  rewrite (Hnew eq_refl eq_refl), (Hraced eq_refl eq_refl).
  repeat split.
Defined.

Lemma connect_without_username_rejected_witness :
  connect (E := Sample.quiet) "s9" {["QUERY_STRING" := "EIO=4&transport=polling&username=++"]}
    (start Sample.server)
  = (Ret false, start Sample.server).
Proof.
  apply (connect_without_username_rejected (E := Sample.quiet)).
  vm_compute. reflexivity.
Defined.

(** ** The message pipeline: [send_message] *)

Section Pipeline.
Context {E : Env}.

Lemma truthy_PStr rid : rid <> EmptyString -> truthy (PStr rid) = true.
Proof. destruct rid; [congruence | reflexivity]. Qed.

Lemma eqb_nonempty text : text <> EmptyString -> String.eqb text EmptyString = false.
Proof. destruct text; [congruence | reflexivity]. Qed.

(** What an accepted send does: one lookup of the room, the sender's
    message stored and broadcast, and, exactly when the lowercased text
    contains [@ai], one call of the generation service followed by the
    assistant's message stored and broadcast. *)
Lemma send_message_accepted sid data t u rid o room text :
  accepted sid data t u rid o room text ->
  exists m rec,
    m_room_id m = o /\ m_sender_username m = u /\ m_text m = text
    /\ m_created_at m = utcnow (reads t)
    /\ fst (send_message sid data t) = Ret tt
    /\ if PyStr.contains "@ai" (PyStr.lower text)
       then exists m_ai rec_ai,
           m_room_id m_ai = o /\ m_sender_username m_ai = AI
           /\ m_text m_ai = reply_to room text
           /\ m_created_at m_ai = utcnow (S (reads t))
           /\ log (snd (send_message sid data t))
              = log t ++ [FindRoom o; InsertMessage m; event_of rid m rec;
                          GenerateContent (prompt_for room text);
                          InsertMessage m_ai; event_of rid m_ai rec_ai]
       else log (snd (send_message sid data t))
            = log t ++ [FindRoom o; InsertMessage m; event_of rid m rec].
Proof.
  intros ((d & Hd & Hrid & Hne & Ho & Htext & Htne & Hauth) & Hroom & Hin).
  destruct (send_message sid data t) as [res t'] eqn:Hrun.
  unfold send_message, load_payload, get_text, lookup_session, lift in Hrun.
  unfold bind at 1 in Hrun. rewrite Hd in Hrun.
  unfold bind at 1 in Hrun. rewrite Htext in Hrun.
  unfold bind at 1 in Hrun. simpl in Hrun.
  rewrite (str_truthy_authenticated _ _ _ Hauth) in Hrun.
  destruct Hauth as [Hu Hune].
  rewrite Hu, Hrid, (truthy_PStr _ Hne), (eqb_nonempty _ Htne) in Hrun.
  simpl in Hrun. rewrite Ho in Hrun. simpl in Hrun.
  unfold await, find_one_room in Hrun. unfold bind at 1 2 3 4 in Hrun.
  simpl in Hrun. rewrite Hroom in Hrun. simpl in Hrun.
  rewrite (bool_decide_eq_true_2 _ Hin) in Hrun. simpl in Hrun.
  unfold emit_new_message, await, insert_one_message, sio_emit, now in Hrun.
  destruct (PyStr.contains "@ai" (PyStr.lower text)).
  - unfold get_ai_response in Hrun. fold (prompt_for room text) in Hrun.
    assert (forall t0, match generate_content (prompt_for room text) with
                       | Ret answer => ret (PyStr.strip answer)
                       | Raise _ => ret fallback_text
                       end t0 = (Ret (reply_to room text), t0)) as Hreply.
    { intros t0. unfold reply_to. now destruct (generate_content _). }
    unfold bind, tell, get_srv, set_srv, suspend in Hrun. simpl in Hrun.
    rewrite Hreply in Hrun. simpl in Hrun.
    injection Hrun as <- <-. simpl.
    eexists {| m_id := _; m_room_id := o; m_sender_username := u; m_text := text;
               m_created_at := utcnow (reads t) |}.
    eexists. do 5 (split; [reflexivity|]).
    eexists {| m_id := _; m_room_id := o; m_sender_username := AI;
               m_text := reply_to room text; m_created_at := utcnow (S (reads t)) |}.
    eexists. do 4 (split; [reflexivity|]).
    unfold event_of. rewrite <- !app_assoc. simpl. reflexivity.
  - unfold bind, tell, get_srv, set_srv, suspend, ret in Hrun. simpl in Hrun.
    injection Hrun as <- <-. simpl.
    eexists {| m_id := _; m_room_id := o; m_sender_username := u; m_text := text;
               m_created_at := utcnow (reads t) |}.
    eexists. do 5 (split; [reflexivity|]).
    unfold event_of. rewrite <- !app_assoc. simpl. reflexivity.
Qed.

Lemma to_ObjectId_Some v o rid :
  to_ObjectId v = Some (o, rid) -> v = PStr rid /\ ObjectId rid = Some o.
Proof.
  destruct v; simpl; try discriminate.
  destruct (ObjectId s) eqn:Ho; simpl; [|discriminate].
  intros [= <- <-]. now split.
Qed.

(** Every run of [send_message] takes one of four paths: it raises
    before doing anything; it only reports an error to the sender; it
    looks the room up and then only reports an error to the sender; or
    the send is accepted. *)
Lemma send_message_paths sid data t :
  (exists e, send_message sid data t = (Raise e, t))
  \/ (exists message, send_message sid data t = (Ret tt, after_error sid message t))
  \/ (exists o message,
        send_message sid data t = (Ret tt, after_error sid message (after_find o t)))
  \/ (exists u rid o room text, accepted sid data t u rid o room text).
Proof.
  destruct (send_message sid data t) as [res t'] eqn:Hrun.
  unfold send_message, load_payload, get_text, lookup_session, lift in Hrun.
  unfold bind at 1 in Hrun.
  destruct (parse_payload data) as [d|e] eqn:Hd;
    [|injection Hrun as <- <-; left; now exists e].
  unfold bind at 1 in Hrun.
  destruct (text_of d) as [text|e] eqn:Htext;
    [|injection Hrun as <- <-; left; now exists e].
  unfold bind at 1 in Hrun. simpl in Hrun.
  destruct (sid_to_username (srv t) !! sid) as [[|c u]|] eqn:Hu; simpl in Hrun;
    try (rewrite <- Hrun; right; left; eexists; apply emit_error_run).
  destruct (truthy (get_field "room_id" d)) eqn:Htr; simpl in Hrun;
    [|rewrite <- Hrun; right; left; eexists; apply emit_error_run].
  destruct (String.eqb text EmptyString) eqn:Hte;
    [rewrite <- Hrun; right; left; eexists; apply emit_error_run|].
  destruct (to_ObjectId (get_field "room_id" d)) as [[o rid]|] eqn:Ho;
    [|rewrite <- Hrun; right; left; eexists; apply emit_error_run].
  apply to_ObjectId_Some in Ho as [Hrid Ho].
  unfold await, find_one_room in Hrun. unfold bind at 1 2 3 4 in Hrun.
  simpl in Hrun.
  destruct (find (has_id o) (rooms (db (srv t)))) as [room|] eqn:Hroom; simpl in Hrun;
    [|rewrite <- Hrun; right; right; left; eexists _, _; apply emit_error_run].
  destruct (bool_decide (String c u ∈ r_participant_usernames room)) eqn:Hin;
    simpl in Hrun;
    [|rewrite <- Hrun; right; right; left; eexists _, _; apply emit_error_run].
  right; right; right. exists (String c u), rid, o, room, text.
  apply bool_decide_eq_true_1 in Hin. apply String.eqb_neq in Hte.
  rewrite Hrid in Htr. split; [exists d|now split].
  repeat split; try assumption; try discriminate.
  intros ->. discriminate.
Qed.

Lemma effects_since_app t t' l : log t' = log t ++ l -> effects_since t t' = l.
Proof. unfold effects_since. intros ->. apply drop_app_length. Qed.

Lemma effects_after_error sid message t :
  effects_since t (after_error sid message t)
  = [Emit "error" (ErrorMessage message) sid (participants (srv t) sid)].
Proof. now apply effects_since_app. Qed.

Lemma effects_after_find_error sid message o t :
  effects_since t (after_error sid message (after_find o t))
  = [FindRoom o;
     Emit "error" (ErrorMessage message) sid (participants (sched (awaits t) (srv t)) sid)].
Proof. apply effects_since_app. simpl. now rewrite <- app_assoc. Qed.



(** C4, as the code has it. After any history of events, a well-formed
    send (non-empty text, a [room_id] that names a room of the store) by
    a user who is not among the participants of the room document that
    the store holds at that moment is rejected: the handler fetches the
    room, reports [Not a participant of this room] to the sender alone,
    stores no message and broadcasts nothing. The room is fetched by
    this very send; nothing of an earlier send is reused. *)
Theorem send_by_non_participant_rejected events t0 sid data u rid o room text :
  let t := run events t0 in
  well_formed sid data t u rid o text ->
  List.find (has_id o) (rooms (db (srv t))) = Some room ->
  u ∉ r_participant_usernames room ->
  send_message sid data t
    = (Ret tt, after_error sid "Not a participant of this room" (after_find o t))
  /\ effects_since t (snd (send_message sid data t))
     = [FindRoom o;
        Emit "error" (ErrorMessage "Not a participant of this room") sid
          (participants (sched (awaits t) (srv t)) sid)]
  /\ persisted (effects_since t (snd (send_message sid data t))) = [].
Proof.
  intros t (d & Hd & Hrid & Hne & Ho & Htext & Htne & Hauth) Hroom Hout.
  assert (send_message sid data t
          = (Ret tt, after_error sid "Not a participant of this room" (after_find o t)))
    as Hrun.
  { unfold send_message, load_payload, get_text, lookup_session, lift.
    unfold bind at 1. rewrite Hd. unfold bind at 1. rewrite Htext.
    unfold bind at 1. simpl. rewrite (str_truthy_authenticated _ _ _ Hauth).
    destruct Hauth as [Hu Hune].
    rewrite Hu, Hrid, (truthy_PStr _ Hne), (eqb_nonempty _ Htne).
    simpl. rewrite Ho. simpl.
    unfold await, find_one_room. unfold bind at 1 2 3 4. simpl.
    rewrite Hroom. simpl. now rewrite (bool_decide_eq_false_2 _ Hout). }
  rewrite Hrun. simpl. rewrite effects_after_find_error. now repeat split.
Qed.

Lemma no_fields_parse data :
  no_fields_payload data ->
  exists d, parse_payload data = Ret d
            /\ get_field "room_id" d = PNone /\ text_of d = Ret EmptyString.
Proof.
  destruct data as [| | | |s| |]; simpl; try (intros _; eexists; now repeat split).
  - intros [Herr|(v & Hv & Hnd)].
    + rewrite Herr. eexists; now repeat split.
    + rewrite Hv. exists v. destruct v; try discriminate; now repeat split.
  - contradiction.
Qed.

(** C10, as the code has it. A [join_room] or [send_message] event
    whose payload is not a dict, and is not read as one by [json.loads],
    ends in one of two ways, and the two cover every such payload.
    When the payload has no fields (a string on which [json.loads] raises
    [JSONDecodeError], a string that it reads as a value that is not an
    object, a value that is neither a string nor a dict), the handler does
    not raise: it reports one error to the originating connection and
    writes nothing; the error is [room_id is required] when the
    connection has a session, and [Not authenticated] when it has none,
    because the session is checked first.
    When the payload is a string on which [json.loads] raises anything
    else ([ValueError] for an integer of more digits than the interpreter
    converts, [RecursionError] for a deep nesting, both valid JSON), the
    exception is not caught: the handler raises it, before it has read
    the session and with nothing emitted and nothing written. *)
Theorem payload_without_fields_rejected sid data t :
  (no_fields_payload data ->
   let message :=
     if str_truthy (sid_to_username (srv t) !! sid) then "room_id is required"
     else "Not authenticated" in
   join_room sid data t = (Ret tt, after_error sid message t)
   /\ send_message sid data t = (Ret tt, after_error sid message t)
   /\ effects_since t (after_error sid message t)
      = [Emit "error" (ErrorMessage message) sid (participants (srv t) sid)])
  /\ (forall s e,
        data = PStr s -> json_loads s = Raise e -> e <> JSONDecodeError ->
        join_room sid data t = (Raise e, t)
        /\ send_message sid data t = (Raise e, t))
  /\ (is_dict data = false ->
      (forall s items, data = PStr s -> json_loads s <> Ret (PDict items)) ->
      no_fields_payload data
      \/ exists s e, data = PStr s /\ json_loads s = Raise e /\ e <> JSONDecodeError).
Proof.
  split; [|split].
  - intros Hno message. destruct (no_fields_parse _ Hno) as (d & Hd & Hrid & Htext).
    split; [|split].
    + unfold join_room, load_payload, lookup_session, lift.
      unfold bind at 1. rewrite Hd. unfold bind at 1. simpl. rewrite Hrid.
      subst message. now destruct (str_truthy _).
    + unfold send_message, load_payload, get_text, lookup_session, lift.
      unfold bind at 1. rewrite Hd. unfold bind at 1. rewrite Htext.
      unfold bind at 1. simpl. rewrite Hrid.
      subst message. now destruct (str_truthy _).
    + apply effects_after_error.
  - intros s e -> Hs He.
    assert (parse_payload (PStr s) = Raise e) as Hd.
    { simpl. rewrite Hs. now destruct e. }
    split.
    + unfold join_room, load_payload, lift. unfold bind at 1. now rewrite Hd.
    + unfold send_message, load_payload, lift. unfold bind at 1. now rewrite Hd.
  - intros Hnd Hobj. destruct data as [| | | |s| |]; try (now left).
    simpl. destruct (json_loads s) as [v|e] eqn:Hs.
    + left. right. exists v. split; [reflexivity|].
      destruct v; try reflexivity. now destruct (Hobj s items).
    + destruct e;
        try (right; exists s; eexists; split; [reflexivity|];
             split; [exact Hs | discriminate]).
      left. now left.
Qed.

Lemma mentions_contains text :
  PyStr.contains "@ai" (PyStr.lower text) = true <-> mentions text.
Proof. apply PyStrFacts.contains_substring. Qed.

(** An accepted send that mentions the assistant, in full. *)
Lemma send_message_with_mention sid data t u rid o room text :
  accepted sid data t u rid o room text ->
  mentions text ->
  fst (send_message sid data t) = Ret tt
  /\ exists m rec m_ai rec_ai,
      effects_since t (snd (send_message sid data t))
      = [FindRoom o; InsertMessage m; event_of rid m rec;
         GenerateContent (prompt_for room text);
         InsertMessage m_ai; event_of rid m_ai rec_ai]
      /\ (m_room_id m = o /\ m_sender_username m = u /\ m_text m = text
          /\ m_created_at m = utcnow (reads t))
      /\ (m_room_id m_ai = o /\ m_sender_username m_ai = AI
          /\ m_text m_ai = reply_to room text
          /\ m_created_at m_ai = utcnow (S (reads t))).
Proof.
  intros Hacc Hm. apply mentions_contains in Hm.
  destruct (send_message_accepted _ _ _ _ _ _ _ _ Hacc)
    as (m & rec & Hmo & Hmu & Hmt & Hmc & Hres & Hlog).
  rewrite Hm in Hlog. destruct Hlog as (m_ai & rec_ai & Hao & Hau & Hat & Hac & Hlog).
  split; [exact Hres|]. exists m, rec, m_ai, rec_ai.
  split; [now apply effects_since_app|]. now repeat split.
Qed.

(** C5. For an accepted send, the generation service is called exactly
    when the lowercased text contains [@ai] somewhere, as a plain
    substring; when it does not, the handler returns after storing and
    broadcasting the one message of the sender. *)
Theorem assistant_dispatched_iff_mention sid data t u rid o room text :
  accepted sid data t u rid o room text ->
  let effs := effects_since t (snd (send_message sid data t)) in
  fst (send_message sid data t) = Ret tt
  /\ ((exists p, GenerateContent p ∈ effs) <-> mentions text)
  /\ (~ mentions text ->
      exists m rec,
        effs = [FindRoom o; InsertMessage m; event_of rid m rec]
        /\ persisted effs = [m]
        /\ m_sender_username m = u /\ m_text m = text).
Proof.
  intros Hacc effs.
  destruct (send_message_accepted _ _ _ _ _ _ _ _ Hacc)
    as (m & rec & Hmo & Hmu & Hmt & Hmc & Hres & Hlog).
  split; [exact Hres|].
  destruct (PyStr.contains "@ai" (PyStr.lower text)) eqn:Hc.
  - destruct Hlog as (m_ai & rec_ai & _ & _ & _ & _ & Hlog).
    apply effects_since_app in Hlog. fold effs in Hlog.
    apply mentions_contains in Hc. split.
    + split; [intros _; exact Hc|]. intros _. exists (prompt_for room text).
      rewrite Hlog. set_solver.
    + intros Hno. now destruct Hno.
  - apply effects_since_app in Hlog. fold effs in Hlog.
    assert (~ mentions text) as Hno.
    { intros Hm. apply mentions_contains in Hm. congruence. }
    split.
    + split; [|intros Hm; now destruct Hno].
      intros [p Hp]. rewrite Hlog in Hp. unfold event_of in Hp.
      repeat (apply elem_of_cons in Hp as [Hp|Hp]; [discriminate|]).
      now apply elem_of_nil in Hp.
    + intros _. exists m, rec. rewrite Hlog. now repeat split.
Qed.

(** C6. One run of [send_message] calls the generation service at most
    once, and what follows a call is fixed: the reply is stored with
    sender [AI] and broadcast, and the handler ends. The reply is not
    validated, no room is fetched for it and its text is not scanned:
    this holds for every answer of the service, also an empty one and
    one that contains [@ai]. *)
Theorem assistant_reply_not_reprocessed sid data t :
  let effs := effects_since t (snd (send_message sid data t)) in
  dispatches effs <= 1
  /\ forall before p after,
      effs = before ++ GenerateContent p :: after ->
      exists m_ai rid rec,
        after = [InsertMessage m_ai; event_of rid m_ai rec]
        /\ m_sender_username m_ai = AI
        /\ m_text m_ai = match generate_content p with
                         | Ret answer => PyStr.strip answer
                         | Raise _ => fallback_text
                         end
        /\ dispatches before = 0.
Proof.
  intros effs.
  destruct (send_message_paths sid data t)
    as [[e Hrun]|[[msg Hrun]|[(o & msg & Hrun)|(u & rid & o & room & text & Hacc)]]].
  - assert (effs = []) as ->.
    { subst effs. rewrite Hrun. simpl. unfold effects_since. apply drop_all. }
    split; [unfold dispatches, event_of; simpl; lia|]. intros [|] ? ? Heq; discriminate.
  - assert (effs = [Emit "error" (ErrorMessage msg) sid (participants (srv t) sid)]) as ->.
    { subst effs. rewrite Hrun. apply effects_after_error. }
    split; [unfold dispatches, event_of; simpl; lia|]. intros [|? [|]] ? ? Heq; discriminate.
  - subst effs. rewrite Hrun. simpl. rewrite effects_after_find_error.
    split; [unfold dispatches, event_of; simpl; lia|]. intros [|? [|? [|]]] ? ? Heq; discriminate.
  - destruct (send_message_accepted _ _ _ _ _ _ _ _ Hacc)
      as (m & rec & Hmo & Hmu & Hmt & Hmc & Hres & Hlog).
    destruct (PyStr.contains "@ai" (PyStr.lower text)).
    + destruct Hlog as (m_ai & rec_ai & Hao & Hau & Hat & Hac & Hlog).
      apply effects_since_app in Hlog. fold effs in Hlog. rewrite Hlog.
      split; [unfold dispatches, event_of; simpl; lia|].
      intros [|? [|? [|? [|? [|? [|? [|]]]]]]] p after Heq; try discriminate.
      simpl in Heq. injection Heq as <- <- <- <- <-.
      exists m_ai, rid, rec_ai. split; [reflexivity|]. split; [exact Hau|].
      split; [exact Hat|reflexivity].
    + apply effects_since_app in Hlog. fold effs in Hlog. rewrite Hlog.
      split; [unfold dispatches, event_of; simpl; lia|].
      intros [|? [|? [|? [|]]]] ? ? Heq; discriminate.
Qed.

(** C7, as the code has it. For an accepted send that mentions the
    assistant the handler returns normally, and after the sender's
    message has been stored and broadcast the reply of the assistant is
    stored and broadcast with sender [AI]. When the generation service
    raises (a timeout, an error, a response without text), the reply is
    the fixed fallback text. When the service returns a text, the reply
    is that text stripped, also when nothing is left of it: an empty
    answer is stored and broadcast as an empty reply. *)
Theorem generation_failure_falls_back sid data t u rid o room text :
  accepted sid data t u rid o room text ->
  mentions text ->
  fst (send_message sid data t) = Ret tt
  /\ (exists m rec m_ai rec_ai,
        effects_since t (snd (send_message sid data t))
        = [FindRoom o; InsertMessage m; event_of rid m rec;
           GenerateContent (prompt_for room text);
           InsertMessage m_ai; event_of rid m_ai rec_ai]
        /\ m_sender_username m = u /\ m_text m = text
        /\ m_sender_username m_ai = AI /\ m_text m_ai = reply_to room text)
  /\ (forall e, generate_content (prompt_for room text) = Raise e ->
                reply_to room text = fallback_text)
  /\ (forall answer, generate_content (prompt_for room text) = Ret answer ->
                     reply_to room text = PyStr.strip answer).
Proof.
  intros Hacc Hm.
  destruct (send_message_with_mention _ _ _ _ _ _ _ _ Hacc Hm)
    as (Hres & m & rec & m_ai & rec_ai & Hlog & (_ & Hmu & Hmt & _) & (_ & Hau & Hat & _)).
  split; [exact Hres|]. split; [|split].
  - exists m, rec, m_ai, rec_ai. now repeat split.
  - intros e He. unfold reply_to. now rewrite He.
  - intros answer Ha. unfold reply_to. now rewrite Ha.
Qed.

(** C8, as the code has it. For an accepted send that mentions the
    assistant, the reply is stored and broadcast after the sender's
    message has been stored and broadcast, never before. The timestamp
    of the sender's message is one reading of the server clock and the
    timestamp of the reply is the next reading, taken after the service
    has answered; the reply's timestamp is strictly later exactly when
    the clock advanced between the two readings. *)
Theorem assistant_reply_follows_message sid data t u rid o room text :
  accepted sid data t u rid o room text ->
  mentions text ->
  exists m rec m_ai rec_ai,
    effects_since t (snd (send_message sid data t))
    = [FindRoom o; InsertMessage m; event_of rid m rec;
       GenerateContent (prompt_for room text);
       InsertMessage m_ai; event_of rid m_ai rec_ai]
    /\ m_sender_username m = u /\ m_text m = text
    /\ m_sender_username m_ai = AI
    /\ m_created_at m = utcnow (reads t)
    /\ m_created_at m_ai = utcnow (S (reads t))
    /\ ((m_created_at m < m_created_at m_ai)%Z
        <-> (utcnow (reads t) < utcnow (S (reads t)))%Z).
Proof.
  intros Hacc Hm.
  destruct (send_message_with_mention _ _ _ _ _ _ _ _ Hacc Hm)
    as (Hres & m & rec & m_ai & rec_ai & Hlog & (_ & Hmu & Hmt & Hmc) & (_ & Hau & _ & Hac)).
  exists m, rec, m_ai, rec_ai. rewrite Hmc, Hac. now repeat split.
Qed.

End Pipeline.

(** ** Sessions and rooms: [disconnect] *)

Lemma remove_sid_subset (sid : string) (g g' : gset string) :
  remove_sid sid g = Some g' -> g' ⊆ g.
Proof.
  unfold remove_sid. destruct (decide _); [discriminate|]. intros [= <-].
  intros x Hx. now apply elem_of_difference in Hx as [Hx _].
Qed.

Lemma remove_sid_gone (sid : string) (g g' : gset string) :
  remove_sid sid g = Some g' -> sid ∉ g'.
Proof.
  unfold remove_sid. destruct (decide _); [discriminate|]. intros [= <-].
  intros Hin. apply elem_of_difference in Hin as [_ Hn].
  apply Hn. now apply elem_of_singleton.
Qed.

(** After the manager's disconnect no room contains the sid. *)
Lemma purge_gone (sid : string) (s : Server) (room : string) :
  sid ∉ participants (with_rooms s (purge sid (sio_rooms s))) room.
Proof.
  unfold participants, purge. simpl. rewrite lookup_omap.
  destruct (sio_rooms s !! room) as [g|]; simpl; [|set_solver].
  destruct (remove_sid sid g) as [g'|] eqn:Hg; simpl; [|set_solver].
  now apply remove_sid_gone in Hg.
Qed.

Section Departure.
Context {E : Env} (sid : string) (base : list Effect).

(** The other tasks do nothing on behalf of a connection that is gone. *)
Hypothesis others_keep_out : forall n s, gone sid s -> gone sid (sched n s).

Lemma keeps_ret {A} (a : A) : keeps sid base (ret a).
Proof. now intros t Ht. Qed.

Lemma keeps_raise {A} e : keeps sid base (@raise A e).
Proof. now intros t Ht. Qed.

Lemma keeps_lift {A} (r : Res A) : keeps sid base (lift r).
Proof. now intros t Ht. Qed.

(** Sequencing, when what the first computation returns is known to
    satisfy [good]. *)
Lemma keeps_bind_with {A B} (good : A -> Prop) (m : M A) (k : A -> M B) :
  (forall t, left_behind sid base t ->
     left_behind sid base (snd (m t)) /\ forall a, fst (m t) = Ret a -> good a) ->
  (forall a, good a -> keeps sid base (k a)) ->
  keeps sid base (bind m k).
Proof.
  intros Hm Hk t Ht. unfold bind. destruct (Hm t Ht) as [Ht' Hgood].
  destruct (m t) as [[a|e] t']; simpl in *; [|exact Ht'].
  apply (Hk a); [now apply Hgood | exact Ht'].
Qed.

Lemma keeps_bind {A B} (m : M A) (k : A -> M B) :
  keeps sid base m -> (forall a, keeps sid base (k a)) -> keeps sid base (bind m k).
Proof.
  intros Hm Hk. apply (keeps_bind_with (fun _ => True)); [|intros a _; apply Hk].
  intros t Ht. split; [now apply Hm | trivial].
Qed.

Lemma keeps_suspend : keeps sid base suspend.
Proof.
  intros t [Hg Hl]. split; [|exact Hl]. simpl. now apply others_keep_out.
Qed.

Lemma keeps_await {A} (m : M A) : keeps sid base m -> keeps sid base (await m).
Proof.
  intros Hm. unfold await. apply keeps_bind; [exact Hm|]. intros a.
  apply keeps_bind; [apply keeps_suspend | intros _; apply keeps_ret].
Qed.

Lemma keeps_now : keeps sid base now.
Proof. now intros t Ht. Qed.

(** Writing to the log. *)
Lemma left_behind_tell t e s :
  left_behind sid base t -> ~ delivered_to sid e -> gone sid s ->
  left_behind sid base {| srv := s; log := log t ++ [e]; awaits := awaits t; reads := reads t |}.
Proof.
  intros [Hg (l & Hl & Hs)] He Hs'. split; [exact Hs'|].
  exists (l ++ [e]). simpl. rewrite Hl, <- app_assoc. split; [reflexivity|].
  apply Forall_app. split; [exact Hs|]. now apply Forall_singleton.
Qed.

Lemma gone_with_db s d : gone sid s -> gone sid (with_db s d).
Proof. now intros [Hs Hr]. Qed.

Lemma keeps_find_one_user username : keeps sid base (find_one_user username).
Proof. intros t Ht. apply (left_behind_tell t); [exact Ht | now simpl | apply Ht]. Qed.

Lemma keeps_find_one_room o : keeps sid base (find_one_room o).
Proof. intros t Ht. apply (left_behind_tell t); [exact Ht | now simpl | apply Ht]. Qed.

Lemma keeps_insert_one_user username : keeps sid base (insert_one_user username).
Proof.
  intros t Ht. unfold insert_one_user, bind, get_srv, tell, set_srv. simpl.
  destruct (existsb _ _); simpl.
  - apply (left_behind_tell t); [exact Ht | now simpl | apply Ht].
  - apply (left_behind_tell t); [exact Ht | now simpl | apply gone_with_db, Ht].
Qed.

Lemma keeps_insert_one_message o sender text created :
  keeps sid base (insert_one_message o sender text created).
Proof.
  intros t Ht. apply (left_behind_tell t); [exact Ht | now simpl | apply gone_with_db, Ht].
Qed.

Lemma keeps_sio_emit event data room : keeps sid base (sio_emit event data room).
Proof.
  intros t Ht. apply (left_behind_tell t); [exact Ht | | apply Ht].
  simpl. apply Ht.
Qed.

Lemma keeps_emit_error sid' message : keeps sid base (emit_error sid' message).
Proof. apply keeps_await, keeps_sio_emit. Qed.

Lemma gone_enter s sid' room :
  sid' <> sid -> gone sid s ->
  gone sid (with_rooms s (<[room := {[sid']} ∪ participants s room]> (sio_rooms s))).
Proof.
  intros Hne [Hs Hr]. split; [exact Hs|]. intros room'.
  unfold participants at 1. simpl.
  destruct (decide (room = room')) as [->|Hrr].
  - rewrite lookup_insert_eq. simpl. apply not_elem_of_union. split; [|apply Hr].
    apply not_elem_of_singleton. congruence.
  - rewrite lookup_insert_ne by exact Hrr. apply Hr.
Qed.

Lemma gone_leave s sid' room :
  gone sid s ->
  gone sid (with_rooms s (partial_alter (fun g => g ≫= remove_sid sid') room (sio_rooms s))).
Proof.
  intros [Hs Hr]. split; [exact Hs|]. intros room'.
  unfold participants at 1. simpl. rewrite lookup_partial_alter.
  destruct (decide (room = room')) as [->|Hrr]; [|apply Hr].
  specialize (Hr room'). unfold participants in Hr.
  destruct (sio_rooms s !! room') as [g|]; simpl in *; [|set_solver].
  destruct (remove_sid sid' g) as [g'|] eqn:Hg; simpl; [|set_solver].
  apply remove_sid_subset in Hg. set_solver.
Qed.

Lemma gone_purge s sid' : gone sid s -> gone sid (with_rooms s (purge sid' (sio_rooms s))).
Proof.
  intros [Hs Hr]. split; [exact Hs|]. intros room.
  unfold participants at 1, purge. simpl. rewrite lookup_omap.
  specialize (Hr room). unfold participants in Hr.
  destruct (sio_rooms s !! room) as [g|]; simpl in *; [|set_solver].
  destruct (remove_sid sid' g) as [g'|] eqn:Hg; simpl; [|set_solver].
  apply remove_sid_subset in Hg. set_solver.
Qed.

Lemma left_behind_srv t s :
  left_behind sid base t -> gone sid s ->
  left_behind sid base {| srv := s; log := log t; awaits := awaits t; reads := reads t |}.
Proof. intros [_ Hl] Hs. now split. Qed.

Lemma keeps_sio_enter_room sid' room : sid' <> sid -> keeps sid base (sio_enter_room sid' room).
Proof.
  intros Hne t Ht. apply (left_behind_tell t); [exact Ht | now simpl |].
  apply gone_enter; [exact Hne | apply Ht].
Qed.

Lemma keeps_sio_leave_room sid' room : keeps sid base (sio_leave_room sid' room).
Proof.
  intros t Ht. apply (left_behind_tell t); [exact Ht | now simpl |].
  apply gone_leave, Ht.
Qed.

Lemma keeps_sio_manager_connect sid' : sid' <> sid -> keeps sid base (sio_manager_connect sid').
Proof.
  intros Hne t Ht. apply left_behind_srv; [exact Ht|].
  apply gone_enter; [exact Hne | apply Ht].
Qed.

Lemma keeps_sio_manager_disconnect sid' : keeps sid base (sio_manager_disconnect sid').
Proof. intros t Ht. apply left_behind_srv; [exact Ht|]. apply gone_purge, Ht. Qed.

Lemma keeps_register sid' username : sid' <> sid -> keeps sid base (register sid' username).
Proof.
  intros Hne t Ht. apply left_behind_srv; [exact Ht|].
  destruct Ht as [[Hs Hr] _]. split; [|exact Hr].
  simpl. now rewrite lookup_insert_ne.
Qed.

Lemma keeps_unregister sid' : keeps sid base (unregister sid').
Proof.
  intros t Ht. apply left_behind_srv; [exact Ht|].
  destruct Ht as [[Hs Hr] _]. split; [|exact Hr].
  simpl. rewrite lookup_delete. now destruct (decide _).
Qed.

(** A session that is found is not the session of [sid]. *)
Lemma lookup_session_other sid' t :
  left_behind sid base t ->
  left_behind sid base (snd (lookup_session sid' t))
  /\ forall a, fst (lookup_session sid' t) = Ret a -> str_truthy a = true -> sid' <> sid.
Proof.
  intros Ht. split; [exact Ht|]. simpl. intros a [= <-] Ha ->.
  destruct Ht as [[Hs _] _]. rewrite Hs in Ha. discriminate.
Qed.

Lemma keeps_get_or_create_user username : keeps sid base (get_or_create_user username).
Proof.
  unfold get_or_create_user.
  apply keeps_bind; [apply keeps_await, keeps_find_one_user|].
  intros [u|]; [apply keeps_ret|].
  apply keeps_bind; [apply keeps_await, keeps_insert_one_user | intros; apply keeps_ret].
Qed.

Lemma keeps_connect sid' environ : sid' <> sid -> keeps sid base (connect sid' environ).
Proof.
  intros Hne. unfold connect. destruct (negb _); [apply keeps_ret|].
  apply keeps_bind; [apply keeps_get_or_create_user|]. intros _.
  apply keeps_bind; [now apply keeps_register | intros; apply keeps_ret].
Qed.

Lemma keeps_on_connect sid' environ : sid' <> sid -> keeps sid base (on_connect sid' environ).
Proof.
  intros Hne. unfold on_connect.
  apply keeps_bind; [now apply keeps_sio_manager_connect|]. intros _.
  apply keeps_bind; [now apply keeps_connect|]. intros [|]; [apply keeps_ret|].
  apply keeps_bind; [apply keeps_sio_manager_disconnect | intros; apply keeps_ret].
Qed.

Lemma keeps_on_disconnect sid' : keeps sid base (on_disconnect sid').
Proof.
  unfold on_disconnect, disconnect.
  apply keeps_bind; [|intros; apply keeps_sio_manager_disconnect].
  apply keeps_bind; [apply keeps_unregister | intros; apply keeps_ret].
Qed.

Lemma keeps_load_payload data : keeps sid base (load_payload data).
Proof. apply keeps_lift. Qed.

Lemma keeps_join_room sid' data : keeps sid base (join_room sid' data).
Proof.
  unfold join_room. apply keeps_bind; [apply keeps_load_payload|]. intros d.
  apply (keeps_bind_with (fun a => str_truthy a = true -> sid' <> sid));
    [apply lookup_session_other|].
  intros username Hother.
  destruct (str_truthy username); simpl; [|apply keeps_emit_error].
  specialize (Hother eq_refl).
  destruct (negb _); [apply keeps_emit_error|].
  destruct (to_ObjectId _) as [[o rid]|]; [|apply keeps_emit_error].
  apply keeps_bind; [apply keeps_await, keeps_find_one_room|].
  intros [room|]; [|apply keeps_emit_error].
  destruct (negb _); [apply keeps_emit_error|].
  apply keeps_bind; [now apply keeps_await, keeps_sio_enter_room|]. intros _.
  apply keeps_await, keeps_sio_emit.
Qed.

Lemma keeps_leave_room sid' data : keeps sid base (leave_room sid' data).
Proof.
  unfold leave_room. apply keeps_bind; [apply keeps_load_payload|]. intros d.
  apply keeps_bind; [now intros t Ht|]. intros username.
  destruct (negb _); [apply keeps_emit_error|].
  destruct (negb _); [apply keeps_emit_error|].
  apply keeps_bind; [|intros; apply keeps_await, keeps_sio_emit].
  apply keeps_await. unfold sio_leave_room_value.
  destruct (get_field "room_id" d);
    first [apply keeps_ret | apply keeps_raise | apply keeps_sio_leave_room].
Qed.

Lemma keeps_emit_new_message id rid sender text created :
  keeps sid base (emit_new_message id rid sender text created).
Proof. apply keeps_await, keeps_sio_emit. Qed.

Lemma keeps_get_ai_response room_name text : keeps sid base (get_ai_response room_name text).
Proof.
  unfold get_ai_response. apply keeps_bind.
  - intros t Ht. apply (left_behind_tell t); [exact Ht | now simpl | apply Ht].
  - intros _. destruct (generate_content _); apply keeps_ret.
Qed.

Lemma keeps_send_message sid' data : keeps sid base (send_message sid' data).
Proof.
  unfold send_message. apply keeps_bind; [apply keeps_load_payload|]. intros d.
  apply keeps_bind; [apply keeps_lift|]. intros text.
  apply keeps_bind; [now intros t Ht|]. intros username.
  destruct (negb _); [apply keeps_emit_error|].
  destruct (negb _); [apply keeps_emit_error|].
  destruct (String.eqb _ _); [apply keeps_emit_error|].
  destruct (to_ObjectId _) as [[o rid]|]; [|apply keeps_emit_error].
  apply keeps_bind; [apply keeps_await, keeps_find_one_room|].
  intros [room|]; [|apply keeps_emit_error].
  destruct (negb _); [apply keeps_emit_error|].
  apply keeps_bind; [apply keeps_now|]. intros created.
  apply keeps_bind; [apply keeps_await, keeps_insert_one_message|]. intros id.
  apply keeps_bind; [apply keeps_emit_new_message|]. intros _.
  destruct (PyStr.contains _ _); [|apply keeps_ret].
  apply keeps_bind; [apply keeps_get_ai_response|]. intros reply.
  apply keeps_bind; [apply keeps_now|]. intros ai_now.
  apply keeps_bind; [apply keeps_await, keeps_insert_one_message|]. intros ai_id.
  apply keeps_emit_new_message.
Qed.

(** Every event other than a new connection of [sid] keeps [sid] gone
    and delivers nothing to it. *)
Lemma keeps_handle e : ~ connects sid e -> keeps sid base (handle e).
Proof.
  destruct e as [sid' environ|sid'|sid' data|sid' data|sid' data]; simpl; intros Hc.
  - apply keeps_bind; [now apply keeps_on_connect | intros; apply keeps_ret].
  - apply keeps_on_disconnect.
  - apply keeps_join_room.
  - apply keeps_leave_room.
  - apply keeps_send_message.
Qed.

Lemma left_behind_run events t :
  Forall (fun e => ~ connects sid e) events ->
  left_behind sid base t -> left_behind sid base (run events t).
Proof.
  intros Hev. revert t. induction Hev as [|e events He _ IH]; intros t Ht; simpl.
  - exact Ht.
  - apply IH. now apply keeps_handle.
Qed.

End Departure.

(** The [disconnect] handler by itself only drops the session; it never
    fails, and it leaves the database and the rooms to the server. *)
Lemma disconnect_drops_session (sid : string) (t : Task) :
  fst (disconnect sid t) = Ret tt
  /\ sid_to_username (srv (snd (disconnect sid t))) = delete sid (sid_to_username (srv t))
  /\ db (srv (snd (disconnect sid t))) = db (srv t)
  /\ sio_rooms (srv (snd (disconnect sid t))) = sio_rooms (srv t)
  /\ log (snd (disconnect sid t)) = log t.
Proof. now repeat split. Qed.

(** C9. The disconnect of a connection never fails, whatever the state
    of the server: the [disconnect] handler drops the session of the sid
    and the Socket.IO server removes the sid from every room, so that
    afterwards the sid has no session and no room contains it. From then
    on, as long as the sid does not connect again and no other task acts
    for it, every event that the server handles leaves the sid without a
    session and outside every room, and no event it emits, to a room or
    to a single connection, is delivered to the sid. *)
Theorem disconnect_removes_handle {E : Env} (sid : string) (t : Task) (events : list Event) :
  fst (on_disconnect sid t) = Ret tt
  /\ sid_to_username (srv (snd (on_disconnect sid t))) !! sid = None
  /\ (forall room, sid ∉ participants (srv (snd (on_disconnect sid t))) room)
  /\ ((forall n s, gone sid s -> gone sid (sched n s)) ->
      Forall (fun e => ~ connects sid e) events ->
      gone sid (srv (run events (snd (on_disconnect sid t))))
      /\ silent_for sid
           (effects_since (snd (on_disconnect sid t))
              (run events (snd (on_disconnect sid t))))).
Proof.
  assert (gone sid (srv (snd (on_disconnect sid t)))) as Hgone.
  { split; [simpl; apply lookup_delete_eq|]. intros room.
    apply (purge_gone sid (with_sessions (srv t) (delete sid (sid_to_username (srv t))))). }
  split; [reflexivity|]. split; [apply Hgone|]. split; [apply Hgone|].
  intros Hothers Hevents.
  assert (left_behind sid (log (snd (on_disconnect sid t))) (snd (on_disconnect sid t)))
    as Hleft.
  { split; [exact Hgone|]. exists []. split; [now rewrite app_nil_r | constructor]. }
  apply (left_behind_run sid _ Hothers events) in Hleft; [|exact Hevents].
  destruct Hleft as [Hg (l & Hl & Hs)]. split; [exact Hg|].
  unfold effects_since. rewrite Hl, drop_app_length. exact Hs.
Qed.

(** ** The handlers on concrete inputs *)

Example strip_example : PyStr.strip "  hi there  " = "hi there".
Proof. reflexivity. Qed.

Example re_sub_mention_example :
  PyStr.re_sub_mention 0 false "@AI   what is @ai2+2, @Ai?" = "what is 2+2, ?".
Proof. reflexivity. Qed.

(** bob connects, joins the lobby, where alice already is, and greets the
    assistant: bob is signed up, both messages are stored, and both are
    broadcast to alice and bob. *)
Example lobby_walkthrough :
  let t := run (E := Sample.quiet)
             [Connect "s2" {["QUERY_STRING" := "EIO=4&username=bob"]};
              JoinRoom "s2" (PDict [("room_id", PStr Sample.room_hex)]);
              SendMessage "s2" (Sample.send "hello @AI what time is it")]
             (start Sample.server) in
  sid_to_username (srv t) !! "s2" = Some "bob"
  /\ map u_username (users (db (srv t))) = ["alice"; "carol"; "bob"]
  /\ map (fun m => (m_sender_username m, m_text m, m_created_at m)) (messages (db (srv t)))
     = [("bob", "hello @AI what time is it", 1000%Z); ("AI", "It is noon.", 1001%Z)]
  /\ deliveries (log t)
     = [("joined_room", "s2", ["s2"]);
        ("new_message", Sample.room_hex, ["s1"; "s2"]);
        ("new_message", Sample.room_hex, ["s1"; "s2"])].
Proof. vm_compute. repeat split. Qed.



(** C4 as the specification states it fails: carol has a session and is
    not a participant of the lobby, her text is all spaces, and the error
    she gets is the one for the empty text: the room is never fetched. *)
Lemma send_blank_text_by_non_participant :
  authenticated Sample.server "s3" "carol"
  /\ List.find (has_id 170) (rooms (db Sample.server)) = Some Sample.lobby
  /\ ("carol" ∉ r_participant_usernames Sample.lobby)
  /\ log (snd (send_message (E := Sample.quiet) "s3" (Sample.send "   ")
                 (start Sample.server)))
     = [Emit "error" (ErrorMessage "text cannot be empty") "s3" {["s3"]}].
Proof.
  split; [split; [reflexivity | discriminate]|].
  split; [reflexivity|]. split; [|vm_compute; reflexivity].
  apply (bool_decide_eq_false_1 _). reflexivity.
Qed.

(** alice sends to the lobby and is accepted; she is taken off the room
    while that send is broadcast; her next send is rejected. *)
Lemma send_by_non_participant_rejected_witness :
  map m_text (persisted (log (run (E := Sample.revoking)
                                [SendMessage "s1" (Sample.send "hi")]
                                (start Sample.server))))
  = ["hi"]
  /\ send_message (E := Sample.revoking) "s1" (Sample.send "again")
       (run (E := Sample.revoking) [SendMessage "s1" (Sample.send "hi")]
          (start Sample.server))
     = (Ret tt,
        after_error (E := Sample.revoking) "s1" "Not a participant of this room"
          (after_find (E := Sample.revoking) 170
             (run (E := Sample.revoking) [SendMessage "s1" (Sample.send "hi")]
                (start Sample.server)))).
Proof.
  split; [reflexivity|].
  refine (proj1 (send_by_non_participant_rejected (E := Sample.revoking)
                   [SendMessage "s1" (Sample.send "hi")] (start Sample.server)
                   "s1" (Sample.send "again") "alice" Sample.room_hex 170
                   {| r_id := 170; r_name := "lobby"; r_owner_username := "bob";
                      r_participant_usernames := ["bob"]; r_created_at := 0 |}
                   "again" _ _ _)).
  - eexists; repeat split; try reflexivity; discriminate.
  - reflexivity.
  - apply (bool_decide_eq_false_1 _). reflexivity.
Defined.

Lemma assistant_dispatched_iff_mention_witness :
  (exists p, GenerateContent p
             ∈ effects_since (start Sample.server)
                 (snd (send_message (E := Sample.quiet) "s1"
                         (Sample.send "mail bob@AIrline.com") (start Sample.server))))
  <-> mentions "mail bob@AIrline.com".
Proof.
  refine (proj1 (proj2 (assistant_dispatched_iff_mention (E := Sample.quiet)
                          "s1" (Sample.send "mail bob@AIrline.com") (start Sample.server)
                          "alice" Sample.room_hex 170 Sample.lobby
                          "mail bob@AIrline.com" _))).
  sample_accepted.
Defined.

(** The service answers [Ask @AI again.]: the answer is stored as it is,
    and the service was called once. *)
Lemma assistant_reply_not_reprocessed_witness :
  dispatches (effects_since (start Sample.server)
                (snd (send_message (E := Sample.echoing) "s1" (Sample.send "hey @ai")
                        (start Sample.server)))) <= 1
  /\ map m_text (persisted (log (snd (send_message (E := Sample.echoing) "s1"
                                       (Sample.send "hey @ai") (start Sample.server)))))
     = ["hey @ai"; "Ask @AI again."].
Proof.
  split.
  - exact (proj1 (assistant_reply_not_reprocessed (E := Sample.echoing)
                    "s1" (Sample.send "hey @ai") (start Sample.server))).
  - reflexivity.
Defined.

(** C7 as the specification states it fails: the service answers with an
    empty text, and what is stored as the reply of the assistant is the
    empty text, not the fallback text. *)
Lemma empty_answer_stored_as_reply :
  generate_content (Env := Sample.silent) (prompt_for Sample.lobby "hello @AI")
  = Ret EmptyString
  /\ map (fun m => (m_sender_username m, m_text m))
       (persisted (log (snd (send_message (E := Sample.silent) "s1"
                               (Sample.send "hello @AI") (start Sample.server)))))
     = [("alice", "hello @AI"); ("AI", EmptyString)].
Proof. split; reflexivity. Qed.

Lemma generation_failure_falls_back_witness :
  reply_to (E := Sample.failing) Sample.lobby "hello @AI" = fallback_text.
Proof.
  refine (proj1 (proj2 (proj2 (generation_failure_falls_back (E := Sample.failing)
                                 "s1" (Sample.send "hello @AI") (start Sample.server)
                                 "alice" Sample.room_hex 170 Sample.lobby "hello @AI" _ _)))
            (OtherError "DeadlineExceeded") _).
  - sample_accepted.
  - exists "hello ", EmptyString. reflexivity.
  - reflexivity.
Defined.

(** C8 as the specification states it fails: the clock shows the same
    time at both readings, and the reply of the assistant carries the
    timestamp of the message that triggered it. *)
Lemma frozen_clock_equal_timestamps :
  map (fun m => (m_sender_username m, m_created_at m))
    (persisted (log (snd (send_message (E := Sample.frozen) "s1"
                            (Sample.send "hello @AI") (start Sample.server)))))
  = [("alice", 1000%Z); ("AI", 1000%Z)].
Proof. reflexivity. Qed.

Lemma assistant_reply_follows_message_witness :
  exists m m_ai,
    persisted (effects_since (start Sample.server)
                 (snd (send_message (E := Sample.quiet) "s1" (Sample.send "hello @AI")
                         (start Sample.server))))
    = [m; m_ai]
    /\ (m_created_at m < m_created_at m_ai)%Z.
Proof.
  destruct (assistant_reply_follows_message (E := Sample.quiet)
              "s1" (Sample.send "hello @AI") (start Sample.server)
              "alice" Sample.room_hex 170 Sample.lobby "hello @AI")
    as (m & rec & m_ai & rec_ai & Hlog & _ & _ & _ & _ & _ & Hlater).
  - sample_accepted.
  - exists "hello ", EmptyString. reflexivity.
  - exists m, m_ai. split; [now rewrite Hlog|]. apply Hlater. reflexivity.
Defined.

(** alice disconnects; bob connects, joins the lobby and greets the
    assistant; the sid of alice is then used for a join and a send. *)
Lemma disconnect_removes_handle_witness :
  silent_for "s1"
    (effects_since (snd (on_disconnect "s1" (start Sample.server)))
       (run (E := Sample.quiet)
          [Connect "s2" {["QUERY_STRING" := "EIO=4&username=bob"]};
           JoinRoom "s2" (PDict [("room_id", PStr Sample.room_hex)]);
           SendMessage "s2" (Sample.send "hello @AI");
           JoinRoom "s1" (PDict [("room_id", PStr Sample.room_hex)]);
           SendMessage "s1" (Sample.send "anyone?")]
          (snd (on_disconnect "s1" (start Sample.server))))).
Proof.
  apply (proj2 (proj2 (proj2 (disconnect_removes_handle (E := Sample.quiet) "s1"
                                (start Sample.server) _)))).
  - intros n s Hs. exact Hs.
  - repeat constructor; simpl; first [discriminate | tauto].
Defined.

(** C10 as the specification states it fails, twice. The connection
    [s9] has no session and its payload is not valid JSON: the error it
    gets from both handlers is the one for the missing session, not the
    one for the missing room. And alice, who has a session, sends an
    integer of 5000 digits, which is valid JSON and not an object: the
    reader raises [ValueError], and so do both handlers, with nothing
    emitted. *)
Lemma payload_without_fields_not_as_stated :
  (no_fields_payload (E := Sample.quiet) (PStr "not json")
   /\ sid_to_username Sample.server !! "s9" = None
   /\ log (snd (join_room (E := Sample.quiet) "s9" (PStr "not json") (start Sample.server)))
      = [Emit "error" (ErrorMessage "Not authenticated") "s9" ∅]
   /\ log (snd (send_message (E := Sample.quiet) "s9" (PStr "not json")
                  (start Sample.server)))
      = [Emit "error" (ErrorMessage "Not authenticated") "s9" ∅])
  /\ (String.length (Sample.ones 5000) = 5000%nat
      /\ Sample.all_digits (Sample.ones 5000) = true
      /\ sid_to_username Sample.server !! "s1" = Some "alice"
      /\ join_room (E := Sample.counting) "s1" (PStr (Sample.ones 5000))
           (start Sample.server)
         = (Raise (OtherError "ValueError"), start Sample.server)
      /\ send_message (E := Sample.counting) "s1" (PStr (Sample.ones 5000))
           (start Sample.server)
         = (Raise (OtherError "ValueError"), start Sample.server)).
Proof.
  split.
  - split; [left; reflexivity|]. split; [reflexivity|].
    split; vm_compute; reflexivity.
  - repeat split; vm_compute; reflexivity.
Qed.

(** A list and a string that is not JSON from alice, who has a session;
    and her integer of 5000 digits. *)
Lemma payload_without_fields_rejected_witness :
  join_room (E := Sample.quiet) "s1" (PStr "[]") (start Sample.server)
  = (Ret tt, after_error (E := Sample.quiet) "s1" "room_id is required" (start Sample.server))
  /\ send_message (E := Sample.quiet) "s1" (PStr "not json") (start Sample.server)
     = (Ret tt, after_error (E := Sample.quiet) "s1" "room_id is required"
                  (start Sample.server))
  /\ send_message (E := Sample.counting) "s1" (PStr (Sample.ones 5000))
       (start Sample.server)
     = (Raise (OtherError "ValueError"), start Sample.server).
Proof.
  split; [|split].
  - refine (proj1 (proj1 (payload_without_fields_rejected (E := Sample.quiet)
                            "s1" (PStr "[]") (start Sample.server)) _)).
    right. exists (PList []). split; reflexivity.
  - refine (proj1 (proj2 (proj1 (payload_without_fields_rejected (E := Sample.quiet)
                                   "s1" (PStr "not json") (start Sample.server)) _))).
    left. reflexivity.
  - refine (proj2 (proj1 (proj2 (payload_without_fields_rejected (E := Sample.counting)
                                   "s1" (PStr (Sample.ones 5000)) (start Sample.server)))
                     (Sample.ones 5000) (OtherError "ValueError") eq_refl _ _)).
    + vm_compute. reflexivity.
    + discriminate.
Defined.

(** * Further properties *)

(** ** Strings *)

Module PyStrMore.
Import PyStr.

Lemma rstrip_idempotent s : rstrip (rstrip s) = rstrip s.
Proof.
  induction s as [|c s IH]; simpl; [reflexivity|].
  destruct (rstrip s) as [|d r] eqn:Hr.
  - destruct (isspace c) eqn:Hc; simpl; [reflexivity | now rewrite Hc].
  - simpl. simpl in IH. now rewrite IH.
Qed.

Lemma lstrip_fixed c s : isspace c = false -> lstrip (String c s) = String c s.
Proof. intros Hc. simpl. now rewrite Hc. Qed.

Lemma lstrip_head s : lstrip s = EmptyString \/ exists c r, lstrip s = String c r /\ isspace c = false.
Proof.
  induction s as [|c s IH]; simpl; [now left|].
  destruct (isspace c) eqn:Hc; [exact IH|]. right. now exists c, s.
Qed.

Lemma rstrip_head c s :
  isspace c = false -> exists r, rstrip (String c s) = String c r.
Proof.
  intros Hc. simpl. destruct (rstrip s) as [|d r]; [|now eexists].
  rewrite Hc. now eexists.
Qed.

(** [strip] removes everything it would remove again. *)
Lemma strip_idempotent s : strip (strip s) = strip s.
Proof.
  unfold strip. destruct (lstrip_head s) as [->|(c & r & -> & Hc)]; [reflexivity|].
  destruct (rstrip_head c r Hc) as [r' Hr]. rewrite Hr.
  rewrite (lstrip_fixed _ _ Hc), <- Hr. apply rstrip_idempotent.
Qed.

Lemma strip_nonempty s : all_space s = false -> strip s <> EmptyString.
Proof.
  intros Hs Hempty. apply PyStrFacts.strip_empty in Hempty. congruence.
Qed.

End PyStrMore.

(** ** Connections: [connect] with a username *)

Section Connections.
Context {E : Env}.

(** [get_or_create_user] ends in one of two ways: it returns a user with
    the username asked for, or the insert lost a race and it raises
    [DuplicateKeyError] right after the insert, before any further
    suspension. *)
Lemma get_or_create_user_outcome (username : string) (t : Task) :
  (exists user, fst (get_or_create_user username t) = Ret user
                /\ u_username user = username)
  \/ (get_or_create_user username t
      = (Raise DuplicateKeyError,
         {| srv := sched (awaits t) (srv t);
            log := log t ++ [FindUser username; InsertUser username];
            awaits := S (awaits t); reads := reads t |})
      /\ List.find (has_username username) (users (db (srv t))) = None).
Proof.
  unfold get_or_create_user, await, find_one_user, insert_one_user.
  unfold bind; simpl.
  destruct (find (has_username username) (users (db (srv t)))) as [u|] eqn:Hf; simpl.
  - left. exists u. split; [reflexivity|].
    apply find_some in Hf as [_ Hu]. now apply String.eqb_eq in Hu.
  - destruct (existsb _ _) eqn:Hex; simpl.
    + right. split; [|reflexivity]. now rewrite <- app_assoc.
    + left. eexists. now split.
Qed.

(** X1. A connection request whose first [username] value is not blank
    is never refused. Either [connect] returns [True], and then the
    session table maps the sid to that value stripped, which is a
    non-empty string without surrounding spaces; or the sign-up of the
    user lost a race, [connect] raises [DuplicateKeyError], and the
    handler has registered no session. *)
Theorem connect_registers_trimmed_username
    (sid : string) (environ : gmap string string) (t : Task) (raw : string)
    (rest : list string) :
  default [] (parse_qs (default EmptyString (environ !! "QUERY_STRING")) !! "username")
    = raw :: rest ->
  PyStr.all_space raw = false ->
  (fst (connect sid environ t) = Ret true
   /\ sid_to_username (srv (snd (connect sid environ t))) !! sid = Some (PyStr.strip raw)
   /\ trimmed (PyStr.strip raw))
  \/ (fst (connect sid environ t) = Raise DuplicateKeyError
      /\ sid_to_username (srv (snd (connect sid environ t)))
         = sid_to_username (sched (awaits t) (srv t))
      /\ List.find (has_username (PyStr.strip raw)) (users (db (srv t))) = None).
Proof.
  intros Hq Hraw.
  assert (get_username_from_query environ = Some (PyStr.strip raw)) as Hu.
  { unfold get_username_from_query. now rewrite Hq. }
  pose proof (PyStrMore.strip_nonempty _ Hraw) as Hne.
  unfold connect. rewrite Hu. simpl.
  destruct (PyStr.strip raw) as [|c u] eqn:Hs; [congruence|]. simpl.
  rewrite <- Hs in *. clear c u Hs.
  destruct (get_or_create_user_outcome (PyStr.strip raw) t) as [(user & Hret & _)|[Hraise Hf]].
  - left. unfold bind.
    destruct (get_or_create_user (PyStr.strip raw) t) as [[user'|e] t1]; [|discriminate].
    simpl. split; [reflexivity|]. split; [apply lookup_insert_eq|].
    split; [exact Hne | apply PyStrMore.strip_idempotent].
  - right. unfold bind. rewrite Hraise. simpl. now repeat split.
Qed.

End Connections.

(** ** Rooms of the Socket.IO server: [join_room] and [leave_room] *)

Section Joining.
Context {E : Env}.

Lemma join_room_joined sid data t u rid o room :
  may_join sid data t u rid o room ->
  join_room sid data t = (Ret tt, after_join sid rid o t).
Proof.
  intros ((d & Hd & Hrid) & Hne & Ho & Hauth & Hroom & Hin).
  unfold join_room, load_payload, lookup_session, lift.
  unfold bind at 1. rewrite Hd. unfold bind at 1. simpl.
  rewrite (str_truthy_authenticated _ _ _ Hauth). destruct Hauth as [Hu Hune].
  rewrite Hu, Hrid, (truthy_PStr _ Hne). simpl. rewrite Ho. simpl.
  unfold await, find_one_room. unfold bind at 1 2 3 4. simpl.
  rewrite Hroom. simpl. rewrite (bool_decide_eq_true_2 _ Hin). simpl.
  unfold after_join, sio_enter_room, sio_emit, bind, tell, get_srv, set_srv, suspend, ret.
  simpl. now rewrite <- !app_assoc.
Qed.

(** Every run of [join_room] takes one of four paths: it raises before
    doing anything; it only reports an error; it fetches the room and
    then only reports an error; or the join passes every check. *)
Lemma join_room_paths sid data t :
  (exists e, join_room sid data t = (Raise e, t))
  \/ (exists message, join_room sid data t = (Ret tt, after_error sid message t))
  \/ (exists o message,
        join_room sid data t = (Ret tt, after_error sid message (after_find o t)))
  \/ (exists u rid o room, may_join sid data t u rid o room).
Proof.
  destruct (join_room sid data t) as [res t'] eqn:Hrun.
  unfold join_room, load_payload, lookup_session, lift in Hrun.
  unfold bind at 1 in Hrun.
  destruct (parse_payload data) as [d|e] eqn:Hd;
    [|injection Hrun as <- <-; left; now exists e].
  unfold bind at 1 in Hrun. simpl in Hrun.
  destruct (sid_to_username (srv t) !! sid) as [[|c u]|] eqn:Hu; simpl in Hrun;
    try (rewrite <- Hrun; right; left; eexists; apply emit_error_run).
  destruct (truthy (get_field "room_id" d)) eqn:Htr; simpl in Hrun;
    [|rewrite <- Hrun; right; left; eexists; apply emit_error_run].
  destruct (to_ObjectId (get_field "room_id" d)) as [[o rid]|] eqn:Ho;
    [|rewrite <- Hrun; right; left; eexists; apply emit_error_run].
  apply to_ObjectId_Some in Ho as [Hrid Ho].
  unfold await, find_one_room in Hrun. unfold bind at 1 2 3 4 in Hrun.
  simpl in Hrun.
  destruct (find (has_id o) (rooms (db (srv t)))) as [room|] eqn:Hroom; simpl in Hrun;
    [|rewrite <- Hrun; right; right; left; eexists _, _; apply emit_error_run].
  destruct (bool_decide (String c u ∈ r_participant_usernames room)) eqn:Hin;
    simpl in Hrun;
    [|rewrite <- Hrun; right; right; left; eexists _, _; apply emit_error_run].
  right; right; right. exists (String c u), rid, o, room.
  apply bool_decide_eq_true_1 in Hin. rewrite Hrid in Htr.
  split; [now exists d|]. repeat split; try assumption; try discriminate.
  intros ->. discriminate.
Qed.

(** X2. [join_room] puts a connection into a Socket.IO room only after
    the membership check has passed: the log of a run contains
    [EnterRoom s r] exactly when [s] is the calling sid, [r] is the
    [room_id] string of the payload, the sid has a session, [r] names a
    stored room, and the session's user is a participant of that room. *)
Theorem join_room_enters_only_participants sid data t s r :
  EnterRoom s r ∈ effects_since t (snd (join_room sid data t))
  <-> s = sid /\ exists u o room, may_join sid data t u r o room.
Proof.
  split.
  - destruct (join_room_paths sid data t)
      as [[e Hrun]|[[msg Hrun]|[(o & msg & Hrun)|(u & rid & o & room & Hjoin)]]].
    + rewrite Hrun. simpl. unfold effects_since. rewrite drop_all.
      intros Hin. now apply elem_of_nil in Hin.
    + rewrite Hrun. simpl. rewrite effects_after_error. intros Hin.
      apply list_elem_of_singleton in Hin. discriminate.
    + rewrite Hrun. simpl. rewrite effects_after_find_error. intros Hin.
      repeat (apply elem_of_cons in Hin as [Hin|Hin]; [discriminate|]).
      now apply elem_of_nil in Hin.
    + rewrite (join_room_joined _ _ _ _ _ _ _ Hjoin). simpl.
      rewrite (effects_since_app t (after_join sid rid o t) _ eq_refl).
      intros Hin.
      apply elem_of_cons in Hin as [Hin|Hin]; [discriminate|].
      apply elem_of_cons in Hin as [Hin|Hin].
      * injection Hin as -> ->. split; [reflexivity|]. now exists u, o, room.
      * apply list_elem_of_singleton in Hin. discriminate.
  - intros [-> (u & o & room & Hjoin)].
    rewrite (join_room_joined _ _ _ _ _ _ _ Hjoin). simpl.
    rewrite (effects_since_app t (after_join sid r o t) _ eq_refl).
    apply elem_of_cons. right. apply elem_of_cons. now left.
Qed.

Lemma participants_entered s sid rid room :
  participants (with_rooms s (<[rid := {[sid]} ∪ participants s rid]> (sio_rooms s))) room
  = if decide (rid = room) then {[sid]} ∪ participants s rid else participants s room.
Proof.
  unfold participants at 1. simpl. rewrite lookup_insert.
  now destruct (decide (rid = room)).
Qed.

(** X3. With no other task in between, a join that passes adds the sid
    to the Socket.IO room of that name and changes nothing else: the
    other rooms, the sessions and the database are as before. Joining
    again with the same payload leaves the rooms exactly as they are. *)
Theorem join_room_idempotent sid data t u rid o room :
  undisturbed ->
  may_join sid data t u rid o room ->
  sio_rooms (srv (snd (join_room sid data t)))
    = <[rid := {[sid]} ∪ participants (srv t) rid]> (sio_rooms (srv t))
  /\ sid ∈ participants (srv (snd (join_room sid data t))) rid
  /\ (forall r, r <> rid ->
        participants (srv (snd (join_room sid data t))) r = participants (srv t) r)
  /\ sid_to_username (srv (snd (join_room sid data t))) = sid_to_username (srv t)
  /\ db (srv (snd (join_room sid data t))) = db (srv t)
  /\ sio_rooms (srv (snd (join_room sid data (snd (join_room sid data t)))))
     = sio_rooms (srv (snd (join_room sid data t))).
Proof.
  intros Hq Hjoin.
  assert (srv (snd (join_room sid data t))
          = with_rooms (srv t)
              (<[rid := {[sid]} ∪ participants (srv t) rid]> (sio_rooms (srv t)))) as Hsrv.
  { rewrite (join_room_joined _ _ _ _ _ _ _ Hjoin). unfold after_join. simpl.
    now rewrite !Hq. }
  assert (may_join sid data (snd (join_room sid data t)) u rid o room) as Hagain.
  { destruct Hjoin as (Hd & Hne & Ho & [Hu Hune] & Hroom & Hin).
    split; [exact Hd|]. split; [exact Hne|]. split; [exact Ho|].
    split; [split; [rewrite Hsrv; exact Hu | exact Hune]|].
    split; [rewrite Hsrv; exact Hroom | exact Hin]. }
  split; [now rewrite Hsrv|]. split.
  { rewrite Hsrv, participants_entered. rewrite decide_True by reflexivity.
    apply elem_of_union_l. now apply elem_of_singleton. }
  split.
  { intros r Hr. rewrite Hsrv, participants_entered. now rewrite decide_False. }
  split; [now rewrite Hsrv|]. split; [now rewrite Hsrv|].
  rewrite (join_room_joined _ _ _ _ _ _ _ Hagain). unfold after_join. simpl.
  rewrite !Hq, Hsrv. simpl. rewrite participants_entered.
  rewrite decide_True by reflexivity. rewrite insert_insert_eq.
  f_equal. apply set_eq. intros x. rewrite !elem_of_union. tauto.
Qed.

End Joining.

Section Leaving.
Context {E : Env}.

Lemma join_room_undisturbed sid data t u rid o room :
  undisturbed ->
  may_join sid data t u rid o room ->
  srv (snd (join_room sid data t))
  = with_rooms (srv t) (<[rid := {[sid]} ∪ participants (srv t) rid]> (sio_rooms (srv t))).
Proof.
  intros Hq Hjoin. rewrite (join_room_joined _ _ _ _ _ _ _ Hjoin).
  unfold after_join. simpl. now rewrite !Hq.
Qed.

Lemma participants_left s sid rid room :
  participants
    (with_rooms s (partial_alter (fun g => g ≫= remove_sid sid) rid (sio_rooms s))) room
  = if decide (rid = room) then participants s rid ∖ {[sid]} else participants s room.
Proof.
  unfold participants at 1. simpl. rewrite lookup_partial_alter.
  destruct (decide (rid = room)) as [->|]; [|reflexivity].
  unfold participants. destruct (sio_rooms s !! room) as [g|]; simpl.
  - unfold remove_sid. destruct (decide (g ∖ {[sid]} = ∅)) as [Hg|]; simpl; [|reflexivity].
    now rewrite Hg.
  - apply set_eq. intros x. rewrite elem_of_difference.
    split; [intros Hx; now apply not_elem_of_empty in Hx | intros [Hx _]; exact Hx].
Qed.

Lemma leave_room_undisturbed sid data t u d rid :
  undisturbed ->
  authenticated (srv t) sid u ->
  parse_payload data = Ret d ->
  get_field "room_id" d = PStr rid ->
  rid <> EmptyString ->
  leave_room sid data t
  = (Ret tt,
     let s' := with_rooms (srv t)
                 (partial_alter (fun g => g ≫= remove_sid sid) rid (sio_rooms (srv t))) in
     {| srv := s';
        log := log t ++ [LeaveRoom sid rid;
                         Emit "left_room" (RoomRef (PStr rid)) sid (participants s' sid)];
        awaits := S (S (awaits t));
        reads := reads t |}).
Proof.
  intros Hq Hauth Hd Hrid Hne.
  unfold leave_room, load_payload, lookup_session, lift.
  unfold bind at 1. rewrite Hd. unfold bind at 1. simpl.
  rewrite (str_truthy_authenticated _ _ _ Hauth), Hrid, (truthy_PStr _ Hne). simpl.
  unfold await, sio_leave_room, sio_emit, bind, tell, get_srv, set_srv, suspend, ret.
  simpl. rewrite !Hq. now rewrite <- !app_assoc.
Qed.

(** X4. [leave_room] asks the store nothing: with no other task in
    between, a connection with a session leaves the Socket.IO room named
    by any non-empty [room_id] string, whether or not the string is an
    ObjectId, names a stored room, or names a room the connection is in.
    The sid is out of that room afterwards; the other rooms, the sessions
    and the database are unchanged; [left_room] is the only event. *)
Theorem leave_room_needs_no_room sid data t u d rid :
  undisturbed ->
  authenticated (srv t) sid u ->
  parse_payload data = Ret d ->
  get_field "room_id" d = PStr rid ->
  rid <> EmptyString ->
  fst (leave_room sid data t) = Ret tt
  /\ effects_since t (snd (leave_room sid data t))
     = [LeaveRoom sid rid;
        Emit "left_room" (RoomRef (PStr rid)) sid
          (participants (srv (snd (leave_room sid data t))) sid)]
  /\ participants (srv (snd (leave_room sid data t))) rid
     = participants (srv t) rid ∖ {[sid]}
  /\ (forall r, r <> rid ->
        participants (srv (snd (leave_room sid data t))) r = participants (srv t) r)
  /\ sid_to_username (srv (snd (leave_room sid data t))) = sid_to_username (srv t)
  /\ db (srv (snd (leave_room sid data t))) = db (srv t).
Proof.
  intros Hq Hauth Hd Hrid Hne.
  rewrite (leave_room_undisturbed _ _ _ _ _ _ Hq Hauth Hd Hrid Hne). simpl.
  split; [reflexivity|]. split; [now apply effects_since_app|].
  split; [rewrite participants_left; now rewrite decide_True|].
  split; [|now split].
  intros r Hr. rewrite participants_left. now rewrite decide_False.
Qed.

(** X5. With no other task in between, joining a room and then leaving
    it with the same payload puts every Socket.IO room back to the sids
    it had, provided the connection was not in the room before. *)
Theorem join_then_leave_restores sid data t u rid o room :
  undisturbed ->
  may_join sid data t u rid o room ->
  sid ∉ participants (srv t) rid ->
  forall r,
    participants (srv (snd (leave_room sid data (snd (join_room sid data t))))) r
    = participants (srv t) r.
Proof.
  intros Hq Hjoin Hout r.
  pose proof (join_room_undisturbed _ _ _ _ _ _ _ Hq Hjoin) as Hsrv.
  destruct Hjoin as ((d & Hd & Hrid) & Hne & _ & [Hu Hune] & _).
  rewrite (leave_room_undisturbed sid data _ u d rid Hq); try assumption;
    [|split; [now rewrite Hsrv | exact Hune]].
  simpl. rewrite participants_left, Hsrv, !participants_entered.
  destruct (decide (rid = r)) as [->|Hr].
  - rewrite decide_True by reflexivity. apply set_eq. intros x.
    rewrite elem_of_difference, elem_of_union, elem_of_singleton.
    split; [intros [[->|Hx] Hn]; [now destruct Hn | exact Hx]|].
    intros Hx. split; [now right|]. intros ->. now apply Hout.
  - reflexivity.
Qed.

End Leaving.

(** ** More on the message pipeline *)

Section Storing.
Context {E : Env}.

(** X6. [send_message] stores a message only for an accepted send. Every
    message that a run stores belongs to the room that the send's
    [room_id] names in the store, and is either the sender's message, with
    the session's username, the stripped non-empty text and the first
    clock reading, or the reply of the assistant to a text that mentions
    it. *)
Theorem send_message_stores_only_accepted sid data t m :
  m ∈ persisted (effects_since t (snd (send_message sid data t))) ->
  exists u rid o room text,
    accepted sid data t u rid o room text
    /\ m_room_id m = o
    /\ ((m_sender_username m = u /\ m_text m = text
         /\ m_created_at m = utcnow (reads t))
        \/ (m_sender_username m = AI /\ mentions text
            /\ m_text m = reply_to room text)).
Proof.
  destruct (send_message_paths sid data t)
    as [[e Hrun]|[[msg Hrun]|[(o & msg & Hrun)|(u & rid & o & room & text & Hacc)]]].
  - rewrite Hrun. simpl. unfold effects_since. rewrite drop_all.
    intros Hin. now apply elem_of_nil in Hin.
  - rewrite Hrun. simpl. rewrite effects_after_error.
    intros Hin. now apply elem_of_nil in Hin.
  - rewrite Hrun. simpl. rewrite effects_after_find_error.
    intros Hin. now apply elem_of_nil in Hin.
  - intros Hin. exists u, rid, o, room, text. split; [exact Hacc|].
    destruct (send_message_accepted _ _ _ _ _ _ _ _ Hacc)
      as (m0 & rec & Hmo & Hmu & Hmt & Hmc & Hres & Hlog).
    destruct (PyStr.contains "@ai" (PyStr.lower text)) eqn:Hc.
    + destruct Hlog as (m_ai & rec_ai & Hao & Hau & Hat & Hac & Hlog).
      apply effects_since_app in Hlog. rewrite Hlog in Hin.
      unfold persisted, event_of in Hin. simpl in Hin.
      apply elem_of_cons in Hin as [->|Hin]; [split; [exact Hmo | now left]|].
      apply list_elem_of_singleton in Hin as ->. split; [exact Hao|]. right.
      split; [exact Hau|]. split; [now apply mentions_contains | exact Hat].
    + apply effects_since_app in Hlog. rewrite Hlog in Hin.
      unfold persisted, event_of in Hin. simpl in Hin.
      apply list_elem_of_singleton in Hin as ->. split; [exact Hmo | now left].
Qed.

(** With no other task in between, an accepted send appends what it
    stores to the messages of the database and changes nothing else, and
    each of its events is addressed to the Socket.IO room named by the
    [room_id] string of the payload, as that room was when the send
    began. *)
Lemma send_message_undisturbed sid data t u rid o room text :
  undisturbed ->
  accepted sid data t u rid o room text ->
  sid_to_username (srv (snd (send_message sid data t))) = sid_to_username (srv t)
  /\ sio_rooms (srv (snd (send_message sid data t))) = sio_rooms (srv t)
  /\ users (db (srv (snd (send_message sid data t)))) = users (db (srv t))
  /\ rooms (db (srv (snd (send_message sid data t)))) = rooms (db (srv t))
  /\ messages (db (srv (snd (send_message sid data t))))
     = messages (db (srv t))
       ++ persisted (effects_since t (snd (send_message sid data t)))
  /\ forall event body r rec,
       Emit event body r rec ∈ effects_since t (snd (send_message sid data t)) ->
       r = rid /\ rec = participants (srv t) rid.
Proof.
  intros Hq ((d & Hd & Hrid & Hne & Ho & Htext & Htne & Hauth) & Hroom & Hin).
  destruct (send_message sid data t) as [res t'] eqn:Hrun.
  unfold send_message, load_payload, get_text, lookup_session, lift in Hrun.
  unfold bind at 1 in Hrun. rewrite Hd in Hrun.
  unfold bind at 1 in Hrun. rewrite Htext in Hrun.
  unfold bind at 1 in Hrun. simpl in Hrun.
  rewrite (str_truthy_authenticated _ _ _ Hauth) in Hrun.
  destruct Hauth as [Hu Hune].
  rewrite Hu, Hrid, (truthy_PStr _ Hne), (eqb_nonempty _ Htne) in Hrun.
  simpl in Hrun. rewrite Ho in Hrun. simpl in Hrun.
  unfold await, find_one_room in Hrun. unfold bind at 1 2 3 4 in Hrun.
  simpl in Hrun. rewrite Hroom in Hrun. simpl in Hrun.
  rewrite (bool_decide_eq_true_2 _ Hin) in Hrun. simpl in Hrun.
  unfold undisturbed in Hq. rewrite Hq in Hrun.
  unfold emit_new_message, await, insert_one_message, sio_emit, now in Hrun.
  destruct (PyStr.contains "@ai" (PyStr.lower text)).
  - unfold get_ai_response in Hrun.
    assert (forall p t0, match generate_content p with
                         | Ret answer => ret (PyStr.strip answer)
                         | Raise _ => ret fallback_text
                         end t0
                         = (Ret match generate_content p with
                                | Ret answer => PyStr.strip answer
                                | Raise _ => fallback_text
                                end, t0)) as Hreply.
    { intros p t0. now destruct (generate_content p). }
    repeat (unfold bind at 1 in Hrun; simpl in Hrun; rewrite ?Hq, ?Hreply in Hrun).
    injection Hrun as <- <-. simpl.
    repeat (split; [reflexivity|]).
    unfold effects_since; simpl. rewrite <- !app_assoc, drop_app_length. simpl.
    split; [first [reflexivity | now rewrite <- app_assoc]|].
    intros event body r rec Hemit.
    repeat (apply elem_of_cons in Hemit as [Hemit|Hemit];
            [first [discriminate | injection Hemit as -> -> -> ->; now split]|]).
    now apply elem_of_nil in Hemit.
  - repeat (unfold bind at 1 in Hrun; simpl in Hrun; rewrite ?Hq in Hrun).
    injection Hrun as <- <-. simpl.
    repeat (split; [reflexivity|]).
    unfold effects_since; simpl. rewrite <- !app_assoc, drop_app_length. simpl.
    split; [reflexivity|].
    intros event body r rec Hemit.
    repeat (apply elem_of_cons in Hemit as [Hemit|Hemit];
            [first [discriminate | injection Hemit as -> -> -> ->; now split]|]).
    now apply elem_of_nil in Hemit.
Qed.

(** X7. The store is keyed by the ObjectId, the Socket.IO rooms by the
    string. With no other task in between, when a send is accepted under
    the [room_id] string [rid], its message is stored in the room that
    [rid] names, but a connection that joined the same room under another
    string for the same ObjectId, and is not in the Socket.IO room [rid],
    receives none of the events of the send. *)
Theorem broadcast_follows_room_id_spelling sid data t u rid o room text listener rid' :
  undisturbed ->
  accepted sid data t u rid o room text ->
  ObjectId rid' = Some o ->
  listener ∈ participants (srv t) rid' ->
  listener ∉ participants (srv t) rid ->
  (exists m, m ∈ messages (db (srv (snd (send_message sid data t))))
             /\ m_room_id m = o /\ m_sender_username m = u /\ m_text m = text)
  /\ silent_for listener (effects_since t (snd (send_message sid data t))).
Proof.
  intros Hq Hacc Ho' Hin Hout.
  destruct (send_message_undisturbed _ _ _ _ _ _ _ _ Hq Hacc)
    as (_ & _ & _ & _ & Hmsgs & Hemits).
  destruct (send_message_accepted _ _ _ _ _ _ _ _ Hacc)
    as (m & rec & Hmo & Hmu & Hmt & _ & _ & Hlog).
  split.
  - exists m. split; [|now repeat split]. rewrite Hmsgs. apply elem_of_app. right.
    destruct (PyStr.contains "@ai" (PyStr.lower text)).
    + destruct Hlog as (m_ai & rec_ai & _ & _ & _ & _ & Hlog).
      rewrite (effects_since_app _ _ _ Hlog). unfold persisted, event_of. simpl.
      apply elem_of_cons. now left.
    + rewrite (effects_since_app _ _ _ Hlog). unfold persisted, event_of. simpl.
      apply elem_of_cons. now left.
  - apply Forall_forall. intros e He Hdel.
    destruct e as [| | | | | |event body r recipients|]; simpl in Hdel; try contradiction.
    destruct (Hemits _ _ _ _ He) as [-> ->]. now apply Hout.
Qed.

End Storing.

(** ** What the Socket.IO handlers keep *)

Section Steady.
Context {E : Env} (I : Server -> Prop).

(** [I] survives what the other tasks do, the two writes the handlers
    make to the database, any change of the Socket.IO rooms, the end of a
    session and the start of one for a stripped, non-blank username. *)
Hypothesis I_others : forall n s, I s -> I (sched n s).
Hypothesis I_insert_user :
  forall s u, I s ->
    I (with_db s {| users := users (db s) ++ [u]; rooms := rooms (db s);
                    messages := messages (db s) |}).
Hypothesis I_insert_message :
  forall s m, I s ->
    I (with_db s {| users := users (db s); rooms := rooms (db s);
                    messages := messages (db s) ++ [m] |}).
Hypothesis I_rooms : forall s g, I s -> I (with_rooms s g).
Hypothesis I_delete :
  forall s sid, I s -> I (with_sessions s (delete sid (sid_to_username s))).
Hypothesis I_register :
  forall s sid raw, PyStr.all_space raw = false -> I s ->
    I (with_sessions s (<[sid := PyStr.strip raw]> (sid_to_username s))).

Lemma steady_ret {A} (a : A) : steady I (ret a).
Proof. now intros t Ht. Qed.

Lemma steady_raise {A} e : steady I (@raise A e).
Proof. now intros t Ht. Qed.

Lemma steady_lift {A} (r : Res A) : steady I (lift r).
Proof. now intros t Ht. Qed.

Lemma steady_bind {A B} (m : M A) (k : A -> M B) :
  steady I m -> (forall a, steady I (k a)) -> steady I (bind m k).
Proof.
  intros Hm Hk t Ht. unfold bind. specialize (Hm t Ht).
  destruct (m t) as [[a|e] t']; simpl in *; [now apply Hk | exact Hm].
Qed.

Lemma steady_suspend : steady I suspend.
Proof. intros t Ht. simpl. now apply I_others. Qed.

Lemma steady_await {A} (m : M A) : steady I m -> steady I (await m).
Proof.
  intros Hm. unfold await. apply steady_bind; [exact Hm|]. intros a.
  apply steady_bind; [apply steady_suspend | intros _; apply steady_ret].
Qed.

Lemma steady_now : steady I now.
Proof. now intros t Ht. Qed.

Lemma steady_tell e : steady I (tell e).
Proof. now intros t Ht. Qed.

Lemma steady_find_one_user username : steady I (find_one_user username).
Proof. now intros t Ht. Qed.

Lemma steady_find_one_room o : steady I (find_one_room o).
Proof. now intros t Ht. Qed.

Lemma steady_insert_one_user username : steady I (insert_one_user username).
Proof.
  intros t Ht. unfold insert_one_user, bind, get_srv, tell, set_srv. simpl.
  destruct (existsb _ _); simpl; [exact Ht | now apply I_insert_user].
Qed.

Lemma steady_insert_one_message o sender text created :
  steady I (insert_one_message o sender text created).
Proof. intros t Ht. simpl. now apply I_insert_message. Qed.

Lemma steady_sio_emit event data room : steady I (sio_emit event data room).
Proof. now intros t Ht. Qed.

Lemma steady_emit_error sid message : steady I (emit_error sid message).
Proof. apply steady_await, steady_sio_emit. Qed.

Lemma steady_sio_enter_room sid room : steady I (sio_enter_room sid room).
Proof. intros t Ht. simpl. now apply I_rooms. Qed.

Lemma steady_sio_leave_room sid room : steady I (sio_leave_room sid room).
Proof. intros t Ht. simpl. now apply I_rooms. Qed.

Lemma steady_sio_manager_connect sid : steady I (sio_manager_connect sid).
Proof. intros t Ht. simpl. now apply I_rooms. Qed.

Lemma steady_sio_manager_disconnect sid : steady I (sio_manager_disconnect sid).
Proof. intros t Ht. simpl. now apply I_rooms. Qed.

Lemma steady_get_or_create_user username : steady I (get_or_create_user username).
Proof.
  unfold get_or_create_user.
  apply steady_bind; [apply steady_await, steady_find_one_user|].
  intros [u|]; [apply steady_ret|].
  apply steady_bind; [apply steady_await, steady_insert_one_user | intros; apply steady_ret].
Qed.

Lemma steady_connect sid environ : steady I (connect sid environ).
Proof.
  unfold connect, get_username_from_query.
  destruct (default [] _) as [|raw rest]; simpl; [apply steady_ret|].
  destruct (PyStr.strip raw) as [|c u] eqn:Hs; simpl; [apply steady_ret|].
  assert (PyStr.all_space raw = false) as Hraw.
  { destruct (PyStr.all_space raw) eqn:Ha; [|reflexivity].
    apply PyStrFacts.strip_empty in Ha. congruence. }
  apply steady_bind; [apply steady_get_or_create_user|]. intros _.
  apply steady_bind; [|intros; apply steady_ret].
  intros t Ht. simpl. rewrite <- Hs. now apply I_register.
Qed.

Lemma steady_on_connect sid environ : steady I (on_connect sid environ).
Proof.
  unfold on_connect.
  apply steady_bind; [apply steady_sio_manager_connect|]. intros _.
  apply steady_bind; [apply steady_connect|]. intros [|]; [apply steady_ret|].
  apply steady_bind; [apply steady_sio_manager_disconnect | intros; apply steady_ret].
Qed.

Lemma steady_on_disconnect sid : steady I (on_disconnect sid).
Proof.
  unfold on_disconnect, disconnect, unregister.
  apply steady_bind; [|intros; apply steady_sio_manager_disconnect].
  apply steady_bind; [|intros; apply steady_ret].
  intros t Ht. simpl. now apply I_delete.
Qed.

Lemma steady_join_room sid data : steady I (join_room sid data).
Proof.
  unfold join_room. apply steady_bind; [apply steady_lift|]. intros d.
  apply steady_bind; [now intros t Ht|]. intros username.
  destruct (negb _); [apply steady_emit_error|].
  destruct (negb _); [apply steady_emit_error|].
  destruct (to_ObjectId _) as [[o rid]|]; [|apply steady_emit_error].
  apply steady_bind; [apply steady_await, steady_find_one_room|].
  intros [room|]; [|apply steady_emit_error].
  destruct (negb _); [apply steady_emit_error|].
  apply steady_bind; [apply steady_await, steady_sio_enter_room|]. intros _.
  apply steady_await, steady_sio_emit.
Qed.

Lemma steady_leave_room sid data : steady I (leave_room sid data).
Proof.
  unfold leave_room. apply steady_bind; [apply steady_lift|]. intros d.
  apply steady_bind; [now intros t Ht|]. intros username.
  destruct (negb _); [apply steady_emit_error|].
  destruct (negb _); [apply steady_emit_error|].
  apply steady_bind; [|intros; apply steady_await, steady_sio_emit].
  apply steady_await. unfold sio_leave_room_value.
  destruct (get_field "room_id" d);
    first [apply steady_ret | apply steady_raise | apply steady_sio_leave_room].
Qed.

Lemma steady_send_message sid data : steady I (send_message sid data).
Proof.
  unfold send_message. apply steady_bind; [apply steady_lift|]. intros d.
  apply steady_bind; [apply steady_lift|]. intros text.
  apply steady_bind; [now intros t Ht|]. intros username.
  destruct (negb _); [apply steady_emit_error|].
  destruct (negb _); [apply steady_emit_error|].
  destruct (String.eqb _ _); [apply steady_emit_error|].
  destruct (to_ObjectId _) as [[o rid]|]; [|apply steady_emit_error].
  apply steady_bind; [apply steady_await, steady_find_one_room|].
  intros [room|]; [|apply steady_emit_error].
  destruct (negb _); [apply steady_emit_error|].
  apply steady_bind; [apply steady_now|]. intros created.
  apply steady_bind; [apply steady_await, steady_insert_one_message|]. intros id.
  apply steady_bind; [apply steady_await, steady_sio_emit|]. intros _.
  destruct (PyStr.contains _ _); [|apply steady_ret].
  apply steady_bind.
  { unfold get_ai_response. apply steady_bind; [apply steady_tell|]. intros _.
    destruct (generate_content _); apply steady_ret. }
  intros reply.
  apply steady_bind; [apply steady_now|]. intros ai_now.
  apply steady_bind; [apply steady_await, steady_insert_one_message|]. intros ai_id.
  apply steady_await, steady_sio_emit.
Qed.

Lemma steady_handle e : steady I (handle e).
Proof.
  destruct e as [sid environ|sid|sid data|sid data|sid data]; simpl.
  - apply steady_bind; [apply steady_on_connect | intros; apply steady_ret].
  - apply steady_on_disconnect.
  - apply steady_join_room.
  - apply steady_leave_room.
  - apply steady_send_message.
Qed.

Lemma steady_run events t : I (srv t) -> I (srv (run events t)).
Proof.
  revert t. induction events as [|e events IH]; intros t Ht; simpl; [exact Ht|].
  apply IH. now apply steady_handle.
Qed.

End Steady.

(** X8. Every username in the session table is non-empty and free of
    surrounding spaces, and stays so: if the sessions are trimmed, and the
    other tasks keep them trimmed, then they are trimmed after any
    sequence of connect, disconnect, join, leave and send events. *)
Theorem sessions_stay_trimmed {E : Env} (events : list Event) (t : Task) :
  (forall n s, sessions_trimmed s -> sessions_trimmed (sched n s)) ->
  sessions_trimmed (srv t) ->
  sessions_trimmed (srv (run events t)).
Proof.
  intros Hothers Ht. apply (steady_run sessions_trimmed); try assumption.
  - now intros s u Hs.
  - now intros s m Hs.
  - now intros s g Hs.
  - intros s sid Hs sid' u Hu. simpl in Hu.
    apply lookup_delete_Some in Hu as [_ Hu]. now apply (Hs sid').
  - intros s sid raw Hraw Hs sid' u Hu. simpl in Hu.
    apply lookup_insert_Some in Hu as [[_ <-]|[_ Hu]]; [|now apply (Hs sid')].
    split; [now apply PyStrMore.strip_nonempty | apply PyStrMore.strip_idempotent].
Qed.

(** X9. The Socket.IO handlers never delete or rewrite stored data. If
    the other tasks leave the rooms collection alone and only add users
    and messages, then after any sequence of socket events the rooms
    collection is what it was, and the users and messages that were
    stored are still there, in place, followed by the new ones. *)
Theorem socket_events_only_append {E : Env} (events : list Event) (t : Task) :
  (forall n s d, grown_from d (db s) -> grown_from d (db (sched n s))) ->
  grown_from (db (srv t)) (db (srv (run events t))).
Proof.
  intros Hothers.
  apply (steady_run (fun s => grown_from (db (srv t)) (db s))).
  - intros n s. apply Hothers.
  - intros s u (Hr & Hu & Hm). split; [exact Hr|]. split; [|exact Hm].
    simpl. now apply prefix_app_r.
  - intros s m (Hr & Hu & Hm). split; [exact Hr|]. split; [exact Hu|].
    simpl. now apply prefix_app_r.
  - now intros s g Hs.
  - now intros s sid Hs.
  - now intros s sid raw _ Hs.
  - now repeat split.
Qed.

(** ** The further properties on the sample server *)

(** bob asks for a connection with spaces around his name. *)
Lemma connect_registers_trimmed_username_witness :
  (fst (connect (E := Sample.quiet) "s2" {["QUERY_STRING" := "username=+bob+"]}
          (start Sample.server)) = Ret true
   /\ sid_to_username
        (srv (snd (connect (E := Sample.quiet) "s2" {["QUERY_STRING" := "username=+bob+"]}
                     (start Sample.server)))) !! "s2"
      = Some (PyStr.strip " bob ")
   /\ trimmed (PyStr.strip " bob "))
  \/ (fst (connect (E := Sample.quiet) "s2" {["QUERY_STRING" := "username=+bob+"]}
             (start Sample.server)) = Raise DuplicateKeyError
      /\ sid_to_username
           (srv (snd (connect (E := Sample.quiet) "s2"
                        {["QUERY_STRING" := "username=+bob+"]} (start Sample.server))))
         = sid_to_username (sched (Env := Sample.quiet) 0 Sample.server)
      /\ List.find (has_username (PyStr.strip " bob ")) (users (db Sample.server)) = None).
Proof.
  refine (connect_registers_trimmed_username (E := Sample.quiet)
            "s2" {["QUERY_STRING" := "username=+bob+"]} (start Sample.server)
            " bob " [] _ _).
  - vm_compute. reflexivity.
  - reflexivity.
Defined.

(** alice joins the lobby, whose Socket.IO room she is in already. *)
Lemma join_room_idempotent_witness :
  sio_rooms (srv (snd (join_room (E := Sample.quiet) "s1"
                         (PDict [("room_id", PStr Sample.room_hex)])
                         (start Sample.server))))
  = <[Sample.room_hex := {["s1"]} ∪ participants Sample.server Sample.room_hex]>
      (sio_rooms Sample.server).
Proof.
  refine (proj1 (join_room_idempotent (E := Sample.quiet) "s1"
                   (PDict [("room_id", PStr Sample.room_hex)]) (start Sample.server)
                   "alice" Sample.room_hex 170 Sample.lobby _ _)).
  - intros n s. reflexivity.
  - split; [eexists; split; reflexivity|].
    split; [discriminate|]. split; [reflexivity|].
    split; [split; [reflexivity | discriminate]|].
    split; [reflexivity | repeat constructor].
Defined.

(** alice leaves a room whose name is no ObjectId. *)
Lemma leave_room_needs_no_room_witness :
  fst (leave_room (E := Sample.quiet) "s1" (PDict [("room_id", PStr "nowhere")])
         (start Sample.server)) = Ret tt
  /\ db (srv (snd (leave_room (E := Sample.quiet) "s1" (PDict [("room_id", PStr "nowhere")])
                    (start Sample.server))))
     = db Sample.server.
Proof.
  destruct (leave_room_needs_no_room (E := Sample.quiet) "s1"
              (PDict [("room_id", PStr "nowhere")]) (start Sample.server)
              "alice" (PDict [("room_id", PStr "nowhere")]) "nowhere")
    as (Hret & _ & _ & _ & _ & Hdb).
  - intros n s. reflexivity.
  - split; [reflexivity | discriminate].
  - reflexivity.
  - reflexivity.
  - discriminate.
  - split; [exact Hret | exact Hdb].
Defined.

(** alice joins the lobby under the upper-case spelling of its id, a
    Socket.IO room that nobody is in, and leaves it again. *)
Lemma join_then_leave_restores_witness :
  participants
    (srv (snd (leave_room (E := Sample.quiet) "s1"
                 (PDict [("room_id", PStr "0000000000000000000000AA")])
                 (snd (join_room (E := Sample.quiet) "s1"
                         (PDict [("room_id", PStr "0000000000000000000000AA")])
                         (start Sample.server))))))
    "0000000000000000000000AA"
  = participants Sample.server "0000000000000000000000AA".
Proof.
  refine (join_then_leave_restores (E := Sample.quiet) "s1"
            (PDict [("room_id", PStr "0000000000000000000000AA")]) (start Sample.server)
            "alice" "0000000000000000000000AA" 170 Sample.lobby _ _ _
            "0000000000000000000000AA").
  - intros n s. reflexivity.
  - split; [eexists; split; reflexivity|].
    split; [discriminate|]. split; [reflexivity|].
    split; [split; [reflexivity | discriminate]|].
    split; [reflexivity | repeat constructor].
  - apply (bool_decide_eq_false_1 _). vm_compute. reflexivity.
Defined.

(** The message that alice's send to the lobby stores. *)
Lemma send_message_stores_only_accepted_witness :
  exists u rid o room text,
    accepted (E := Sample.quiet) "s1" (Sample.send "hi") (start Sample.server)
      u rid o room text
    /\ 170%N = o
    /\ (("alice" = u /\ "hi" = text /\ 1000%Z = utcnow (Env := Sample.quiet) 0)
        \/ ("alice" = AI /\ mentions text /\ "hi" = reply_to (E := Sample.quiet) room text)).
Proof.
  refine (send_message_stores_only_accepted (E := Sample.quiet)
            "s1" (Sample.send "hi") (start Sample.server)
            {| m_id := 3; m_room_id := 170; m_sender_username := "alice";
               m_text := "hi"; m_created_at := 1000 |} _).
  vm_compute. apply list_elem_of_here.
Defined.

(** bob connects as [s2] and joins the lobby under the upper-case
    spelling of its id; alice sends to the lobby under the lower-case
    spelling: the message is stored, and bob's connection hears nothing. *)
Lemma broadcast_follows_room_id_spelling_witness :
  (exists m,
     m ∈ messages (db (srv (snd (send_message (E := Sample.quiet) "s1" (Sample.send "hi")
                                   (run (E := Sample.quiet)
                                      [Connect "s2" {["QUERY_STRING" := "username=bob"]};
                                       JoinRoom "s2"
                                         (PDict [("room_id",
                                                  PStr "0000000000000000000000AA")])]
                                      (start Sample.server))))))
     /\ m_room_id m = 170%N /\ m_sender_username m = "alice" /\ m_text m = "hi")
  /\ silent_for "s2"
       (effects_since
          (run (E := Sample.quiet)
             [Connect "s2" {["QUERY_STRING" := "username=bob"]};
              JoinRoom "s2" (PDict [("room_id", PStr "0000000000000000000000AA")])]
             (start Sample.server))
          (snd (send_message (E := Sample.quiet) "s1" (Sample.send "hi")
                  (run (E := Sample.quiet)
                     [Connect "s2" {["QUERY_STRING" := "username=bob"]};
                      JoinRoom "s2" (PDict [("room_id", PStr "0000000000000000000000AA")])]
                     (start Sample.server))))).
Proof.
  refine (broadcast_follows_room_id_spelling (E := Sample.quiet)
            "s1" (Sample.send "hi")
            (run (E := Sample.quiet)
               [Connect "s2" {["QUERY_STRING" := "username=bob"]};
                JoinRoom "s2" (PDict [("room_id", PStr "0000000000000000000000AA")])]
               (start Sample.server))
            "alice" Sample.room_hex 170 Sample.lobby "hi"
            "s2" "0000000000000000000000AA" _ _ _ _ _).
  - intros n s. reflexivity.
  - split.
    + eexists. split; [reflexivity|]. split; [reflexivity|]. split; [discriminate|].
      split; [reflexivity|]. split; [reflexivity|]. split; [discriminate|].
      split; [vm_compute; reflexivity | discriminate].
    + split; [vm_compute; reflexivity | repeat constructor].
  - reflexivity.
  - apply (bool_decide_eq_true_1 _). vm_compute. reflexivity.
  - apply (bool_decide_eq_false_1 _). vm_compute. reflexivity.
Defined.

(** bob connects with spaces around his name, alice disconnects: bob's
    session holds his name without the spaces. *)
Lemma sessions_stay_trimmed_witness :
  sid_to_username
    (srv (run (E := Sample.quiet)
            [Connect "s2" {["QUERY_STRING" := "username=+bob+"]}; Disconnect "s1"]
            (start Sample.server))) !! "s2" = Some "bob"
  /\ trimmed "bob".
Proof.
  split; [vm_compute; reflexivity|].
  refine (sessions_stay_trimmed (E := Sample.quiet)
            [Connect "s2" {["QUERY_STRING" := "username=+bob+"]}; Disconnect "s1"]
            (start Sample.server) _ _ "s2" "bob" _).
  - intros n s Hs. exact Hs.
  - intros sid u Hu. simpl in Hu.
    apply lookup_insert_Some in Hu as [[_ <-]|[_ Hu]];
      [split; [discriminate | reflexivity]|].
    apply lookup_singleton_Some in Hu as [_ <-]. split; [discriminate | reflexivity].
  - vm_compute. reflexivity.
Defined.

(** bob connects and is signed up, alice sends a message that mentions
    the assistant: the two users and the lobby are still there. *)
Lemma socket_events_only_append_witness :
  grown_from (db Sample.server)
    (db (srv (run (E := Sample.quiet)
                [Connect "s2" {["QUERY_STRING" := "username=bob"]};
                 SendMessage "s1" (Sample.send "hey @ai")]
                (start Sample.server)))).
Proof.
  refine (socket_events_only_append (E := Sample.quiet)
            [Connect "s2" {["QUERY_STRING" := "username=bob"]};
             SendMessage "s1" (Sample.send "hey @ai")]
            (start Sample.server) _).
  intros n s d Hd. exact Hd.
Defined.

(** * The HTTP routes *)

(** ** Signing up *)

Section SigningUp.
Context {E : Env}.

Lemma find_existsb username (l : list User) :
  List.find (has_username username) l = None ->
  existsb (has_username username) l = false.
Proof.
  induction l as [|u l IH]; simpl; [reflexivity|].
  destruct (has_username username u); [discriminate | exact IH].
Qed.

Lemma known_user_find s username :
  known_user s username <-> List.find (has_username username) (users (db s)) <> None.
Proof.
  split.
  - intros (user & Hin & Hu) Hf. apply list_elem_of_In in Hin.
    apply (find_none _ _ Hf) in Hin. unfold has_username in Hin.
    rewrite Hu, String.eqb_refl in Hin. discriminate.
  - destruct (find _ _) as [user|] eqn:Hf; [|congruence]. intros _.
    apply find_some in Hf as [Hin Hu]. exists user.
    split; [now apply list_elem_of_In | now apply String.eqb_eq].
Qed.

Lemma signed_up_frame username s :
  sid_to_username (signed_up username s) = sid_to_username s
  /\ sio_rooms (signed_up username s) = sio_rooms s
  /\ rooms (db (signed_up username s)) = rooms (db s)
  /\ messages (db (signed_up username s)) = messages (db s)
  /\ users (db s) `prefix_of` users (db (signed_up username s)).
Proof.
  unfold signed_up. destruct (find _ _); simpl; repeat split; try reflexivity.
  now apply prefix_app_r.
Qed.

Lemma signed_up_rooms username s : rooms (db (signed_up username s)) = rooms (db s).
Proof. apply signed_up_frame. Qed.

Lemma signed_up_messages username s :
  messages (db (signed_up username s)) = messages (db s).
Proof. apply signed_up_frame. Qed.

Lemma signed_up_known username s : known_user (signed_up username s) username.
Proof.
  unfold signed_up. destruct (find _ _) as [user|] eqn:Hf.
  - apply known_user_find. congruence.
  - exists {| u_id := new_oid (db s); u_username := username |}.
    split; [|reflexivity]. simpl. apply elem_of_app. right.
    now apply list_elem_of_singleton.
Qed.

Lemma signed_up_keeps username s v : known_user s v -> known_user (signed_up username s) v.
Proof.
  intros (user & Hin & Hu). exists user. split; [|exact Hu].
  destruct (signed_up_frame username s) as (_ & _ & _ & _ & [k ->]).
  apply elem_of_app. now left.
Qed.

(** Who is known after a sign-up: who was known before, and the one who
    signed up. *)
Lemma signed_up_known_iff username s v :
  known_user (signed_up username s) v <-> v = username \/ known_user s v.
Proof.
  split.
  - unfold signed_up. destruct (find _ _) as [user|] eqn:Hf; [now right|].
    intros (user & Hin & Hu). simpl in Hin. apply elem_of_app in Hin as [Hin|Hin].
    + right. now exists user.
    + apply list_elem_of_singleton in Hin. subst user. now left.
  - intros [->|Hv]; [apply signed_up_known | now apply signed_up_keeps].
Qed.

(** With no other task in between, [get_or_create_user] never raises: it
    returns a stored user of that name, and the state is the one after
    the sign-up. *)
Lemma get_or_create_user_undisturbed username t :
  undisturbed ->
  exists user t',
    get_or_create_user username t = (Ret user, t')
    /\ srv t' = signed_up username (srv t)
    /\ reads t' = reads t
    /\ u_username user = username.
Proof.
  intros Hq. unfold undisturbed in Hq.
  unfold get_or_create_user, await, find_one_user, insert_one_user, signed_up.
  unfold bind at 1. unfold bind at 1. unfold bind at 1. simpl.
  unfold bind at 1. simpl. rewrite Hq.
  destruct (find (has_username username) (users (db (srv t)))) as [u|] eqn:Hf.
  - eexists _, _. split; [reflexivity|]. simpl. repeat split.
    apply find_some in Hf as [_ Hu]. now apply String.eqb_eq in Hu.
  - repeat (unfold bind at 1; simpl; rewrite ?Hq).
    rewrite (find_existsb _ _ Hf).
    repeat (unfold bind at 1; simpl; rewrite ?Hq).
    eexists _, _. split; [reflexivity|]. simpl. now repeat split.
Qed.

End SigningUp.

(** ** [get_me] *)

(** X10. [get_me] refuses a blank [X-Username]: a header that is
    empty or all spaces is answered with 400 and the state is left as it
    is; any other header is never answered with 400: the
    route returns a user whose name is the header stripped, or the sign-up
    lost a race and [DuplicateKeyError] is raised. *)
Theorem get_me_rejects_blank {E : Env} (x_username : string) (t : Task) :
  (PyStr.all_space x_username = true ->
   Users.get_me x_username t = (Ret (HTTPException 400 "Username cannot be empty"), t))
  /\ (PyStr.all_space x_username = false ->
      (exists user, fst (Users.get_me x_username t) = Ret (Ok user)
                    /\ u_username user = PyStr.strip x_username
                    /\ trimmed (PyStr.strip x_username))
      \/ fst (Users.get_me x_username t) = Raise DuplicateKeyError).
Proof.
  unfold Users.get_me. split; intros Hx.
  - apply PyStrFacts.strip_empty in Hx. rewrite Hx. simpl.
    now rewrite orb_true_r.
  - pose proof (PyStrMore.strip_nonempty _ Hx) as Hne.
    rewrite (eqb_nonempty _ Hne), orb_false_r.
    assert (x_username <> EmptyString) as Hx' by (intros ->; discriminate).
    rewrite (eqb_nonempty _ Hx').
    destruct (get_or_create_user_outcome (PyStr.strip x_username) t)
      as [(user & Hret & Hu)|[Hraise _]].
    + left. exists user. unfold bind.
      destruct (get_or_create_user (PyStr.strip x_username) t) as [[user'|e] t1];
        simpl in *; [|discriminate].
      injection Hret as ->. split; [reflexivity|]. split; [exact Hu|].
      split; [exact Hne | apply PyStrMore.strip_idempotent].
    + right. unfold bind. now rewrite Hraise.
Qed.

(** ** Lists of documents *)

Section Documents.
Context {A : Type} (p : A -> bool).

Lemma update_first_none f (l : list A) : List.find p l = None -> update_first p f l = l.
Proof.
  induction l as [|x l IH]; simpl; [reflexivity|].
  destruct (p x); [discriminate|]. intros Hf. now rewrite IH.
Qed.

Lemma find_update_first f (l : list A) x :
  List.find p l = Some x -> p (f x) = true ->
  List.find p (update_first p f l) = Some (f x).
Proof.
  intros Hf Hp. induction l as [|y l IH]; simpl in *; [discriminate|].
  destruct (p y) eqn:Hy; simpl.
  - injection Hf as ->. now rewrite Hp.
  - rewrite Hy. now apply IH.
Qed.

(** What an update leaves in the list: the old elements, but for the
    first that satisfies [p], which is replaced by its image. *)
Lemma update_first_split f (l : list A) x :
  List.find p l = Some x ->
  exists l1 l2, l = l1 ++ x :: l2 /\ update_first p f l = l1 ++ f x :: l2
                /\ List.find p l1 = None.
Proof.
  induction l as [|y l IH]; simpl; [discriminate|].
  destruct (p y) eqn:Hy.
  - intros [= ->]. now exists [], l.
  - intros Hf. destruct (IH Hf) as (l1 & l2 & -> & -> & Hn).
    exists (y :: l1), l2. simpl. now rewrite Hy.
Qed.

Lemma delete_first_split (l : list A) x :
  List.find p l = Some x ->
  exists l1 l2, l = l1 ++ x :: l2 /\ delete_first p l = l1 ++ l2
                /\ List.find p l1 = None.
Proof.
  induction l as [|y l IH]; simpl; [discriminate|].
  destruct (p y) eqn:Hy.
  - intros [= ->]. now exists [], l.
  - intros Hf. destruct (IH Hf) as (l1 & l2 & -> & -> & Hn).
    exists (y :: l1), l2. simpl. now rewrite Hy.
Qed.

End Documents.

(** ** The first steps of a route on a room *)

Section Prelude.
Context {E : Env}.
Hypothesis quiet : undisturbed.

(** Every route on a room signs the requester up and fetches the room;
    with no other task in between, the room is the one the store had when
    the route began. *)
Lemma fetch_room username o t :
  exists t2,
    srv t2 = signed_up username (srv t)
    /\ reads t2 = reads t
    /\ forall B (k : option Room -> M B),
         (get_or_create_user username ;;; room <- await (find_one_room o) ;; k room) t
         = k (List.find (has_id o) (rooms (db (srv t)))) t2.
Proof.
  destruct (get_or_create_user_undisturbed username t quiet) as (user & t1 & Hg & Hs & Hr & _).
  exists {| srv := srv t1; log := log t1 ++ [FindRoom o]; awaits := S (awaits t1);
            reads := reads t1 |}.
  split; [exact Hs|]. split; [exact Hr|]. intros B k.
  unfold bind at 1. rewrite Hg. unfold await, find_one_room.
  repeat (unfold bind at 1; simpl). rewrite quiet, Hs, signed_up_rooms. reflexivity.
Qed.

End Prelude.

(** ** The routes on a room, with no other task in between *)

Section RoomRoutes.
Context {E : Env}.
Hypothesis quiet : undisturbed.

Lemma get_room_quiet room_id x_username t o :
  ObjectId room_id = Some o ->
  exists t',
    Rooms.get_room room_id x_username t
    = (Ret match List.find (has_id o) (rooms (db (srv t))) with
           | None => HTTPException 404 "Room not found"
           | Some room =>
               if bool_decide (PyStr.strip x_username ∈ r_participant_usernames room)
               then Ok room else HTTPException 403 "Not a participant of this room"
           end, t')
    /\ srv t' = signed_up (PyStr.strip x_username) (srv t).
Proof.
  intros Ho. unfold Rooms.get_room, Rooms.validate_object_id, checked. rewrite Ho.
  destruct (fetch_room quiet (PyStr.strip x_username) o t) as (t2 & Hs & _ & Hk).
  rewrite Hk. destruct (find _ _) as [room|]; [|now exists t2].
  destruct (bool_decide _); now exists t2.
Qed.

(** [add_participant], case by case. *)
Lemma add_participant_quiet room_id participant_username x_username t o :
  ObjectId room_id = Some o ->
  let username := PyStr.strip x_username in
  let p := PyStr.strip participant_username in
  let s1 := signed_up username (srv t) in
  let r := Rooms.add_participant room_id participant_username x_username t in
  match List.find (has_id o) (rooms (db (srv t))) with
  | None => fst r = Ret (HTTPException 404 "Room not found") /\ srv (snd r) = s1
  | Some room =>
      if String.eqb (r_owner_username room) username then
        match List.find (has_username p) (users (db s1)) with
        | None =>
            fst r = Ret (HTTPException 400 ("User '" +:+ p +:+ "' does not exist"))
            /\ srv (snd r) = s1
        | Some _ =>
            if bool_decide (p ∈ r_participant_usernames room)
            then fst r = Ret (Ok room) /\ srv (snd r) = s1
            else fst r = Ret (Ok (push_participant p room))
                 /\ srv (snd r)
                    = with_db s1 (set_rooms (db s1)
                                    (update_first (has_id o) (push_participant p)
                                       (rooms (db s1))))
        end
      else fst r = Ret (HTTPException 403 "Only owner can add participants")
           /\ srv (snd r) = s1
  end.
Proof.
  intros Ho username p s1 r. subst r.
  pose proof quiet as Hq. unfold undisturbed in Hq.
  unfold Rooms.add_participant, Rooms.validate_object_id, checked. rewrite Ho.
  destruct (fetch_room quiet username o t) as (t2 & Hs & _ & Hk).
  fold username. rewrite Hk. fold p. fold s1 in Hs.
  destruct (find (has_id o) _) as [room|] eqn:Hroom; [|now split].
  destruct (String.eqb (r_owner_username room) username); simpl; [|now split].
  unfold await, find_one_user, update_one_room, find_one_room, room_to_response, http_error.
  repeat (unfold bind at 1; simpl; rewrite ?Hq). rewrite Hs.
  destruct (find (has_username p) _); [|now split].
  destruct (bool_decide _); simpl; [now split|]. rewrite ?Hq. simpl.
  assert (find (has_id o) (rooms (db s1)) = Some room) as Hroom1.
  { subst s1. now rewrite signed_up_rooms. }
  rewrite (find_update_first _ _ _ _ Hroom1).
  - now split.
  - apply find_some in Hroom1 as [_ Hid]. exact Hid.
Qed.

(** [remove_participant], case by case. *)
Lemma remove_participant_quiet room_id participant_username x_username t o :
  ObjectId room_id = Some o ->
  let username := PyStr.strip x_username in
  let p := PyStr.strip participant_username in
  let s1 := signed_up username (srv t) in
  let r := Rooms.remove_participant room_id participant_username x_username t in
  match List.find (has_id o) (rooms (db (srv t))) with
  | None => fst r = Ret (HTTPException 404 "Room not found") /\ srv (snd r) = s1
  | Some room =>
      if String.eqb (r_owner_username room) username then
        if String.eqb p (r_owner_username room)
        then fst r = Ret (HTTPException 400 "Cannot remove owner from room")
             /\ srv (snd r) = s1
        else if bool_decide (p ∈ r_participant_usernames room)
        then fst r = Ret (Ok (pull_participant p room))
             /\ srv (snd r)
                = with_db s1 (set_rooms (db s1)
                                (update_first (has_id o) (pull_participant p)
                                   (rooms (db s1))))
        else fst r = Ret (Ok room) /\ srv (snd r) = s1
      else fst r = Ret (HTTPException 403 "Only owner can remove participants")
           /\ srv (snd r) = s1
  end.
Proof.
  intros Ho username p s1 r. subst r.
  pose proof quiet as Hq. unfold undisturbed in Hq.
  unfold Rooms.remove_participant, Rooms.validate_object_id, checked. rewrite Ho.
  destruct (fetch_room quiet username o t) as (t2 & Hs & _ & Hk).
  fold username. rewrite Hk. fold p. fold s1 in Hs.
  destruct (find (has_id o) _) as [room|] eqn:Hroom; [|now split].
  destruct (String.eqb (r_owner_username room) username); simpl; [|now split].
  destruct (String.eqb p (r_owner_username room)); [now split|].
  destruct (bool_decide _); simpl; [|now split].
  unfold await, update_one_room, find_one_room, room_to_response.
  repeat (unfold bind at 1; simpl; rewrite ?Hq). rewrite Hs.
  assert (find (has_id o) (rooms (db s1)) = Some room) as Hroom1.
  { subst s1. now rewrite signed_up_rooms. }
  rewrite (find_update_first _ _ _ _ Hroom1).
  - now split.
  - apply find_some in Hroom1 as [_ Hid]. exact Hid.
Qed.

(** [delete_room], case by case. *)
Lemma delete_room_quiet room_id x_username t o :
  ObjectId room_id = Some o ->
  let username := PyStr.strip x_username in
  let s1 := signed_up username (srv t) in
  let r := Rooms.delete_room room_id x_username t in
  match List.find (has_id o) (rooms (db (srv t))) with
  | None => fst r = Ret (HTTPException 404 "Room not found") /\ srv (snd r) = s1
  | Some room =>
      if String.eqb (r_owner_username room) username
      then fst r = Ret (Ok "Room deleted successfully")
           /\ srv (snd r)
              = with_db s1
                  {| users := users (db s1);
                     rooms := delete_first (has_id o) (rooms (db s1));
                     messages := List.filter (fun m => negb (in_room o m))
                                   (messages (db s1)) |}
      else fst r = Ret (HTTPException 403 "Only owner can delete room")
           /\ srv (snd r) = s1
  end.
Proof.
  intros Ho username s1 r. subst r.
  pose proof quiet as Hq. unfold undisturbed in Hq.
  unfold Rooms.delete_room, Rooms.validate_object_id, checked. rewrite Ho.
  destruct (fetch_room quiet username o t) as (t2 & Hs & _ & Hk).
  fold username. rewrite Hk. fold s1 in Hs.
  destruct (find (has_id o) _) as [room|] eqn:Hroom; [|now split].
  destruct (String.eqb (r_owner_username room) username); simpl; [|now split].
  unfold await, delete_many_messages, delete_one_room.
  repeat (unfold bind at 1; simpl; rewrite ?Hq). rewrite ?Hq. simpl.
  rewrite Hs. now split.
Qed.

End RoomRoutes.

(** ** Loops over usernames *)

Section Loops.
Context {E : Env}.
Hypothesis quiet : undisturbed.

Lemma signed_up_all_frame (l : list string) s :
  sid_to_username (fold_left (fun s p => signed_up p s) l s) = sid_to_username s
  /\ sio_rooms (fold_left (fun s p => signed_up p s) l s) = sio_rooms s
  /\ rooms (db (fold_left (fun s p => signed_up p s) l s)) = rooms (db s)
  /\ messages (db (fold_left (fun s p => signed_up p s) l s)) = messages (db s).
Proof.
  revert s. induction l as [|p l IH]; intros s; simpl; [now repeat split|].
  destruct (IH (signed_up p s)) as (-> & -> & -> & ->).
  destruct (signed_up_frame p s) as (-> & -> & -> & -> & _). now repeat split.
Qed.

Lemma signed_up_all_known (l : list string) s v :
  known_user (fold_left (fun s p => signed_up p s) l s) v <-> v ∈ l \/ known_user s v.
Proof.
  revert s. induction l as [|p l IH]; intros s; simpl.
  - split; [now right | intros [Hv|Hv]; [now apply elem_of_nil in Hv | exact Hv]].
  - rewrite IH, signed_up_known_iff, elem_of_cons. tauto.
Qed.

(** The loop of [update_room] signs every participant up, one after the
    other. *)
Lemma create_each_quiet (participants : list string) t :
  exists t',
    Rooms.create_each participants t = (Ret tt, t')
    /\ srv t' = fold_left (fun s p => signed_up p s) participants (srv t)
    /\ reads t' = reads t.
Proof.
  revert t. induction participants as [|p l IH]; intros t; simpl.
  - now exists t.
  - destruct (get_or_create_user_undisturbed p t quiet) as (user & t1 & Hg & Hs & Hr & _).
    destruct (IH t1) as (t' & Hrun & Hs' & Hr').
    exists t'. unfold bind. rewrite Hg, Hrun, Hs', Hs, Hr', Hr. now repeat split.
Qed.

(** The loop of [create_room] only reads: it ends with the participants
    it was given followed by the requested names, stripped, that are not
    blank, not the owner's and not yet in the list; or it stops at a
    requested name that no user has. *)
Lemma add_requested_quiet username (requested acc : list string) t :
  exists t',
    srv t' = srv t /\ reads t' = reads t
    /\ ((exists l,
           Rooms.add_requested username requested acc t = (Ret (Ok l), t')
           /\ acc `prefix_of` l
           /\ (NoDup acc -> NoDup l)
           /\ (forall p, p ∈ l <->
                 p ∈ acc \/ (p <> EmptyString /\ p <> username
                             /\ exists q, q ∈ requested /\ PyStr.strip q = p))
           /\ (forall p, p ∈ l -> p ∈ acc \/ known_user (srv t) p))
        \/ (exists q,
              q ∈ requested /\ PyStr.strip q <> EmptyString /\ PyStr.strip q <> username
              /\ ~ known_user (srv t) (PyStr.strip q)
              /\ Rooms.add_requested username requested acc t
                 = (Ret (HTTPException 400
                           ("User '" +:+ PyStr.strip q +:+ "' does not exist")), t'))).
Proof.
  pose proof quiet as Hq. unfold undisturbed in Hq.
  revert acc t. induction requested as [|q rest IH]; intros acc t.
  - exists t. split; [reflexivity|]. split; [reflexivity|]. left. exists acc.
    split; [reflexivity|]. split; [reflexivity|]. split; [tauto|].
    split; [|now left]. intros p. split; [now left|].
    intros [Hp|(_ & _ & q & Hq' & _)]; [exact Hp | now apply elem_of_nil in Hq'].
  - cbn [Rooms.add_requested].
    destruct (String.eqb (PyStr.strip q) EmptyString) eqn:Hblank; simpl.
    { apply String.eqb_eq in Hblank.
      destruct (IH acc t) as (t' & Hs & Hr & [(l & Hrun & Hpre & Hnd & Hin & Hk)|Hstop]).
      - exists t'. split; [exact Hs|]. split; [exact Hr|]. left. exists l.
        split; [exact Hrun|]. split; [exact Hpre|]. split; [exact Hnd|].
        split; [|exact Hk]. intros p. rewrite Hin. split.
        + intros [Hp|(Hne & Hnu & q' & Hq' & Hst)]; [now left|]. right.
          split; [exact Hne|]. split; [exact Hnu|]. exists q'.
          split; [now apply list_elem_of_further | exact Hst].
        + intros [Hp|(Hne & Hnu & q' & Hq' & Hst)]; [now left|]. right.
          split; [exact Hne|]. split; [exact Hnu|].
          apply elem_of_cons in Hq' as [->|Hq']; [congruence|]. now exists q'.
      - exists t'. split; [exact Hs|]. split; [exact Hr|]. right.
        destruct Hstop as (q' & Hq' & Hne & Hnu & Hun & Hrun). exists q'.
        split; [now apply list_elem_of_further|]. now repeat split. }
    apply String.eqb_neq in Hblank.
    destruct (String.eqb (PyStr.strip q) username) eqn:Hown; simpl.
    { apply String.eqb_eq in Hown.
      destruct (IH acc t) as (t' & Hs & Hr & [(l & Hrun & Hpre & Hnd & Hin & Hk)|Hstop]).
      - exists t'. split; [exact Hs|]. split; [exact Hr|]. left. exists l.
        split; [exact Hrun|]. split; [exact Hpre|]. split; [exact Hnd|].
        split; [|exact Hk]. intros p. rewrite Hin. split.
        + intros [Hp|(Hne & Hnu & q' & Hq' & Hst)]; [now left|]. right.
          split; [exact Hne|]. split; [exact Hnu|]. exists q'.
          split; [now apply list_elem_of_further | exact Hst].
        + intros [Hp|(Hne & Hnu & q' & Hq' & Hst)]; [now left|]. right.
          split; [exact Hne|]. split; [exact Hnu|].
          apply elem_of_cons in Hq' as [->|Hq']; [congruence|]. now exists q'.
      - exists t'. split; [exact Hs|]. split; [exact Hr|]. right.
        destruct Hstop as (q' & Hq' & Hne & Hnu & Hun & Hrun). exists q'.
        split; [now apply list_elem_of_further|]. now repeat split. }
    apply String.eqb_neq in Hown.
    unfold await, find_one_user, http_error.
    repeat (unfold bind at 1; simpl; rewrite ?Hq). rewrite ?Hq. simpl.
    destruct (find (has_username (PyStr.strip q)) (users (db (srv t)))) as [user|] eqn:Hf.
    + assert (known_user (srv t) (PyStr.strip q)) as Hknown.
      { apply known_user_find. congruence. }
      match goal with
      | |- context [Rooms.add_requested username rest ?acc' ?t1] =>
          destruct (IH acc' t1)
            as (t' & Hs & Hr & [(l & Hrun & Hpre & Hnd & Hin & Hk)|Hstop])
      end; simpl in Hs, Hr.
      * exists t'. split; [exact Hs|]. split; [exact Hr|]. left. exists l.
        split; [exact Hrun|].
        destruct (bool_decide (PyStr.strip q ∈ acc)) eqn:Hdec.
        -- apply bool_decide_eq_true_1 in Hdec.
           split; [exact Hpre|]. split; [exact Hnd|]. split.
           ++ intros p. rewrite Hin. split.
              ** intros [Hp|(Hne & Hnu & q' & Hq' & Hst)]; [now left|]. right.
                 split; [exact Hne|]. split; [exact Hnu|]. exists q'.
                 split; [now apply list_elem_of_further | exact Hst].
              ** intros [Hp|(Hne & Hnu & q' & Hq' & Hst)]; [now left|].
                 apply elem_of_cons in Hq' as [->|Hq']; [left; now rewrite <- Hst|].
                 right. split; [exact Hne|]. split; [exact Hnu|]. now exists q'.
           ++ intros p Hp. destruct (Hk p Hp) as [Hacc|Hkn]; [now left | now right].
        -- apply bool_decide_eq_false_1 in Hdec.
           split; [etransitivity; [|exact Hpre]; now apply prefix_app_r|].
           split.
           { intros Hacc. apply Hnd. apply NoDup_app. split; [exact Hacc|].
             split; [|apply NoDup_singleton].
             intros x Hx Hx'. apply list_elem_of_singleton in Hx'. now subst x. }
           split.
           ++ intros p. rewrite Hin, elem_of_app, list_elem_of_singleton. split.
              ** intros [[Hp| ->]|(Hne & Hnu & q' & Hq' & Hst)].
                 --- now left.
                 --- right. split; [exact Hblank|]. split; [exact Hown|]. exists q.
                     split; [apply list_elem_of_here | reflexivity].
                 --- right. split; [exact Hne|]. split; [exact Hnu|]. exists q'.
                     split; [now apply list_elem_of_further | exact Hst].
              ** intros [Hp|(Hne & Hnu & q' & Hq' & Hst)]; [left; now left|].
                 apply elem_of_cons in Hq' as [->|Hq']; [left; right; now symmetry|].
                 right. split; [exact Hne|]. split; [exact Hnu|]. now exists q'.
           ++ intros p Hp. destruct (Hk p Hp) as [Hacc|Hkn]; [|now right].
              apply elem_of_app in Hacc as [Hacc|Hacc]; [now left|].
              apply list_elem_of_singleton in Hacc. subst p. now right.
      * exists t'. split; [exact Hs|]. split; [exact Hr|]. right.
        destruct Hstop as (q' & Hq' & Hne & Hnu & Hun & Hrun). exists q'.
        split; [now apply list_elem_of_further|]. now repeat split.
    + eexists. split; [|split]; [| |right; exists q].
      3: { split; [apply list_elem_of_here|]. split; [exact Hblank|].
           split; [exact Hown|]. split; [|reflexivity].
           intros Hknown. apply known_user_find in Hknown. congruence. }
      * reflexivity.
      * reflexivity.
Qed.

End Loops.

(** ** [create_room] *)

(** X11. With no other task in between, [create_room] ends in one of two
    ways. Either it stores one new room and returns it: the room is owned
    by the requester (the header stripped), the owner is the first of its
    participants, no participant occurs twice, the participants are the
    owner and the requested names, stripped, that are not blank, and
    every participant is a stored user. Or some requested name, stripped,
    is not blank, not the requester's and not the name of a stored user:
    the answer is 400 with that name, and no room is stored. *)
Theorem create_room_outcome {E : Env} (room_data : RoomCreate) (x_username : string)
    (t : Task) :
  undisturbed ->
  let username := PyStr.strip x_username in
  let r := Rooms.create_room room_data x_username t in
  (exists room,
     fst r = Ret (Ok room)
     /\ rooms (db (srv (snd r))) = rooms (db (srv t)) ++ [room]
     /\ messages (db (srv (snd r))) = messages (db (srv t))
     /\ r_name room = rc_name room_data
     /\ r_owner_username room = username
     /\ r_created_at room = utcnow (reads t)
     /\ (exists rest, r_participant_usernames room = username :: rest)
     /\ NoDup (r_participant_usernames room)
     /\ (forall p, p ∈ r_participant_usernames room <->
           p = username
           \/ (p <> EmptyString
               /\ exists q, q ∈ rc_participant_usernames room_data /\ PyStr.strip q = p))
     /\ (forall p, p ∈ r_participant_usernames room -> known_user (srv (snd r)) p))
  \/ (exists q,
        q ∈ rc_participant_usernames room_data
        /\ PyStr.strip q <> EmptyString /\ PyStr.strip q <> username
        /\ ~ known_user (srv t) (PyStr.strip q)
        /\ fst r = Ret (HTTPException 400
                          ("User '" +:+ PyStr.strip q +:+ "' does not exist"))
        /\ rooms (db (srv (snd r))) = rooms (db (srv t))
        /\ messages (db (srv (snd r))) = messages (db (srv t))).
Proof.
  intros quiet username r. subst r.
  pose proof quiet as Hq. unfold undisturbed in Hq.
  destruct (Rooms.create_room room_data x_username t) as [res t'] eqn:Hrun. simpl.
  unfold Rooms.create_room in Hrun. fold username in Hrun.
  destruct (get_or_create_user_undisturbed username t quiet) as (user & t1 & Hg & Hs1 & Hr1 & _).
  unfold bind at 1 in Hrun. rewrite Hg in Hrun.
  destruct (add_requested_quiet quiet username (rc_participant_usernames room_data)
              [username] t1)
    as (t2 & Hs2 & Hr2 & [(l & Hadd & Hpre & Hnd & Hin & Hk)|(q & Hq' & Hne & Hnu & Hun & Hadd)]).
  - left. unfold bind at 1 in Hrun. rewrite Hadd in Hrun.
    unfold checked, await, insert_one_room, now, room_to_response in Hrun.
    repeat (unfold bind at 1 in Hrun; simpl in Hrun; rewrite ?Hq in Hrun).
    rewrite ?Hq in Hrun. simpl in Hrun. injection Hrun as <- <-.
    eexists. split; [reflexivity|]. simpl.
    rewrite Hs2, Hs1, signed_up_rooms, signed_up_messages, Hr2, Hr1.
    do 5 (split; [reflexivity|]).
    split; [destruct Hpre as [k ->]; now exists k|].
    split; [apply Hnd, NoDup_singleton|].
    split.
    + intros p. rewrite Hin, list_elem_of_singleton. split.
      * intros [->|(Hp & _ & Hreq)]; [now left | right; now split].
      * intros [->|[Hp Hreq]]; [now left|].
        destruct (decide (p = username)) as [->|Hpu]; [now left|].
        right. now repeat split.
    + intros p Hp.
      assert (known_user (signed_up username (srv t)) p) as Hknown.
      { destruct (Hk p Hp) as [Hp'|Hp'].
        - apply list_elem_of_singleton in Hp'. subst p. apply signed_up_known.
        - now rewrite <- Hs1. }
      destruct Hknown as (user' & Huser & Hname). exists user'. now split.
  - right. exists q. unfold bind at 1 in Hrun. rewrite Hadd in Hrun. simpl in Hrun.
    injection Hrun as <- <-.
    rewrite Hs2, Hs1, signed_up_rooms, signed_up_messages.
    split; [exact Hq'|]. split; [exact Hne|]. split; [exact Hnu|].
    split; [|now repeat split].
    intros Hknown. apply Hun. rewrite Hs1. now apply signed_up_keeps.
Qed.

(** ** [update_room] *)

Section Updating.
Context {E : Env} {O : Orders}.
Hypothesis quiet : undisturbed.

(** [update_room], case by case. *)
Lemma update_room_quiet room_id room_update x_username t o :
  ObjectId room_id = Some o ->
  let username := PyStr.strip x_username in
  let s1 := signed_up username (srv t) in
  let r := Rooms.update_room room_id room_update x_username t in
  match List.find (has_id o) (rooms (db (srv t))) with
  | None => fst r = Ret (HTTPException 404 "Room not found") /\ srv (snd r) = s1
  | Some room =>
      if String.eqb (r_owner_username room) username then
        match ru_participant_usernames room_update with
        | None =>
            match ru_name room_update with
            | None => fst r = Ret (Ok room) /\ srv (snd r) = s1
            | Some name =>
                fst r = Ret (Ok (set_fields (Some name) None room))
                /\ srv (snd r)
                   = with_db s1 (set_rooms (db s1)
                                   (update_first (has_id o) (set_fields (Some name) None)
                                      (rooms (db s1))))
            end
        | Some requested =>
            let participants :=
              if bool_decide (username ∈ list_of_set requested) then list_of_set requested
              else list_of_set requested ++ [username] in
            let s2 := fold_left (fun s p => signed_up p s) participants s1 in
            fst r = Ret (Ok (set_fields (ru_name room_update) (Some participants) room))
            /\ srv (snd r)
               = with_db s2 (set_rooms (db s2)
                               (update_first (has_id o)
                                  (set_fields (ru_name room_update) (Some participants))
                                  (rooms (db s2))))
        end
      else fst r = Ret (HTTPException 403 "Only owner can update room")
           /\ srv (snd r) = s1
  end.
Proof.
  intros Ho username s1 r. subst r.
  pose proof quiet as Hq. unfold undisturbed in Hq.
  destruct (Rooms.update_room room_id room_update x_username t) as [res t'] eqn:Hrun.
  simpl.
  unfold Rooms.update_room, Rooms.validate_object_id, checked in Hrun.
  rewrite Ho in Hrun.
  destruct (fetch_room quiet username o t) as (t2 & Hs & _ & Hk).
  fold username in Hrun. rewrite Hk in Hrun. fold s1 in Hs.
  destruct (find (has_id o) _) as [room|] eqn:Hroom;
    [|injection Hrun as <- <-; now split].
  destruct (String.eqb (r_owner_username room) username); simpl in Hrun;
    [|injection Hrun as <- <-; now split].
  assert (find (has_id o) (rooms (db s1)) = Some room) as Hroom1.
  { subst s1. now rewrite signed_up_rooms. }
  assert (has_id o room = true) as Hid by (now apply find_some in Hroom1).
  destruct (ru_participant_usernames room_update) as [requested|].
  - cbv zeta.
    set (participants := if bool_decide (username ∈ list_of_set requested)
                         then list_of_set requested
                         else list_of_set requested ++ [username]) in *.
    destruct (create_each_quiet quiet participants t2) as (t3 & Hloop & Hs3 & _).
    unfold bind at 1 in Hrun. unfold bind at 1 in Hrun. rewrite Hloop in Hrun.
    simpl in Hrun. rewrite Hs in Hs3.
    set (s2 := fold_left (fun s p => signed_up p s) participants s1) in *.
    assert (find (has_id o) (rooms (db s2)) = Some room) as Hroom2.
    { subst s2. destruct (signed_up_all_frame participants s1) as (_ & _ & -> & _).
      exact Hroom1. }
    unfold await, update_one_room, find_one_room, room_to_response in Hrun.
    destruct (ru_name room_update) as [name|];
      repeat (unfold bind at 1 in Hrun; simpl in Hrun; rewrite ?Hq in Hrun);
      rewrite ?Hq in Hrun; simpl in Hrun; rewrite Hs3 in Hrun;
      rewrite (find_update_first (has_id o) _ _ _ Hroom2) in Hrun by exact Hid;
      injection Hrun as <- <-; now split.
  - unfold bind at 1 in Hrun. simpl in Hrun.
    unfold await, update_one_room, find_one_room, room_to_response in Hrun.
    destruct (ru_name room_update) as [name|].
    + repeat (unfold bind at 1 in Hrun; simpl in Hrun; rewrite ?Hq in Hrun).
      rewrite ?Hq in Hrun. simpl in Hrun. rewrite Hs in Hrun.
      rewrite (find_update_first (has_id o) _ _ _ Hroom1) in Hrun by exact Hid.
      injection Hrun as <- <-. now split.
    + injection Hrun as <- <-. now split.
Qed.

End Updating.

(** ** The routes on messages and the listings *)

Section Reading.
Context {E : Env} {O : Orders}.
Hypothesis quiet : undisturbed.

Lemma get_messages_quiet room_id limit x_username t o :
  ObjectId room_id = Some o ->
  exists t',
    Messages.get_messages room_id limit x_username t
    = (Ret match List.find (has_id o) (rooms (db (srv t))) with
           | None => HTTPException 404 "Room not found"
           | Some room =>
               if bool_decide (PyStr.strip x_username ∈ r_participant_usernames room)
               then Ok (take limit
                          (sort_created_at
                             (List.filter (in_room o) (messages (db (srv t))))))
               else HTTPException 403 "Not a participant of this room"
           end, t')
    /\ srv t' = signed_up (PyStr.strip x_username) (srv t).
Proof.
  intros Ho. pose proof quiet as Hq. unfold undisturbed in Hq.
  unfold Messages.get_messages, Messages.validate_object_id, checked. rewrite Ho.
  destruct (fetch_room quiet (PyStr.strip x_username) o t) as (t2 & Hs & _ & Hk).
  rewrite Hk. destruct (find _ _) as [room|]; [|now exists t2].
  destruct (bool_decide _); simpl; [|now exists t2].
  unfold await, find_messages.
  repeat (unfold bind at 1; simpl; rewrite ?Hq). rewrite ?Hq. simpl.
  rewrite Hs, signed_up_messages. eexists. split; reflexivity.
Qed.

(** [delete_message], case by case. *)
Lemma delete_message_quiet room_id message_id x_username t o id :
  ObjectId room_id = Some o ->
  ObjectId message_id = Some id ->
  let username := PyStr.strip x_username in
  let s1 := signed_up username (srv t) in
  let r := Messages.delete_message room_id message_id x_username t in
  match List.find (has_id o) (rooms (db (srv t))) with
  | None => fst r = Ret (HTTPException 404 "Room not found") /\ srv (snd r) = s1
  | Some room =>
      match List.find (is_message id o) (messages (db (srv t))) with
      | None => fst r = Ret (HTTPException 404 "Message not found") /\ srv (snd r) = s1
      | Some message =>
          if String.eqb (m_sender_username message) username
             || String.eqb (r_owner_username room) username
          then fst r = Ret (Ok "Message deleted successfully")
               /\ srv (snd r)
                  = with_db s1 (set_messages (db s1)
                                  (delete_first (fun m => N.eqb (m_id m) id)
                                     (messages (db s1))))
          else fst r = Ret (HTTPException 403 "Only message sender or room owner can delete")
               /\ srv (snd r) = s1
      end
  end.
Proof.
  intros Ho Hid username s1 r. subst r.
  pose proof quiet as Hq. unfold undisturbed in Hq.
  destruct (Messages.delete_message room_id message_id x_username t) as [res t'] eqn:Hrun.
  simpl.
  unfold Messages.delete_message, Messages.validate_object_id, checked in Hrun.
  rewrite Ho, Hid in Hrun.
  destruct (fetch_room quiet username o t) as (t2 & Hs & _ & Hk).
  fold username in Hrun. rewrite Hk in Hrun. fold s1 in Hs.
  destruct (find (has_id o) _) as [room|] eqn:Hroom;
    [|injection Hrun as <- <-; now split].
  unfold await, find_one_message, delete_one_message, http_error in Hrun.
  unfold bind at 1 in Hrun. unfold bind at 1 in Hrun. unfold bind at 1 in Hrun.
  simpl in Hrun. rewrite Hs in Hrun. unfold s1 in Hrun at 1.
  rewrite signed_up_messages in Hrun.
  destruct (find (is_message id o) _) as [message|] eqn:Hmsg.
  - repeat (unfold bind at 1 in Hrun; simpl in Hrun; rewrite ?Hq in Hrun).
    rewrite ?Hq in Hrun. simpl in Hrun.
    destruct (String.eqb (m_sender_username message) username);
      destruct (String.eqb (r_owner_username room) username); simpl in Hrun;
      repeat (unfold bind at 1 in Hrun; simpl in Hrun; rewrite ?Hq in Hrun);
      rewrite ?Hq in Hrun; simpl in Hrun; rewrite ?Hs in Hrun;
      injection Hrun as <- <-; now split.
  - repeat (unfold bind at 1 in Hrun; simpl in Hrun; rewrite ?Hq in Hrun).
    rewrite ?Hq in Hrun. simpl in Hrun. injection Hrun as <- <-. now split.
Qed.

Lemma get_my_rooms_quiet x_username t :
  exists t',
    Rooms.get_my_rooms x_username t
    = (Ret (Ok (take 100 (List.filter (has_participant (PyStr.strip x_username))
                            (rooms (db (srv t)))))), t')
    /\ srv t' = signed_up (PyStr.strip x_username) (srv t).
Proof.
  pose proof quiet as Hq. unfold undisturbed in Hq.
  destruct (get_or_create_user_undisturbed (PyStr.strip x_username) t quiet)
    as (user & t1 & Hg & Hs & _).
  unfold Rooms.get_my_rooms. unfold bind at 1. rewrite Hg.
  unfold await, find_rooms_of.
  repeat (unfold bind at 1; simpl; rewrite ?Hq). rewrite ?Hq. simpl.
  rewrite Hs, signed_up_rooms. eexists. split; reflexivity.
Qed.

Lemma get_users_quiet t :
  exists t',
    Users.get_users t = (Ret (Ok (take 1000 (users (db (srv t))))), t')
    /\ srv t' = srv t.
Proof.
  pose proof quiet as Hq. unfold undisturbed in Hq.
  unfold Users.get_users, await, find_users.
  repeat (unfold bind at 1; simpl; rewrite ?Hq). rewrite ?Hq. simpl.
  eexists. split; reflexivity.
Qed.

Lemma get_me_quiet x_username t :
  exists t',
    snd (Users.get_me x_username t) = t'
    /\ (srv t' = srv t \/ srv t' = signed_up (PyStr.strip x_username) (srv t)).
Proof.
  unfold Users.get_me. destruct (_ || _).
  - exists t. split; [reflexivity | now left].
  - destruct (get_or_create_user_undisturbed (PyStr.strip x_username) t quiet)
      as (user & t1 & Hg & Hs & _).
    exists t1. unfold bind. rewrite Hg. split; [reflexivity | now right].
Qed.

End Reading.

(** X12. With no other task in between, when the owner of a room sends a
    list of participants to [update_room], the route never refuses a name:
    the stored room gets the requested names as they were sent, each once,
    and the owner, who is added when the list leaves them out; every one
    of them is a stored user afterwards, created by the route where there
    was none. The id, the owner and the creation time of the room stay,
    the name changes only when one is sent, and no message is touched. *)
Theorem update_room_participants {E : Env} {O : Orders}
    (room_id : string) (room_update : RoomUpdate) (x_username : string) (t : Task)
    (o : oid) (room : Room) (requested : list string) :
  undisturbed ->
  lists_each_once ->
  owns (srv t) room_id (PyStr.strip x_username) o room ->
  ru_participant_usernames room_update = Some requested ->
  let r := Rooms.update_room room_id room_update x_username t in
  exists room',
    fst r = Ret (Ok room')
    /\ List.find (has_id o) (rooms (db (srv (snd r)))) = Some room'
    /\ r_id room' = r_id room
    /\ r_owner_username room' = r_owner_username room
    /\ r_created_at room' = r_created_at room
    /\ r_name room' = default (r_name room) (ru_name room_update)
    /\ NoDup (r_participant_usernames room')
    /\ (forall p, p ∈ r_participant_usernames room' <->
          p = PyStr.strip x_username \/ p ∈ requested)
    /\ (forall p, p ∈ r_participant_usernames room' -> known_user (srv (snd r)) p)
    /\ messages (db (srv (snd r))) = messages (db (srv t)).
Proof.
  intros quiet Hset (Ho & Hroom & Hown) Hreq r. subst r.
  pose proof (update_room_quiet quiet room_id room_update x_username t o Ho) as H.
  cbv zeta in H. rewrite Hroom, Hown, String.eqb_refl, Hreq in H.
  destruct H as [Hres Hsrv].
  set (username := PyStr.strip x_username) in *.
  set (participants := if bool_decide (username ∈ list_of_set requested)
                       then list_of_set requested
                       else list_of_set requested ++ [username]) in *.
  set (s2 := fold_left (fun s p => signed_up p s) participants
               (signed_up username (srv t))) in *.
  destruct (signed_up_all_frame participants (signed_up username (srv t)))
    as (_ & _ & Hrooms & Hmsgs).
  fold s2 in Hrooms, Hmsgs. rewrite signed_up_rooms in Hrooms.
  rewrite signed_up_messages in Hmsgs.
  destruct (Hset requested) as [Hnd Hin].
  eexists. split; [exact Hres|]. rewrite Hsrv. simpl.
  split.
  { rewrite Hrooms. apply find_update_first; [exact Hroom|].
    now apply find_some in Hroom. }
  do 4 (split; [reflexivity|]).
  split.
  { unfold participants. destruct (bool_decide _) eqn:Hdec; [exact Hnd|].
    apply bool_decide_eq_false_1 in Hdec. apply NoDup_app.
    split; [exact Hnd|]. split; [|apply NoDup_singleton].
    intros x Hx Hx'. apply list_elem_of_singleton in Hx'. now subst x. }
  assert (forall p, p ∈ participants <-> p = username \/ p ∈ requested) as Hps.
  { intros p. unfold participants. destruct (bool_decide _) eqn:Hdec.
    - apply bool_decide_eq_true_1 in Hdec. rewrite Hin. split; [now right|].
      intros [->|Hp]; [now apply Hin | exact Hp].
    - rewrite elem_of_app, list_elem_of_singleton, Hin. tauto. }
  split; [exact Hps|]. split; [|exact Hmsgs].
  intros p Hp.
  assert (known_user s2 p) as (user & Huser & Hname).
  { apply signed_up_all_known. now left. }
  now exists user.
Qed.

(** X13. With no other task in between, [get_messages] answers a
    participant of the room, and nobody else, with messages. They are
    stored messages of that room, at most [limit] of them, in ascending
    order of [created_at]; and they are the oldest: a message of the room
    that is left out is at least as recent as every message returned, and
    is left out only when [limit] messages were returned. The route has
    no way to reach the messages after the first [limit], which FastAPI
    keeps between 1 and 200. It changes neither rooms nor messages. *)
Theorem get_messages_oldest_first {E : Env} {O : Orders}
    (room_id : string) (limit : nat) (x_username : string) (t : Task) (o : oid) :
  undisturbed ->
  sorts_by_created_at ->
  ObjectId room_id = Some o ->
  (1 <= limit <= 200)%nat ->
  let r := Messages.get_messages room_id limit x_username t in
  (answered_ok (fst r) <->
     exists room, List.find (has_id o) (rooms (db (srv t))) = Some room
                  /\ PyStr.strip x_username ∈ r_participant_usernames room)
  /\ (forall msgs, fst r = Ret (Ok msgs) ->
        (length msgs <= limit)%nat
        /\ StronglySorted older msgs
        /\ (forall m, m ∈ msgs -> m ∈ messages (db (srv t)) /\ m_room_id m = o)
        /\ (forall m', m' ∈ messages (db (srv t)) -> m_room_id m' = o -> m' ∉ msgs ->
              length msgs = limit /\ forall m, m ∈ msgs -> older m m'))
  /\ rooms (db (srv (snd r))) = rooms (db (srv t))
  /\ messages (db (srv (snd r))) = messages (db (srv t)).
Proof.
  intros quiet Hsort Ho _ r. subst r.
  destruct (get_messages_quiet quiet room_id limit x_username t o Ho) as (t' & -> & Hs).
  simpl. rewrite Hs, signed_up_rooms, signed_up_messages.
  split; [|split; [|now split]].
  - destruct (find (has_id o) _) as [room|].
    + destruct (bool_decide _) eqn:Hdec.
      * apply bool_decide_eq_true_1 in Hdec. split; [intros _; now exists room|].
        intros _. now eexists.
      * apply bool_decide_eq_false_1 in Hdec. split; [intros [a Ha]; discriminate|].
        intros (room' & [= <-] & Hin). contradiction.
    + split; [intros [a Ha]; discriminate | intros (room' & Hroom & _); discriminate].
  - intros msgs Hmsgs.
    set (stored := List.filter (in_room o) (messages (db (srv t)))) in *.
    assert (msgs = take limit (sort_created_at stored)) as ->.
    { destruct (find (has_id o) _) as [room|]; [|discriminate].
      destruct (bool_decide _); [|discriminate]. now injection Hmsgs as <-. }
    destruct (Hsort stored) as [Hperm Hsorted].
    assert (forall m, m ∈ sort_created_at stored <->
                      m ∈ messages (db (srv t)) /\ m_room_id m = o) as Hstored.
    { intros m. rewrite Hperm. unfold stored. rewrite !list_elem_of_In, filter_In.
      unfold in_room. now rewrite N.eqb_eq. }
    rewrite <- (take_drop limit (sort_created_at stored)) in Hsorted.
    split; [rewrite length_take; lia|].
    split; [now apply StronglySorted_app_1_l in Hsorted|].
    split.
    + intros m Hm. apply Hstored.
      rewrite <- (take_drop limit (sort_created_at stored)). apply elem_of_app. now left.
    + intros m' Hm' Hroom Hout.
      assert (m' ∈ drop limit (sort_created_at stored)) as Hdrop.
      { assert (m' ∈ sort_created_at stored) as Hin by now apply Hstored.
        rewrite <- (take_drop limit (sort_created_at stored)) in Hin.
        apply elem_of_app in Hin as [Hin|Hin]; [contradiction | exact Hin]. }
      split.
      * rewrite length_take.
        assert (length (drop limit (sort_created_at stored)) <> 0)%nat as Hlen.
        { destruct (drop limit (sort_created_at stored));
            [now apply elem_of_nil in Hdrop | discriminate]. }
        rewrite length_drop in Hlen. lia.
      * intros m Hm. now apply (StronglySorted_app_1_elem_of _ _ _ _ _ Hsorted).
Qed.

(** X14. With no other task in between, [delete_message] deletes for the
    sender of the message and for the owner of the room, and for nobody
    else; the requester need not be a participant of the room. The message
    must be stored under the given id in the given room. A request that is
    not answered with success leaves the messages as they are; one that is
    removes exactly one message, the first stored under that id, which is
    the message that was found when no two stored messages share an id.
    The rooms are never changed. *)
Theorem delete_message_permission {E : Env}
    (room_id message_id x_username : string) (t : Task) (o id : oid) :
  undisturbed ->
  ObjectId room_id = Some o ->
  ObjectId message_id = Some id ->
  let username := PyStr.strip x_username in
  let r := Messages.delete_message room_id message_id x_username t in
  (answered_ok (fst r) <->
     exists room message,
       List.find (has_id o) (rooms (db (srv t))) = Some room
       /\ List.find (is_message id o) (messages (db (srv t))) = Some message
       /\ (m_sender_username message = username \/ r_owner_username room = username))
  /\ (~ answered_ok (fst r) ->
      messages (db (srv (snd r))) = messages (db (srv t)))
  /\ (answered_ok (fst r) ->
      exists l1 m l2,
        messages (db (srv t)) = l1 ++ m :: l2
        /\ messages (db (srv (snd r))) = l1 ++ l2
        /\ m_id m = id
        /\ (forall m', m' ∈ l1 -> m_id m' <> id)
        /\ (NoDup (map m_id (messages (db (srv t)))) ->
            List.find (is_message id o) (messages (db (srv t))) = Some m))
  /\ rooms (db (srv (snd r))) = rooms (db (srv t)).
Proof.
  intros quiet Ho Hid username r. subst r.
  pose proof (delete_message_quiet quiet room_id message_id x_username t o id Ho Hid) as H.
  cbv zeta in H. fold username in H.
  destruct (find (has_id o) _) as [room|] eqn:Hroom.
  2: { destruct H as [-> ->]. rewrite signed_up_rooms, signed_up_messages.
       split; [split; [intros [a Ha]; discriminate | intros (? & ? & ? & _); discriminate]|].
       split; [reflexivity|]. split; [intros [a Ha]; discriminate | reflexivity]. }
  destruct (find (is_message id o) _) as [message|] eqn:Hmsg.
  2: { destruct H as [-> ->]. rewrite signed_up_rooms, signed_up_messages.
       split; [split; [intros [a Ha]; discriminate
                      | intros (? & ? & _ & ? & _); discriminate]|].
       split; [reflexivity|]. split; [intros [a Ha]; discriminate | reflexivity]. }
  destruct (String.eqb (m_sender_username message) username
            || String.eqb (r_owner_username room) username) eqn:Hperm.
  - destruct H as [-> ->]. simpl. rewrite signed_up_rooms, signed_up_messages.
    apply orb_true_iff in Hperm. rewrite !String.eqb_eq in Hperm.
    split; [split; [intros _; now exists room, message | intros _; now eexists]|].
    split; [intros Hno; destruct Hno; now eexists|].
    split; [|reflexivity]. intros _.
    assert (exists m, find (fun m => N.eqb (m_id m) id) (messages (db (srv t))) = Some m)
      as [m Hm].
    { destruct (find (fun m => N.eqb (m_id m) id) _) as [m|] eqn:Hm; [now exists m|].
      apply find_some in Hmsg as [Hin Hboth]. apply (find_none _ _ Hm) in Hin.
      unfold is_message in Hboth. apply andb_true_iff in Hboth as [Hboth _].
      congruence. }
    destruct (delete_first_split _ _ _ Hm) as (l1 & l2 & Hl & Hdel & Hnone).
    exists l1, m, l2. split; [exact Hl|]. split; [exact Hdel|].
    pose proof (find_some _ _ Hm) as [_ Hmid]. apply N.eqb_eq in Hmid.
    split; [exact Hmid|]. split.
    + intros m' Hm' Heq. apply list_elem_of_In in Hm'.
      apply (find_none _ _ Hnone) in Hm'. apply N.eqb_neq in Hm'. contradiction.
    + intros Hnd. f_equal.
      apply find_some in Hmsg as [Hin Hboth]. unfold is_message in Hboth.
      apply andb_true_iff in Hboth as [Hboth _]. apply N.eqb_eq in Hboth.
      pose proof (find_some _ _ Hm) as [Hin' _].
      apply list_elem_of_In in Hin, Hin'.
      apply list_elem_of_lookup in Hin as [i Hi], Hin' as [j Hj].
      assert (i = j) as ->.
      { apply (NoDup_lookup _ _ _ id Hnd); rewrite list_lookup_fmap.
        - now rewrite Hi; simpl; rewrite Hboth.
        - now rewrite Hj; simpl; rewrite Hmid. }
      congruence.
  - destruct H as [-> ->]. rewrite signed_up_rooms, signed_up_messages.
    apply orb_false_iff in Hperm as [Hsender Howner].
    apply String.eqb_neq in Hsender, Howner.
    split.
    + split; [intros [a Ha]; discriminate|].
      intros (room' & message' & [= <-] & [= <-] & [Hs|Hw]); contradiction.
    + split; [reflexivity|]. split; [intros [a Ha]; discriminate | reflexivity].
Qed.

(** ** Deleting a room *)

Lemma find_nowhere {A} (p : A -> bool) (l : list A) :
  (forall x, x ∈ l -> p x = false) -> List.find p l = None.
Proof.
  induction l as [|x l IH]; simpl; [reflexivity|]. intros Hp.
  rewrite (Hp x) by apply list_elem_of_here.
  apply IH. intros y Hy. apply Hp. now apply list_elem_of_further.
Qed.

(** A send that is well formed for a room that the store does not have
    is answered with [Room not found]. *)
Lemma send_message_room_not_found {E : Env} sid data t u rid o text :
  well_formed sid data t u rid o text ->
  List.find (has_id o) (rooms (db (srv t))) = None ->
  send_message sid data t
  = (Ret tt, after_error sid "Room not found" (after_find o t)).
Proof.
  intros (d & Hd & Hrid & Hne & Ho & Htext & Htne & Hauth) Hroom.
  unfold send_message, load_payload, get_text, lookup_session, lift.
  unfold bind at 1. rewrite Hd. unfold bind at 1. rewrite Htext.
  unfold bind at 1. simpl.
  rewrite (str_truthy_authenticated _ _ _ Hauth). destruct Hauth as [Hu Hune].
  rewrite Hu, Hrid, (truthy_PStr _ Hne), (eqb_nonempty _ Htne). simpl.
  rewrite Ho. simpl.
  unfold await, find_one_room. unfold bind at 1 2 3 4. simpl.
  rewrite Hroom. simpl. apply emit_error_run.
Qed.

(** X15. With no other task in between, [delete_room] by the owner
    removes the room and every message of the room, and nothing else: the
    other rooms and the messages of other rooms stay, in their order.
    The sessions and the Socket.IO rooms are not touched, so the
    connections that joined the room are still in its Socket.IO room.
    When no two stored rooms share an id, the id names no room afterwards,
    and a send to it that is otherwise well formed is answered with
    [Room not found]. *)
Theorem delete_room_erases {E : Env} (room_id x_username : string) (t : Task)
    (o : oid) (room : Room) :
  undisturbed ->
  owns (srv t) room_id (PyStr.strip x_username) o room ->
  let r := Rooms.delete_room room_id x_username t in
  fst r = Ret (Ok "Room deleted successfully")
  /\ (forall m, m ∈ messages (db (srv (snd r))) <->
        m ∈ messages (db (srv t)) /\ m_room_id m <> o)
  /\ (exists l1 l2, rooms (db (srv t)) = l1 ++ room :: l2
                    /\ rooms (db (srv (snd r))) = l1 ++ l2)
  /\ sio_rooms (srv (snd r)) = sio_rooms (srv t)
  /\ sid_to_username (srv (snd r)) = sid_to_username (srv t)
  /\ (NoDup (map r_id (rooms (db (srv t)))) ->
      List.find (has_id o) (rooms (db (srv (snd r)))) = None
      /\ forall sid data u rid text,
           well_formed sid data (snd r) u rid o text ->
           send_message sid data (snd r)
           = (Ret tt, after_error sid "Room not found" (after_find o (snd r)))).
Proof.
  intros quiet (Ho & Hroom & Hown) r. subst r.
  pose proof (delete_room_quiet quiet room_id x_username t o Ho) as H.
  cbv zeta in H. rewrite Hroom, Hown, String.eqb_refl in H. destruct H as [Hres Hsrv].
  destruct (signed_up_frame (PyStr.strip x_username) (srv t))
    as (Hsess & Hsio & Hrooms & Hmsgs & _).
  split; [exact Hres|]. rewrite Hsrv. simpl. rewrite Hrooms, Hmsgs.
  destruct (delete_first_split _ _ _ Hroom) as (l1 & l2 & Hl & Hdel & Hnone).
  split.
  { intros m. rewrite !list_elem_of_In, filter_In. unfold in_room.
    rewrite negb_true_iff, N.eqb_neq. tauto. }
  split; [now exists l1, l2|].
  split; [exact Hsio|]. split; [exact Hsess|].
  intros Hnd.
  assert (find (has_id o) (delete_first (has_id o) (rooms (db (srv t)))) = None) as Hgone.
  { rewrite Hdel. apply find_nowhere. intros x Hx.
    apply find_some in Hroom as [_ Hid]. apply N.eqb_eq in Hid.
    unfold has_id. apply N.eqb_neq. intros Hx'.
    rewrite Hl, map_app in Hnd. simpl in Hnd. apply NoDup_app in Hnd as (_ & Hdisj & Hnd).
    apply NoDup_cons in Hnd as [Hnotin _].
    apply elem_of_app in Hx as [Hx|Hx].
    - apply (Hdisj (r_id x)); [now apply list_elem_of_fmap_2|].
      rewrite Hx', <- Hid. apply list_elem_of_here.
    - apply Hnotin. rewrite Hid, <- Hx'. now apply list_elem_of_fmap_2. }
  split; [exact Hgone|].
  intros sid data u rid text Hwf. apply (send_message_room_not_found _ _ _ _ _ _ _ Hwf).
  rewrite Hsrv. simpl. rewrite Hrooms. exact Hgone.
Qed.

(** ** Who may change a room *)

(** X16. With no other task in between, the four routes that change or
    delete a room do so for the owner of the room only. When the
    requester does not own a stored room under the given id (the id is
    malformed, names no room, or names a room of somebody else), none of
    [update_room], [delete_room], [add_participant] and
    [remove_participant] answers with success, and the stored rooms and
    messages are what they were. *)
Theorem only_owner_changes_room {E : Env} {O : Orders}
    (room_id x_username : string) (t : Task)
    (room_update : RoomUpdate) (participant_username : string) :
  undisturbed ->
  (forall o room, ~ owns (srv t) room_id (PyStr.strip x_username) o room) ->
  turned_down (Rooms.update_room room_id room_update x_username t) t
  /\ turned_down (Rooms.delete_room room_id x_username t) t
  /\ turned_down (Rooms.add_participant room_id participant_username x_username t) t
  /\ turned_down (Rooms.remove_participant room_id participant_username x_username t) t.
Proof.
  intros quiet Hnot. unfold turned_down.
  destruct (ObjectId room_id) as [o|] eqn:Ho.
  - pose proof (update_room_quiet quiet room_id room_update x_username t o Ho) as Hu.
    pose proof (delete_room_quiet quiet room_id x_username t o Ho) as Hd.
    pose proof (add_participant_quiet quiet room_id participant_username x_username t o Ho)
      as Ha.
    pose proof (remove_participant_quiet quiet room_id participant_username x_username t
                  o Ho) as Hr.
    cbv zeta in Hu, Hd, Ha, Hr.
    destruct (find (has_id o) (rooms (db (srv t)))) as [room|] eqn:Hroom.
    + destruct (String.eqb (r_owner_username room) (PyStr.strip x_username)) eqn:Hown.
      { apply String.eqb_eq in Hown. destruct (Hnot o room). now repeat split. }
      destruct Hu as [-> ->], Hd as [-> ->], Ha as [-> ->], Hr as [-> ->].
      rewrite signed_up_rooms, signed_up_messages.
      repeat split; intros [a Ha]; discriminate.
    + destruct Hu as [-> ->], Hd as [-> ->], Ha as [-> ->], Hr as [-> ->].
      rewrite signed_up_rooms, signed_up_messages.
      repeat split; intros [a Ha]; discriminate.
  - unfold Rooms.update_room, Rooms.delete_room, Rooms.add_participant,
      Rooms.remove_participant, Rooms.validate_object_id, checked.
    rewrite Ho. simpl. repeat split; intros [a Ha]; discriminate.
Qed.

(** X17. A request whose room id is not an ObjectId is answered with 400
    before the route does anything else: the requester is not signed up
    and nothing is read or written. The same holds for a malformed
    message id of [delete_message], which is checked after the room id
    and before the room is fetched. *)
Theorem malformed_id_refused_first {E : Env} {O : Orders}
    (bad : string) (t : Task) (x_username participant_username message_id room_id : string)
    (room_update : RoomUpdate) (limit : nat) (o : oid) :
  ObjectId bad = None ->
  ObjectId room_id = Some o ->
  Rooms.get_room bad x_username t
  = (Ret (HTTPException 400 "Invalid room ID format"), t)
  /\ Rooms.update_room bad room_update x_username t
     = (Ret (HTTPException 400 "Invalid room ID format"), t)
  /\ Rooms.delete_room bad x_username t
     = (Ret (HTTPException 400 "Invalid room ID format"), t)
  /\ Rooms.add_participant bad participant_username x_username t
     = (Ret (HTTPException 400 "Invalid room ID format"), t)
  /\ Rooms.remove_participant bad participant_username x_username t
     = (Ret (HTTPException 400 "Invalid room ID format"), t)
  /\ Messages.get_messages bad limit x_username t
     = (Ret (HTTPException 400 "Invalid room ID format"), t)
  /\ Messages.delete_message bad message_id x_username t
     = (Ret (HTTPException 400 "Invalid room ID format"), t)
  /\ Messages.delete_message room_id bad x_username t
     = (Ret (HTTPException 400 "Invalid message ID format"), t).
Proof.
  intros Hbad Ho.
  unfold Rooms.get_room, Rooms.update_room, Rooms.delete_room, Rooms.add_participant,
    Rooms.remove_participant, Messages.get_messages, Messages.delete_message,
    Rooms.validate_object_id, Messages.validate_object_id, checked.
  rewrite Hbad, Ho. now repeat split.
Qed.

(** ** Adding and removing a participant *)

Lemma signed_up_again {E : Env} username s :
  known_user s username -> signed_up username s = s.
Proof.
  intros Hknown. apply known_user_find in Hknown. unfold signed_up.
  now destruct (find _ _).
Qed.

Lemma update_first_at {A} (p : A -> bool) f (l1 l2 : list A) x :
  List.find p l1 = None -> p x = true ->
  update_first p f (l1 ++ x :: l2) = l1 ++ f x :: l2.
Proof.
  intros Hnone Hx. induction l1 as [|y l1 IH]; simpl in *; [now rewrite Hx|].
  destruct (p y); [discriminate|]. now rewrite IH.
Qed.

Lemma find_at {A} (p : A -> bool) (l1 l2 : list A) x :
  List.find p l1 = None -> p x = true -> List.find p (l1 ++ x :: l2) = Some x.
Proof.
  intros Hnone Hx. induction l1 as [|y l1 IH]; simpl in *; [now rewrite Hx|].
  destruct (p y); [discriminate|]. now apply IH.
Qed.

Lemma filter_out_last (p : string) (l : list string) :
  p ∉ l -> List.filter (fun q => negb (String.eqb q p)) (l ++ [p]) = l.
Proof.
  induction l as [|x l IH]; simpl; intros Hp.
  - now rewrite String.eqb_refl.
  - apply not_elem_of_cons in Hp as [Hne Hp].
    assert (String.eqb x p = false) as -> by (apply String.eqb_neq; congruence).
    simpl. now rewrite IH.
Qed.

(** X18. With no other task in between, when the owner adds a stored
    user who is not yet a participant of the room and then removes them
    again, both requests succeed, the first answer lists the user as a
    participant, and the stored rooms are exactly what they were before
    the two requests. *)
Theorem add_then_remove_restores {E : Env}
    (room_id participant_username x_username : string) (t : Task) (o : oid) (room : Room) :
  undisturbed ->
  owns (srv t) room_id (PyStr.strip x_username) o room ->
  known_user (srv t) (PyStr.strip participant_username) ->
  PyStr.strip participant_username ∉ r_participant_usernames room ->
  PyStr.strip participant_username <> PyStr.strip x_username ->
  let added := Rooms.add_participant room_id participant_username x_username t in
  let removed :=
    Rooms.remove_participant room_id participant_username x_username (snd added) in
  (exists room', fst added = Ret (Ok room')
                 /\ r_participant_usernames room'
                    = r_participant_usernames room ++ [PyStr.strip participant_username])
  /\ fst removed = Ret (Ok room)
  /\ rooms (db (srv (snd removed))) = rooms (db (srv t)).
Proof.
  intros quiet (Ho & Hroom & Hown) Hknown Hout Hother added removed.
  subst added removed.
  set (username := PyStr.strip x_username) in *.
  set (p := PyStr.strip participant_username) in *.
  pose proof (add_participant_quiet quiet room_id participant_username x_username t o Ho)
    as Ha.
  cbv zeta in Ha. fold username p in Ha.
  rewrite Hroom, Hown, String.eqb_refl in Ha.
  assert (find (has_username p) (users (db (signed_up username (srv t)))) <> None) as Hf.
  { apply known_user_find. now apply signed_up_keeps. }
  destruct (find (has_username p) _) as [user|]; [clear Hf | congruence].
  rewrite (bool_decide_eq_false_2 _ Hout) in Ha. destruct Ha as [Hares Hasrv].
  destruct (update_first_split (has_id o) (push_participant p) _ _ Hroom)
    as (l1 & l2 & Hl & Hupd & Hnone).
  pose proof (find_some _ _ Hroom) as [_ Hid].
  rewrite signed_up_rooms in Hasrv.
  set (t1 := snd (Rooms.add_participant room_id participant_username x_username t)) in *.
  assert (rooms (db (srv t1)) = l1 ++ push_participant p room :: l2) as Hrooms1.
  { rewrite Hasrv. simpl. exact Hupd. }
  assert (signed_up username (srv t1) = srv t1) as Hsame.
  { apply signed_up_again. rewrite Hasrv.
    destruct (signed_up_known username (srv t)) as (user' & Huser & Hname).
    now exists user'. }
  pose proof (remove_participant_quiet quiet room_id participant_username x_username t1
                o Ho) as Hr.
  cbv zeta in Hr. fold username p in Hr.
  rewrite Hrooms1, (find_at (has_id o) l1 l2 (push_participant p room) Hnone Hid) in Hr.
  simpl in Hr.
  rewrite Hown, String.eqb_refl in Hr.
  assert (String.eqb p username = false) as Hpu by now apply String.eqb_neq.
  rewrite Hpu in Hr.
  rewrite bool_decide_eq_true_2 in Hr
    by (apply elem_of_app; right; now apply list_elem_of_singleton).
  destruct Hr as [Hrres Hrsrv].
  assert (pull_participant p (push_participant p room) = room) as Hback.
  { unfold pull_participant, push_participant, set_fields. simpl.
    rewrite (filter_out_last _ _ Hout). now destruct room. }
  split; [exists (push_participant p room); now split|].
  split; [now rewrite Hrres, Hback|].
  rewrite Hrsrv, Hsame. simpl. rewrite Hrooms1.
  rewrite (update_first_at (has_id o) _ l1 l2 (push_participant p room) Hnone Hid), Hback.
  now symmetry.
Qed.

(** X19. With no other task in between, [add_participant] by the owner
    succeeds exactly for a name (stripped) that a stored user has, the
    requester's own name included; otherwise it answers 400 and stores
    nothing in the room. After a success the name is among the
    participants of the stored room, the participants of before are all
    still there, and repeating the request returns the same room and
    changes nothing. *)
Theorem add_participant_idempotent {E : Env}
    (room_id participant_username x_username : string) (t : Task) (o : oid) (room : Room) :
  undisturbed ->
  owns (srv t) room_id (PyStr.strip x_username) o room ->
  let username := PyStr.strip x_username in
  let p := PyStr.strip participant_username in
  let r := Rooms.add_participant room_id participant_username x_username t in
  (answered_ok (fst r) <-> p = username \/ known_user (srv t) p)
  /\ (~ answered_ok (fst r) ->
      fst r = Ret (HTTPException 400 ("User '" +:+ p +:+ "' does not exist"))
      /\ rooms (db (srv (snd r))) = rooms (db (srv t)))
  /\ (forall room',
        fst r = Ret (Ok room') ->
        List.find (has_id o) (rooms (db (srv (snd r)))) = Some room'
        /\ (forall q, q ∈ r_participant_usernames room' <->
              q = p \/ q ∈ r_participant_usernames room)
        /\ Rooms.add_participant room_id participant_username x_username (snd r)
           = (Ret (Ok room'),
              snd (Rooms.add_participant room_id participant_username x_username (snd r)))
        /\ srv (snd (Rooms.add_participant room_id participant_username x_username (snd r)))
           = srv (snd r)).
Proof.
  intros quiet (Ho & Hroom & Hown) username p r. subst r.
  pose proof (add_participant_quiet quiet room_id participant_username x_username t o Ho)
    as Ha.
  cbv zeta in Ha. fold username p in Ha.
  rewrite Hroom, Hown in Ha. unfold username in Ha at 1. rewrite String.eqb_refl in Ha.
  fold username in Ha.
  pose proof (known_user_find (signed_up username (srv t)) p) as Hknown.
  rewrite signed_up_known_iff in Hknown.
  pose proof (find_some _ _ Hroom) as [_ Hid].
  set (t1 := snd (Rooms.add_participant room_id participant_username x_username t)) in *.
  destruct (find (has_username p) _) as [user|] eqn:Hf.
  - assert (p = username \/ known_user (srv t) p) as Hp by (apply Hknown; congruence).
    assert (known_user (srv t1) username) as Hme.
    { destruct (signed_up_known username (srv t)) as (user' & Huser & Hname).
      exists user'. split; [|exact Hname].
      destruct (bool_decide _); destruct Ha as [_ ->]; exact Huser. }
    assert (find (has_username p) (users (db (srv t1))) = Some user) as Hf1.
    { destruct (bool_decide _); destruct Ha as [_ ->]; exact Hf. }
    pose proof (add_participant_quiet quiet room_id participant_username x_username t1
                  o Ho) as Hb.
    cbv zeta in Hb. fold username p in Hb.
    rewrite (signed_up_again username (srv t1) Hme), Hf1 in Hb.
    destruct (bool_decide (p ∈ r_participant_usernames room)) eqn:Hdec.
    + apply bool_decide_eq_true_1 in Hdec. destruct Ha as [Hres Hsrv].
      rewrite Hsrv, signed_up_rooms, Hroom, Hown in Hb.
      unfold username in Hb at 1. rewrite String.eqb_refl in Hb.
      rewrite (bool_decide_eq_true_2 _ Hdec) in Hb. destruct Hb as [Hres2 Hsrv2].
      assert (answered_ok
                (fst (Rooms.add_participant room_id participant_username x_username t)))
        as Hok by (eexists; exact Hres).
      split; [split; [intros _; exact Hp | intros _; exact Hok]|].
      split; [intros Hno; now destruct Hno|].
      intros room' Hroom'. rewrite Hres in Hroom'. injection Hroom' as <-.
      rewrite Hsrv, signed_up_rooms. split; [exact Hroom|].
      split; [intros q; split; [now right | intros [->|Hq]; assumption]|].
      split; [|exact Hsrv2].
      rewrite <- Hres2. now destruct (Rooms.add_participant _ _ _ t1).
    + apply bool_decide_eq_false_1 in Hdec. destruct Ha as [Hres Hsrv].
      assert (find (has_id o) (rooms (db (srv t1))) = Some (push_participant p room))
        as Hroom1.
      { rewrite Hsrv. simpl. rewrite signed_up_rooms.
        now apply find_update_first. }
      rewrite Hroom1 in Hb. simpl in Hb. rewrite Hown in Hb.
      unfold username in Hb at 1. rewrite String.eqb_refl in Hb.
      rewrite bool_decide_eq_true_2 in Hb
        by (apply elem_of_app; right; now apply list_elem_of_singleton).
      destruct Hb as [Hres2 Hsrv2].
      assert (answered_ok
                (fst (Rooms.add_participant room_id participant_username x_username t)))
        as Hok by (eexists; exact Hres).
      split; [split; [intros _; exact Hp | intros _; exact Hok]|].
      split; [intros Hno; now destruct Hno|].
      intros room' Hroom'. rewrite Hres in Hroom'. injection Hroom' as <-.
      split; [exact Hroom1|].
      split.
      { intros q. simpl. rewrite elem_of_app, list_elem_of_singleton. tauto. }
      split; [|exact Hsrv2].
      rewrite <- Hres2. now destruct (Rooms.add_participant _ _ _ t1).
  - destruct Ha as [Hres Hsrv].
    assert (~ (p = username \/ known_user (srv t) p)) as Hp.
    { intros Hp. apply Hknown in Hp. congruence. }
    split; [split; [rewrite Hres; intros [a Ha]; discriminate | intros; contradiction]|].
    split; [intros _; split; [exact Hres | now rewrite Hsrv, signed_up_rooms]|].
    intros room' Hroom'. rewrite Hres in Hroom'. discriminate.
Qed.

(** ** The owner stays a participant *)

Lemma delete_first_elem {A} (p : A -> bool) (l : list A) x :
  x ∈ delete_first p l -> x ∈ l.
Proof.
  induction l as [|y l IH]; simpl; [trivial|].
  destruct (p y); intros Hx; [now apply list_elem_of_further|].
  apply elem_of_cons in Hx as [->|Hx];
    [apply list_elem_of_here | apply list_elem_of_further; now apply IH].
Qed.

Lemma snd_discard {A} (m : M A) t : snd ((m ;;; ret tt) t) = snd (m t).
Proof. unfold bind. now destruct (m t) as [[a|e] t']. Qed.

Lemma owners_same_rooms s s' :
  rooms (db s') = rooms (db s) -> owners_participate s -> owners_participate s'.
Proof. intros Heq Hs room Hroom. apply Hs. now rewrite <- Heq. Qed.

Lemma owners_updated s s' o f :
  rooms (db s') = update_first (has_id o) f (rooms (db s)) ->
  (forall room, List.find (has_id o) (rooms (db s)) = Some room ->
     r_owner_username room ∈ r_participant_usernames room ->
     r_owner_username (f room) ∈ r_participant_usernames (f room)) ->
  owners_participate s -> owners_participate s'.
Proof.
  intros Heq Hf Hs room Hroom. rewrite Heq in Hroom.
  destruct (find (has_id o) (rooms (db s))) as [x|] eqn:Hfind.
  - destruct (update_first_split (has_id o) f _ _ Hfind) as (l1 & l2 & Hl & Hupd & _).
    assert (x ∈ rooms (db s)) as Hx.
    { rewrite Hl. apply elem_of_app. right. apply list_elem_of_here. }
    rewrite Hupd in Hroom. apply elem_of_app in Hroom as [Hroom|Hroom].
    + apply Hs. rewrite Hl. apply elem_of_app. now left.
    + apply elem_of_cons in Hroom as [->|Hroom].
      * apply Hf; [reflexivity | now apply Hs].
      * apply Hs. rewrite Hl. apply elem_of_app. right. now apply list_elem_of_further.
  - rewrite (update_first_none _ _ _ Hfind) in Hroom. now apply Hs.
Qed.

Section Owners.
Context {E : Env} {O : Orders}.
Hypothesis quiet : undisturbed.

(** What [create_room] leaves in the rooms: nothing new, or one room
    whose first participant is its owner. *)
Lemma create_room_rooms room_data x_username t :
  rooms (db (srv (snd (Rooms.create_room room_data x_username t)))) = rooms (db (srv t))
  \/ exists room rest,
       rooms (db (srv (snd (Rooms.create_room room_data x_username t))))
       = rooms (db (srv t)) ++ [room]
       /\ r_participant_usernames room = r_owner_username room :: rest.
Proof.
  pose proof quiet as Hq. unfold undisturbed in Hq.
  destruct (Rooms.create_room room_data x_username t) as [res t'] eqn:Hrun. simpl.
  unfold Rooms.create_room in Hrun.
  destruct (get_or_create_user_undisturbed (PyStr.strip x_username) t quiet)
    as (user & t1 & Hg & Hs1 & _).
  unfold bind at 1 in Hrun. rewrite Hg in Hrun.
  destruct (add_requested_quiet quiet (PyStr.strip x_username)
              (rc_participant_usernames room_data) [PyStr.strip x_username] t1)
    as (t2 & Hs2 & _ & [(l & Hadd & [k ->] & _)|(q & _ & _ & _ & _ & Hadd)]).
  - right. unfold bind at 1 in Hrun. rewrite Hadd in Hrun.
    unfold checked, await, insert_one_room, now, room_to_response in Hrun.
    repeat (unfold bind at 1 in Hrun; simpl in Hrun; rewrite ?Hq in Hrun).
    rewrite ?Hq in Hrun. simpl in Hrun. injection Hrun as <- <-. simpl.
    rewrite Hs2, Hs1, signed_up_rooms. now eexists _, _.
  - left. unfold bind at 1 in Hrun. rewrite Hadd in Hrun. simpl in Hrun.
    injection Hrun as <- <-. now rewrite Hs2, Hs1, signed_up_rooms.
Qed.

Lemma owners_serve r t :
  owners_participate (srv t) -> owners_participate (srv (snd (serve r t))).
Proof.
  intros Ht.
  assert (forall username,
            owners_participate (signed_up username (srv t))) as Hsigned.
  { intros username. apply (owners_same_rooms (srv t)); [apply signed_up_rooms | exact Ht]. }
  destruct r as [|x|room_data x|x|room_id x|room_id room_update x|room_id x
                 |room_id p x|room_id p x|room_id limit x|room_id message_id x];
    cbn [serve]; try rewrite snd_discard.
  - destruct (get_users_quiet quiet t) as (t' & -> & Hs). simpl. now rewrite Hs.
  - destruct (get_me_quiet quiet x t) as (t' & -> & [->| ->]); [exact Ht | apply Hsigned].
  - destruct (create_room_rooms room_data x t) as [Heq|(room & rest & Heq & Hp)].
    + now apply (owners_same_rooms (srv t)).
    + intros room' Hroom'. rewrite Heq in Hroom'.
      apply elem_of_app in Hroom' as [Hroom'|Hroom']; [now apply Ht|].
      apply list_elem_of_singleton in Hroom'. subst room'. rewrite Hp.
      apply list_elem_of_here.
  - destruct (get_my_rooms_quiet quiet x t) as (t' & -> & Hs). simpl. rewrite Hs.
    apply Hsigned.
  - destruct (ObjectId room_id) as [o|] eqn:Ho.
    + destruct (get_room_quiet quiet room_id x t o Ho) as (t' & -> & Hs). simpl.
      rewrite Hs. apply Hsigned.
    + unfold Rooms.get_room, Rooms.validate_object_id, checked. now rewrite Ho.
  - destruct (ObjectId room_id) as [o|] eqn:Ho.
    + pose proof (update_room_quiet quiet room_id room_update x t o Ho) as H.
      cbv zeta in H.
      destruct (find (has_id o) _) as [room|] eqn:Hroom;
        [|destruct H as [_ ->]; apply Hsigned].
      destruct (String.eqb (r_owner_username room) (PyStr.strip x)) eqn:Hown;
        [|destruct H as [_ ->]; apply Hsigned].
      apply String.eqb_eq in Hown.
      destruct (ru_participant_usernames room_update) as [requested|].
      * destruct H as [_ ->].
        set (participants := if bool_decide (PyStr.strip x ∈ list_of_set requested)
                             then list_of_set requested
                             else list_of_set requested ++ [PyStr.strip x]).
        set (s2 := fold_left (fun s p => signed_up p s) participants
                     (signed_up (PyStr.strip x) (srv t))).
        assert (rooms (db s2) = rooms (db (srv t))) as Hrooms2.
        { destruct (signed_up_all_frame participants (signed_up (PyStr.strip x) (srv t)))
            as (_ & _ & Hr & _). fold s2 in Hr. rewrite Hr. apply signed_up_rooms. }
        apply (owners_updated s2 _ o
                 (set_fields (ru_name room_update) (Some participants)));
          [reflexivity | | now apply (owners_same_rooms (srv t))].
        intros room' Hfound _. rewrite Hrooms2, Hroom in Hfound. injection Hfound as <-.
        simpl. rewrite Hown. unfold participants.
        destruct (bool_decide _) eqn:Hdec.
        -- now apply bool_decide_eq_true_1 in Hdec.
        -- apply elem_of_app. right. now apply list_elem_of_singleton.
      * destruct (ru_name room_update) as [name|]; destruct H as [_ ->];
          [|apply Hsigned].
        apply (owners_updated (signed_up (PyStr.strip x) (srv t)) _ o
                 (set_fields (Some name) None)); [reflexivity | | apply Hsigned].
        intros room' _ Hin'. exact Hin'.
    + unfold Rooms.update_room, Rooms.validate_object_id, checked. now rewrite Ho.
  - destruct (ObjectId room_id) as [o|] eqn:Ho.
    + pose proof (delete_room_quiet quiet room_id x t o Ho) as H. cbv zeta in H.
      destruct (find (has_id o) _) as [room|];
        [|destruct H as [_ ->]; apply Hsigned].
      destruct (String.eqb _ _); destruct H as [_ ->]; [|apply Hsigned].
      intros room' Hroom'. simpl in Hroom'. apply delete_first_elem in Hroom'.
      now apply Hsigned in Hroom'.
    + unfold Rooms.delete_room, Rooms.validate_object_id, checked. now rewrite Ho.
  - destruct (ObjectId room_id) as [o|] eqn:Ho.
    + pose proof (add_participant_quiet quiet room_id p x t o Ho) as H. cbv zeta in H.
      destruct (find (has_id o) _) as [room|];
        [|destruct H as [_ ->]; apply Hsigned].
      destruct (String.eqb _ _); [|destruct H as [_ ->]; apply Hsigned].
      destruct (find (has_username _) _); [|destruct H as [_ ->]; apply Hsigned].
      destruct (bool_decide _); destruct H as [_ ->]; [apply Hsigned|].
      apply (owners_updated (signed_up (PyStr.strip x) (srv t)) _ o
               (push_participant (PyStr.strip p))); [reflexivity | | apply Hsigned].
      intros room' _ Hin'. simpl. apply elem_of_app. now left.
    + unfold Rooms.add_participant, Rooms.validate_object_id, checked. now rewrite Ho.
  - destruct (ObjectId room_id) as [o|] eqn:Ho.
    + pose proof (remove_participant_quiet quiet room_id p x t o Ho) as H. cbv zeta in H.
      destruct (find (has_id o) (rooms (db (srv t)))) as [room|] eqn:Hroom;
        [|destruct H as [_ ->]; apply Hsigned].
      destruct (String.eqb (r_owner_username room) _);
        [|destruct H as [_ ->]; apply Hsigned].
      destruct (String.eqb (PyStr.strip p) (r_owner_username room)) eqn:Hp;
        [destruct H as [_ ->]; apply Hsigned|].
      destruct (bool_decide _); destruct H as [_ ->]; [|apply Hsigned].
      apply (owners_updated (signed_up (PyStr.strip x) (srv t)) _ o
               (pull_participant (PyStr.strip p))); [reflexivity | | apply Hsigned].
      intros room' Hfound Hin'. rewrite signed_up_rooms, Hroom in Hfound.
      injection Hfound as <-. simpl.
      apply list_elem_of_In, filter_In. split; [now apply list_elem_of_In|].
      apply negb_true_iff. rewrite String.eqb_sym. exact Hp.
    + unfold Rooms.remove_participant, Rooms.validate_object_id, checked. now rewrite Ho.
  - destruct ((1 <=? limit) && (limit <=? 200))%nat; [|exact Ht].
    rewrite snd_discard. destruct (ObjectId room_id) as [o|] eqn:Ho.
    + destruct (get_messages_quiet quiet room_id limit x t o Ho) as (t' & -> & Hs). simpl.
      rewrite Hs. apply Hsigned.
    + unfold Messages.get_messages, Messages.validate_object_id, checked. now rewrite Ho.
  - destruct (ObjectId room_id) as [o|] eqn:Ho;
      [destruct (ObjectId message_id) as [id|] eqn:Hid|].
    + pose proof (delete_message_quiet quiet room_id message_id x t o id Ho Hid) as H.
      cbv zeta in H.
      destruct (find (has_id o) _) as [room|];
        [|destruct H as [_ ->]; apply Hsigned].
      destruct (find (is_message id o) _) as [message|];
        [|destruct H as [_ ->]; apply Hsigned].
      destruct (_ || _); destruct H as [_ ->]; [|apply Hsigned].
      apply (owners_same_rooms (signed_up (PyStr.strip x) (srv t)));
        [reflexivity | apply Hsigned].
    + unfold Messages.delete_message, Messages.validate_object_id, checked.
      now rewrite Ho, Hid.
    + unfold Messages.delete_message, Messages.validate_object_id, checked.
      now rewrite Ho.
Qed.

End Owners.

(** X20. The owner of a room is always one of its participants. With
    the requests and events handled one after the other, if this holds of
    every stored room, it holds after any sequence of HTTP requests and
    Socket.IO events: [create_room] puts the owner first, [update_room]
    adds the owner to a list that leaves them out, [remove_participant]
    refuses to remove the owner, and nothing else rewrites the
    participants. *)
Theorem owners_stay_participants {E : Env} {O : Orders} (calls : list Call) (t : Task) :
  undisturbed ->
  owners_participate (srv t) ->
  owners_participate (srv (serve_all calls t)).
Proof.
  intros quiet. revert t.
  induction calls as [|c calls IH]; intros t Ht; simpl; [exact Ht|].
  apply IH. destruct c as [r|e]; simpl; [now apply owners_serve|].
  apply (steady_handle owners_participate); try exact Ht.
  - intros n s Hs. now rewrite quiet.
  - intros s u Hs. now apply (owners_same_rooms s).
  - intros s m Hs. now apply (owners_same_rooms s).
  - intros s g Hs. now apply (owners_same_rooms s).
  - intros s sid Hs. now apply (owners_same_rooms s).
  - intros s sid raw _ Hs. now apply (owners_same_rooms s).
Qed.

(** ** The routes and the connections *)

Section Offstage.
Context {E : Env} {O : Orders}.
Context (P : gmap string string -> gmap string (gset string) -> Prop) (base : list Effect).

(** The other tasks keep [P]. *)
Hypothesis P_others :
  forall n s, P (sid_to_username s) (sio_rooms s) ->
              P (sid_to_username (sched n s)) (sio_rooms (sched n s)).

Lemma lasting_ret {A} (a : A) : lasting (offstage P base) (ret a).
Proof. now intros t Ht. Qed.

Lemma lasting_raise {A} e : lasting (offstage P base) (@raise A e).
Proof. now intros t Ht. Qed.

Lemma lasting_bind {A B} (m : M A) (k : A -> M B) :
  lasting (offstage P base) m -> (forall a, lasting (offstage P base) (k a)) ->
  lasting (offstage P base) (bind m k).
Proof.
  intros Hm Hk t Ht. unfold bind. specialize (Hm t Ht).
  destruct (m t) as [[a|e] t']; simpl in *; [now apply Hk | exact Hm].
Qed.

Lemma lasting_suspend : lasting (offstage P base) suspend.
Proof. intros t [Hp Hl]. split; [now apply P_others | exact Hl]. Qed.

Lemma lasting_await {A} (m : M A) :
  lasting (offstage P base) m -> lasting (offstage P base) (await m).
Proof.
  intros Hm. unfold await. apply lasting_bind; [exact Hm|]. intros a.
  apply lasting_bind; [apply lasting_suspend | intros _; apply lasting_ret].
Qed.

Lemma lasting_now : lasting (offstage P base) now.
Proof. now intros t Ht. Qed.

(** A call of the store: the database may change, and what is logged
    notifies nobody. *)
Lemma offstage_store t d l n :
  Forall store_only l -> offstage P base t ->
  offstage P base {| srv := with_db (srv t) d; log := log t ++ l; awaits := n;
                     reads := reads t |}.
Proof.
  intros Hl [Hp (l0 & Hlog & Hl0)]. split; [exact Hp|].
  exists (l0 ++ l). simpl. rewrite Hlog, <- app_assoc. split; [reflexivity|].
  now apply Forall_app.
Qed.

Lemma offstage_told t t' e :
  store_only e -> srv t' = srv t -> log t' = log t ++ [e] ->
  offstage P base t -> offstage P base t'.
Proof.
  intros He Hs Hl [Hp (l0 & Hlog & Hl0)]. split; [now rewrite Hs|].
  exists (l0 ++ [e]). rewrite Hl, Hlog, <- app_assoc. split; [reflexivity|].
  apply Forall_app. split; [exact Hl0 | now apply Forall_singleton].
Qed.

Lemma lasting_find_one_user username : lasting (offstage P base) (find_one_user username).
Proof. intros t Ht. now apply (offstage_told t _ (FindUser username)). Qed.

Lemma lasting_find_one_room o : lasting (offstage P base) (find_one_room o).
Proof. intros t Ht. now apply (offstage_told t _ (FindRoom o)). Qed.

Lemma lasting_insert_one_user username :
  lasting (offstage P base) (insert_one_user username).
Proof.
  intros t Ht. unfold insert_one_user, bind, get_srv, tell, set_srv. simpl.
  destruct (existsb _ _); simpl.
  - now apply (offstage_told t _ (InsertUser username)).
  - apply (offstage_store t); [|exact Ht]. now apply Forall_singleton.
Qed.

Lemma lasting_insert_one_room name owner participants created_at :
  lasting (offstage P base) (insert_one_room name owner participants created_at).
Proof. intros t [Hp Hl]. split; [exact Hp | exact Hl]. Qed.

Lemma lasting_find_rooms_of username : lasting (offstage P base) (find_rooms_of username).
Proof. now intros t Ht. Qed.

Lemma lasting_update_one_room o f : lasting (offstage P base) (update_one_room o f).
Proof. intros t [Hp Hl]. split; [exact Hp | exact Hl]. Qed.

Lemma lasting_delete_one_room o : lasting (offstage P base) (delete_one_room o).
Proof. intros t [Hp Hl]. split; [exact Hp | exact Hl]. Qed.

Lemma lasting_delete_many_messages o : lasting (offstage P base) (delete_many_messages o).
Proof. intros t [Hp Hl]. split; [exact Hp | exact Hl]. Qed.

Lemma lasting_find_one_message id o : lasting (offstage P base) (find_one_message id o).
Proof. now intros t Ht. Qed.

Lemma lasting_delete_one_message id : lasting (offstage P base) (delete_one_message id).
Proof. intros t [Hp Hl]. split; [exact Hp | exact Hl]. Qed.

Lemma lasting_find_messages o limit : lasting (offstage P base) (find_messages o limit).
Proof. now intros t Ht. Qed.

Lemma lasting_find_users : lasting (offstage P base) find_users.
Proof. now intros t Ht. Qed.

Lemma lasting_room_to_response room : lasting (offstage P base) (room_to_response room).
Proof. destruct room; [apply lasting_ret | apply lasting_raise]. Qed.

Lemma lasting_checked {A B} (h : Http A) (k : A -> M (Http B)) :
  (forall a, lasting (offstage P base) (k a)) -> lasting (offstage P base) (checked h k).
Proof. intros Hk. destruct h; [apply Hk | apply lasting_ret]. Qed.

Lemma lasting_get_or_create_user username :
  lasting (offstage P base) (get_or_create_user username).
Proof.
  unfold get_or_create_user.
  apply lasting_bind; [apply lasting_await, lasting_find_one_user|].
  intros [u|]; [apply lasting_ret|].
  apply lasting_bind; [apply lasting_await, lasting_insert_one_user|].
  intros; apply lasting_ret.
Qed.

Lemma lasting_add_requested username requested participants :
  lasting (offstage P base) (Rooms.add_requested username requested participants).
Proof.
  revert participants. induction requested as [|q rest IH]; intros participants;
    cbn [Rooms.add_requested]; [apply lasting_ret|].
  destruct (_ && _); [|apply IH].
  apply lasting_bind; [apply lasting_await, lasting_find_one_user|].
  intros [u|]; [apply IH | apply lasting_ret].
Qed.

Lemma lasting_create_each participants :
  lasting (offstage P base) (Rooms.create_each participants).
Proof.
  induction participants as [|p rest IH]; simpl; [apply lasting_ret|].
  apply lasting_bind; [apply lasting_get_or_create_user | intros _; exact IH].
Qed.

(** The first steps of a route on a room, and then [k]. *)
Lemma lasting_fetch {B} username o (k : option Room -> M B) :
  (forall room, lasting (offstage P base) (k room)) ->
  lasting (offstage P base)
    (get_or_create_user username ;;; room <- await (find_one_room o) ;; k room).
Proof.
  intros Hk. apply lasting_bind; [apply lasting_get_or_create_user|]. intros _.
  apply lasting_bind; [apply lasting_await, lasting_find_one_room | exact Hk].
Qed.

Lemma lasting_create_room room_data x :
  lasting (offstage P base) (Rooms.create_room room_data x).
Proof.
  unfold Rooms.create_room.
  apply lasting_bind; [apply lasting_get_or_create_user|]. intros _.
  apply lasting_bind; [apply lasting_add_requested|]. intros added.
  apply lasting_checked. intros participants.
  apply lasting_bind; [apply lasting_now|]. intros created_at.
  apply lasting_bind; [apply lasting_await, lasting_insert_one_room|].
  intros room. apply lasting_ret.
Qed.

Lemma lasting_get_my_rooms x : lasting (offstage P base) (Rooms.get_my_rooms x).
Proof.
  unfold Rooms.get_my_rooms.
  apply lasting_bind; [apply lasting_get_or_create_user|]. intros _.
  apply lasting_bind; [apply lasting_await, lasting_find_rooms_of|].
  intros; apply lasting_ret.
Qed.

Lemma lasting_get_room room_id x : lasting (offstage P base) (Rooms.get_room room_id x).
Proof.
  unfold Rooms.get_room. apply lasting_checked. intros o. apply lasting_fetch.
  intros [room|]; [|apply lasting_ret].
  destruct (negb _); [apply lasting_ret | apply lasting_room_to_response].
Qed.

Lemma lasting_update_room room_id room_update x :
  lasting (offstage P base) (Rooms.update_room room_id room_update x).
Proof.
  unfold Rooms.update_room. apply lasting_checked. intros o. apply lasting_fetch.
  intros [room|]; [|apply lasting_ret].
  destruct (negb _); [apply lasting_ret|].
  assert (forall name participants,
            lasting (offstage P base)
              (await (update_one_room o (set_fields name participants)) ;;;
               room <- await (find_one_room o) ;; room_to_response room)) as Hset.
  { intros name participants.
    apply lasting_bind; [apply lasting_await, lasting_update_one_room|]. intros _.
    apply lasting_bind; [apply lasting_await, lasting_find_one_room|].
    intros room'. apply lasting_room_to_response. }
  apply lasting_bind.
  - destruct (ru_participant_usernames room_update) as [requested|]; [|apply lasting_ret].
    apply lasting_bind; [apply lasting_create_each | intros _; apply lasting_ret].
  - intros [participants|]; destruct (ru_name room_update) as [name|];
      first [apply Hset | apply lasting_room_to_response].
Qed.

Lemma lasting_delete_room room_id x :
  lasting (offstage P base) (Rooms.delete_room room_id x).
Proof.
  unfold Rooms.delete_room. apply lasting_checked. intros o. apply lasting_fetch.
  intros [room|]; [|apply lasting_ret].
  destruct (negb _); [apply lasting_ret|].
  apply lasting_bind; [apply lasting_await, lasting_delete_many_messages|]. intros _.
  apply lasting_bind; [apply lasting_await, lasting_delete_one_room|].
  intros _. apply lasting_ret.
Qed.

Lemma lasting_add_participant room_id p x :
  lasting (offstage P base) (Rooms.add_participant room_id p x).
Proof.
  unfold Rooms.add_participant. apply lasting_checked. intros o. apply lasting_fetch.
  intros [room|]; [|apply lasting_ret].
  destruct (negb _); [apply lasting_ret|].
  apply lasting_bind; [apply lasting_await, lasting_find_one_user|].
  intros [u|]; [|apply lasting_ret].
  destruct (negb _); [|apply lasting_room_to_response].
  apply lasting_bind; [apply lasting_await, lasting_update_one_room|]. intros _.
  apply lasting_bind; [apply lasting_await, lasting_find_one_room|].
  intros room'. apply lasting_room_to_response.
Qed.

Lemma lasting_remove_participant room_id p x :
  lasting (offstage P base) (Rooms.remove_participant room_id p x).
Proof.
  unfold Rooms.remove_participant. apply lasting_checked. intros o. apply lasting_fetch.
  intros [room|]; [|apply lasting_ret].
  destruct (negb _); [apply lasting_ret|].
  destruct (String.eqb _ _); [apply lasting_ret|].
  destruct (bool_decide _); [|apply lasting_room_to_response].
  apply lasting_bind; [apply lasting_await, lasting_update_one_room|]. intros _.
  apply lasting_bind; [apply lasting_await, lasting_find_one_room|].
  intros room'. apply lasting_room_to_response.
Qed.

Lemma lasting_get_messages room_id limit x :
  lasting (offstage P base) (Messages.get_messages room_id limit x).
Proof.
  unfold Messages.get_messages. apply lasting_checked. intros o. apply lasting_fetch.
  intros [room|]; [|apply lasting_ret].
  destruct (negb _); [apply lasting_ret|].
  apply lasting_bind; [apply lasting_await, lasting_find_messages|].
  intros; apply lasting_ret.
Qed.

Lemma lasting_delete_message room_id message_id x :
  lasting (offstage P base) (Messages.delete_message room_id message_id x).
Proof.
  unfold Messages.delete_message. apply lasting_checked. intros o.
  apply lasting_checked. intros id. apply lasting_fetch.
  intros [room|]; [|apply lasting_ret].
  apply lasting_bind; [apply lasting_await, lasting_find_one_message|].
  intros [message|]; [|apply lasting_ret].
  destruct (_ && _); [apply lasting_ret|].
  apply lasting_bind; [apply lasting_await, lasting_delete_one_message|].
  intros _. apply lasting_ret.
Qed.

Lemma lasting_get_users : lasting (offstage P base) Users.get_users.
Proof.
  unfold Users.get_users.
  apply lasting_bind; [apply lasting_await, lasting_find_users | intros; apply lasting_ret].
Qed.

Lemma lasting_get_me x : lasting (offstage P base) (Users.get_me x).
Proof.
  unfold Users.get_me. destruct (_ || _); [apply lasting_ret|].
  apply lasting_bind; [apply lasting_get_or_create_user | intros; apply lasting_ret].
Qed.

Lemma lasting_serve r : lasting (offstage P base) (serve r).
Proof.
  destruct r; cbn [serve];
    try (apply lasting_bind; [|intros; apply lasting_ret]).
  - apply lasting_get_users.
  - apply lasting_get_me.
  - apply lasting_create_room.
  - apply lasting_get_my_rooms.
  - apply lasting_get_room.
  - apply lasting_update_room.
  - apply lasting_delete_room.
  - apply lasting_add_participant.
  - apply lasting_remove_participant.
  - destruct (_ && _)%nat; [|apply lasting_ret].
    apply lasting_bind; [apply lasting_get_messages | intros; apply lasting_ret].
  - apply lasting_delete_message.
Qed.

End Offstage.

(** X21. No HTTP route reaches the connections. Whatever the request
    and whatever the other tasks do, a route emits no Socket.IO event and
    moves no connection in or out of a Socket.IO room: all that the log
    gains are calls of the store, and every property of the session table
    and of the Socket.IO rooms that the other tasks keep holds afterwards
    as before. A deleted message, a deleted room and a removed
    participant are not announced to the connected clients. *)
Theorem routes_act_offstage {E : Env} {O : Orders}
    (P : gmap string string -> gmap string (gset string) -> Prop) (r : Request) (t : Task) :
  (forall n s, P (sid_to_username s) (sio_rooms s) ->
               P (sid_to_username (sched n s)) (sio_rooms (sched n s))) ->
  P (sid_to_username (srv t)) (sio_rooms (srv t)) ->
  P (sid_to_username (srv (snd (serve r t)))) (sio_rooms (srv (snd (serve r t))))
  /\ Forall store_only (effects_since t (snd (serve r t))).
Proof.
  intros Hothers Ht.
  destruct (lasting_serve P (log t) Hothers r t) as [Hp (l & Hlog & Hl)].
  - split; [exact Ht|]. exists []. split; [now rewrite app_nil_r | constructor].
  - split; [exact Hp|]. now rewrite (effects_since_app _ _ _ Hlog).
Qed.

(** ** A removed participant *)

(** X22. Removing a participant over HTTP does not take their
    connections out of the Socket.IO room. With no other task in between:
    the owner removes a participant, the stored room no longer lists
    them, their connection still has its session, and the next message
    that is accepted for the room under the same [room_id] string is
    delivered to that connection as before. *)
Theorem removed_participant_still_listens {E : Env}
    (room_id participant_username x_username : string) (t : Task) (o : oid) (room : Room)
    (listener sid : string) (data : pyval) (u rid : string) (room' : Room) (text : string) :
  undisturbed ->
  owns (srv t) room_id (PyStr.strip x_username) o room ->
  PyStr.strip participant_username ∈ r_participant_usernames room ->
  PyStr.strip participant_username <> PyStr.strip x_username ->
  authenticated (srv t) listener (PyStr.strip participant_username) ->
  listener ∈ participants (srv t) rid ->
  let removed := Rooms.remove_participant room_id participant_username x_username t in
  accepted sid data (snd removed) u rid o room' text ->
  fst removed = Ret (Ok room')
  /\ (PyStr.strip participant_username ∉ r_participant_usernames room')
  /\ authenticated (srv (snd removed)) listener (PyStr.strip participant_username)
  /\ exists m recipients,
       event_of rid m recipients
         ∈ effects_since (snd removed) (snd (send_message sid data (snd removed)))
       /\ m_sender_username m = u /\ m_text m = text
       /\ listener ∈ recipients.
Proof.
  intros quiet (Ho & Hroom & Hown) Hin Hother [Hsession Hname] Hjoined removed Hacc.
  subst removed.
  set (p := PyStr.strip participant_username) in *.
  pose proof (remove_participant_quiet quiet room_id participant_username x_username t
                o Ho) as Hr.
  cbv zeta in Hr. fold p in Hr. rewrite Hroom, Hown, String.eqb_refl in Hr.
  assert (String.eqb p (PyStr.strip x_username) = false) as Hpu by now apply String.eqb_neq.
  rewrite Hpu, (bool_decide_eq_true_2 _ Hin) in Hr. destruct Hr as [Hres Hsrv].
  set (t1 := snd (Rooms.remove_participant room_id participant_username x_username t)) in *.
  destruct (signed_up_frame (PyStr.strip x_username) (srv t))
    as (Hsess & Hsio & Hrooms & _).
  assert (room' = pull_participant p room) as ->.
  { destruct Hacc as (_ & Hfound & _). rewrite Hsrv in Hfound. simpl in Hfound.
    rewrite Hrooms in Hfound.
    rewrite (find_update_first (has_id o) _ _ _ Hroom) in Hfound
      by now apply find_some in Hroom.
    now injection Hfound as <-. }
  split; [exact Hres|]. split.
  { simpl. intros Hp. apply list_elem_of_In, filter_In in Hp as [_ Hp].
    now rewrite String.eqb_refl in Hp. }
  split.
  { split; [|exact Hname]. rewrite Hsrv. simpl. now rewrite Hsess. }
  destruct (send_message_undisturbed _ _ _ _ _ _ _ _ quiet Hacc)
    as (_ & _ & _ & _ & _ & Hemits).
  destruct (send_message_accepted _ _ _ _ _ _ _ _ Hacc)
    as (m & rec & _ & Hmu & Hmt & _ & _ & Hlog).
  assert (event_of rid m rec ∈ effects_since t1 (snd (send_message sid data t1))) as Hev.
  { destruct (PyStr.contains "@ai" (PyStr.lower text)).
    - destruct Hlog as (m_ai & rec_ai & _ & _ & _ & _ & Hlog).
      rewrite (effects_since_app _ _ _ Hlog).
      apply elem_of_cons. right. apply elem_of_cons. right. apply list_elem_of_here.
    - rewrite (effects_since_app _ _ _ Hlog).
      apply elem_of_cons. right. apply elem_of_cons. right. apply list_elem_of_here. }
  exists m, rec. split; [exact Hev|]. split; [exact Hmu|]. split; [exact Hmt|].
  destruct (Hemits _ _ _ _ Hev) as [_ ->].
  unfold participants. rewrite Hsrv. simpl. rewrite Hsio. exact Hjoined.
Qed.

(** ** Reading rooms *)

Lemma filter_sublist_of {A} (p : A -> bool) (l : list A) : List.filter p l `sublist_of` l.
Proof.
  induction l as [|x l IH]; simpl; [constructor|].
  destruct (p x); [now apply sublist_skip | now apply sublist_cons].
Qed.

(** X23. With no other task in between, the two routes that read rooms
    show a room to its participants only. For a room id that is an
    ObjectId, [get_room] answers with the stored room exactly when the
    requester is one of its participants, and the requester is signed up
    whatever the answer. [get_my_rooms]
    returns stored rooms that list the requester, in the order of the
    store, at most a hundred; a room that lists the requester is left
    out only when a hundred were returned. *)
Theorem rooms_shown_to_participants {E : Env} (x_username : string) (t : Task) :
  undisturbed ->
  let username := PyStr.strip x_username in
  (forall room_id o,
     ObjectId room_id = Some o ->
     (forall room,
        fst (Rooms.get_room room_id x_username t) = Ret (Ok room) <->
        List.find (has_id o) (rooms (db (srv t))) = Some room
        /\ username ∈ r_participant_usernames room)
     /\ known_user (srv (snd (Rooms.get_room room_id x_username t))) username)
  /\ exists l,
       fst (Rooms.get_my_rooms x_username t) = Ret (Ok l)
       /\ (length l <= 100)%nat
       /\ l `sublist_of` rooms (db (srv t))
       /\ (forall room, room ∈ l -> username ∈ r_participant_usernames room)
       /\ (forall room, room ∈ rooms (db (srv t)) ->
             username ∈ r_participant_usernames room ->
             room ∈ l \/ length l = 100%nat).
Proof.
  intros quiet username. split.
  - intros room_id o Ho.
    destruct (get_room_quiet quiet room_id x_username t o Ho) as (t' & -> & Hs).
    simpl. fold username in Hs |- *. split; [|rewrite Hs; apply signed_up_known].
    intros room. destruct (find (has_id o) _) as [room0|].
    + destruct (bool_decide _) eqn:Hdec.
      * apply bool_decide_eq_true_1 in Hdec. split.
        -- intros [= <-]. now split.
        -- intros [[= <-] _]. reflexivity.
      * apply bool_decide_eq_false_1 in Hdec. split; [discriminate|].
        intros [[= <-] Hin]. contradiction.
    + split; [discriminate | intros [Hf _]; discriminate].
  - destruct (get_my_rooms_quiet quiet x_username t) as (t' & -> & _).
    fold username. simpl.
    set (mine := List.filter (has_participant username) (rooms (db (srv t)))).
    exists (take 100 mine). split; [reflexivity|].
    split; [rewrite length_take; lia|].
    split; [etransitivity; [apply sublist_take | apply filter_sublist_of]|].
    split.
    + intros room Hroom.
      assert (room ∈ mine) as Hmine.
      { rewrite <- (take_drop 100 mine). apply elem_of_app. now left. }
      apply list_elem_of_In, filter_In in Hmine as [_ Hp].
      now apply bool_decide_eq_true_1 in Hp.
    + intros room Hroom Hin.
      assert (room ∈ mine) as Hmine.
      { apply list_elem_of_In, filter_In. split; [now apply list_elem_of_In|].
        now apply bool_decide_eq_true_2. }
      destruct (decide (length mine <= 100)%nat) as [Hle|Hgt].
      * left. now rewrite take_ge.
      * right. rewrite length_take. lia.
Qed.

(** ** The routes on the sample store *)

Lemma sample_quiet : undisturbed (E := Sample.quiet).
Proof. intros n s. reflexivity. Qed.

Lemma sample_sorts : sorts_by_created_at (O := SampleStore.orders).
Proof.
  assert (Transitive older) as Htrans by (intros a b c; unfold older; lia).
  assert (Total older) as Htotal by (intros a b; unfold older; lia).
  intros l. split; [apply merge_sort_Permutation|].
  now apply StronglySorted_merge_sort.
Qed.

Lemma sample_lists_each_once : lists_each_once (O := SampleStore.orders).
Proof.
  intros l. split; [apply NoDup_remove_dups | intros x; apply elem_of_remove_dups].
Qed.

Lemma sample_owners : owners_participate SampleStore.server.
Proof.
  intros room Hroom. simpl in Hroom.
  apply elem_of_cons in Hroom as [->|Hroom]; [apply list_elem_of_here|].
  apply list_elem_of_singleton in Hroom. subst room. apply list_elem_of_here.
Qed.

Lemma sample_owns_lobby :
  owns (E := Sample.quiet) SampleStore.server Sample.room_hex "alice" 170 Sample.lobby.
Proof. now repeat split. Qed.

(** alice creates a room and asks for bob twice, for herself and for a
    blank name. *)
Lemma create_room_outcome_witness :
  exists room,
    fst (Rooms.create_room (E := Sample.quiet)
           {| rc_name := "attic"; rc_participant_usernames := [" bob "; "  "; "alice"; "bob"] |}
           " alice " (start SampleStore.server)) = Ret (Ok room)
    /\ r_participant_usernames room = ["alice"; "bob"]
    /\ NoDup (r_participant_usernames room).
Proof.
  destruct (create_room_outcome (E := Sample.quiet)
              {| rc_name := "attic";
                 rc_participant_usernames := [" bob "; "  "; "alice"; "bob"] |}
              " alice " (start SampleStore.server) sample_quiet)
    as [(room & Hres & _ & _ & _ & _ & _ & _ & Hnd & _)|(q & _ & _ & _ & _ & Hres & _)].
  - exists room. split; [exact Hres|]. split; [|exact Hnd].
    vm_compute in Hres. injection Hres as <-. reflexivity.
  - vm_compute in Hres. discriminate Hres.
Defined.

(** alice replaces the participants of the lobby by dave, who is no
    user yet, and bob; the list names dave twice and leaves her out. *)
Lemma update_room_participants_witness :
  exists room',
    fst (Rooms.update_room (E := Sample.quiet) (O := SampleStore.orders) Sample.room_hex
           {| ru_name := None; ru_participant_usernames := Some ["dave"; "bob"; "dave"] |}
           "alice" (start SampleStore.server)) = Ret (Ok room')
    /\ NoDup (r_participant_usernames room')
    /\ ("alice" ∈ r_participant_usernames room')
    /\ known_user
         (srv (snd (Rooms.update_room (E := Sample.quiet) (O := SampleStore.orders)
                      Sample.room_hex
                      {| ru_name := None;
                         ru_participant_usernames := Some ["dave"; "bob"; "dave"] |}
                      "alice" (start SampleStore.server))))
         "dave".
Proof.
  destruct (update_room_participants (E := Sample.quiet) (O := SampleStore.orders)
              Sample.room_hex
              {| ru_name := None; ru_participant_usernames := Some ["dave"; "bob"; "dave"] |}
              "alice" (start SampleStore.server) 170 Sample.lobby ["dave"; "bob"; "dave"]
              sample_quiet sample_lists_each_once sample_owns_lobby eq_refl)
    as (room' & Hres & _ & _ & _ & _ & _ & Hnd & Hin & Hknown & _).
  exists room'. split; [exact Hres|]. split; [exact Hnd|].
  split; [apply Hin; now left|].
  apply Hknown, Hin. right. apply list_elem_of_here.
Defined.

(** alice reads two messages of the lobby: she gets the two oldest, and
    the third, which was stored first, is out of reach. *)
Lemma get_messages_oldest_first_witness :
  fst (Messages.get_messages (E := Sample.quiet) (O := SampleStore.orders)
         Sample.room_hex 2 "alice" (start SampleStore.server))
  = Ret (Ok [SampleStore.note 13 170 "bob" "first" 10;
             SampleStore.note 14 170 "alice" "second" 20])
  /\ older (SampleStore.note 14 170 "alice" "second" 20)
       (SampleStore.note 11 170 "alice" "third" 30).
Proof.
  split; [vm_compute; reflexivity|].
  destruct (get_messages_oldest_first (E := Sample.quiet) (O := SampleStore.orders)
              Sample.room_hex 2 "alice" (start SampleStore.server) 170
              sample_quiet sample_sorts eq_refl) as (_ & Hmsgs & _); [lia|].
  destruct (Hmsgs [SampleStore.note 13 170 "bob" "first" 10;
                   SampleStore.note 14 170 "alice" "second" 20])
    as (_ & _ & _ & Hleft).
  { vm_compute. reflexivity. }
  destruct (Hleft (SampleStore.note 11 170 "alice" "third" 30)) as [_ Holder].
  - apply list_elem_of_here.
  - reflexivity.
  - intros Hin. apply elem_of_cons in Hin as [Hin|Hin]; [discriminate|].
    apply list_elem_of_singleton in Hin. discriminate.
  - apply Holder. apply list_elem_of_further, list_elem_of_here.
Defined.

(** bob, who sent it, deletes the message [first] of the lobby. *)
Lemma delete_message_permission_witness :
  answered_ok
    (fst (Messages.delete_message (E := Sample.quiet) Sample.room_hex
            "00000000000000000000000d" "bob" (start SampleStore.server))).
Proof.
  apply (proj1 (delete_message_permission (E := Sample.quiet) Sample.room_hex
                  "00000000000000000000000d" "bob" (start SampleStore.server) 170 13
                  sample_quiet eq_refl eq_refl)).
  exists Sample.lobby, (SampleStore.note 13 170 "bob" "first" 10).
  split; [reflexivity|]. split; [reflexivity | now left].
Defined.

(** alice deletes the lobby: its id names no room afterwards. *)
Lemma delete_room_erases_witness :
  fst (Rooms.delete_room (E := Sample.quiet) Sample.room_hex "alice"
         (start SampleStore.server))
  = Ret (Ok "Room deleted successfully")
  /\ List.find (has_id 170)
       (rooms (db (srv (snd (Rooms.delete_room (E := Sample.quiet) Sample.room_hex "alice"
                               (start SampleStore.server))))))
     = None.
Proof.
  destruct (delete_room_erases (E := Sample.quiet) Sample.room_hex "alice"
              (start SampleStore.server) 170 Sample.lobby sample_quiet sample_owns_lobby)
    as (Hres & _ & _ & _ & _ & Hgone).
  split; [exact Hres|]. apply Hgone.
  apply (bool_decide_eq_true_1 _). vm_compute. reflexivity.
Defined.

(** carol, who does not own the lobby, asks for its deletion. *)
Lemma only_owner_changes_room_witness :
  rooms (db (srv (snd (Rooms.delete_room (E := Sample.quiet) Sample.room_hex "carol"
                         (start SampleStore.server)))))
  = rooms (db SampleStore.server)
  /\ messages (db (srv (snd (Rooms.delete_room (E := Sample.quiet) Sample.room_hex "carol"
                               (start SampleStore.server)))))
     = messages (db SampleStore.server).
Proof.
  destruct (only_owner_changes_room (E := Sample.quiet) (O := SampleStore.orders)
              Sample.room_hex "carol" (start SampleStore.server)
              {| ru_name := None; ru_participant_usernames := None |} "bob" sample_quiet)
    as (_ & (_ & Hrooms & Hmsgs) & _).
  - intros o room (Ho & Hroom & Hown). vm_compute in Ho. injection Ho as <-.
    vm_compute in Hroom. injection Hroom as <-. discriminate Hown.
  - split; [exact Hrooms | exact Hmsgs].
Defined.

(** A room id that is a name, not an ObjectId. *)
Lemma malformed_id_refused_first_witness :
  Rooms.get_room (E := Sample.quiet) "lobby" "dave" (start SampleStore.server)
  = (Ret (HTTPException 400 "Invalid room ID format"), start SampleStore.server).
Proof.
  exact (proj1 (malformed_id_refused_first (E := Sample.quiet) (O := SampleStore.orders)
                  "lobby" (start SampleStore.server) "dave" "bob" "lobby" Sample.room_hex
                  {| ru_name := None; ru_participant_usernames := None |} 50 170
                  eq_refl eq_refl)).
Defined.

(** alice adds carol to the lobby and removes her again. *)
Lemma add_then_remove_restores_witness :
  rooms (db (srv (snd (Rooms.remove_participant (E := Sample.quiet) Sample.room_hex
                         "carol" "alice"
                         (snd (Rooms.add_participant (E := Sample.quiet) Sample.room_hex
                                 "carol" "alice" (start SampleStore.server)))))))
  = rooms (db SampleStore.server).
Proof.
  refine (proj2 (proj2 (add_then_remove_restores (E := Sample.quiet) Sample.room_hex
                          "carol" "alice" (start SampleStore.server) 170 Sample.lobby
                          sample_quiet sample_owns_lobby _ _ _))).
  - exists {| u_id := 2; u_username := "carol" |}.
    split; [apply list_elem_of_further, list_elem_of_here | reflexivity].
  - apply (bool_decide_eq_false_1 _). vm_compute. reflexivity.
  - discriminate.
Defined.

(** alice adds carol, a stored user, to the lobby. *)
Lemma add_participant_idempotent_witness :
  answered_ok
    (fst (Rooms.add_participant (E := Sample.quiet) Sample.room_hex "carol" "alice"
            (start SampleStore.server))).
Proof.
  apply (proj1 (add_participant_idempotent (E := Sample.quiet) Sample.room_hex
                  "carol" "alice" (start SampleStore.server) 170 Sample.lobby
                  sample_quiet sample_owns_lobby)).
  right. exists {| u_id := 2; u_username := "carol" |}.
  split; [apply list_elem_of_further, list_elem_of_here | reflexivity].
Defined.

(** alice asks to be removed from her own room, then sends a list of
    participants without herself, then writes a message: she is still a
    participant of the lobby. *)
Lemma owners_stay_participants_witness :
  exists room,
    List.find (has_id 170)
      (rooms (db (srv (serve_all (E := Sample.quiet) (O := SampleStore.orders)
                         [OnRoute (RemoveParticipant Sample.room_hex "alice" "alice");
                          OnRoute (UpdateRoom Sample.room_hex
                                     {| ru_name := None;
                                        ru_participant_usernames := Some ["bob"] |}
                                     "alice");
                          OnSocket (SendMessage "s1" (Sample.send "hi"))]
                         (start SampleStore.server)))))
    = Some room
    /\ r_owner_username room ∈ r_participant_usernames room.
Proof.
  eexists. split; [vm_compute; reflexivity|].
  apply (owners_stay_participants (E := Sample.quiet) (O := SampleStore.orders)
           [OnRoute (RemoveParticipant Sample.room_hex "alice" "alice");
            OnRoute (UpdateRoom Sample.room_hex
                       {| ru_name := None; ru_participant_usernames := Some ["bob"] |}
                       "alice");
            OnSocket (SendMessage "s1" (Sample.send "hi"))]
           (start SampleStore.server) sample_quiet sample_owners).
  vm_compute. apply list_elem_of_here.
Defined.

(** alice deletes the lobby over HTTP: her connection stays in the
    Socket.IO room of the lobby, and no event is emitted. *)
Lemma routes_act_offstage_witness :
  ("s1" ∈ default ∅ (sio_rooms
                       (srv (snd (serve (E := Sample.quiet) (O := SampleStore.orders)
                                    (DeleteRoom Sample.room_hex "alice")
                                    (start SampleStore.server))))
                     !! Sample.room_hex))
  /\ Forall store_only
       (effects_since (start SampleStore.server)
          (snd (serve (E := Sample.quiet) (O := SampleStore.orders)
                  (DeleteRoom Sample.room_hex "alice") (start SampleStore.server)))).
Proof.
  refine (routes_act_offstage (E := Sample.quiet) (O := SampleStore.orders)
            (fun _ g => "s1" ∈ default ∅ (g !! Sample.room_hex))
            (DeleteRoom Sample.room_hex "alice") (start SampleStore.server) _ _).
  - intros n s Hs. exact Hs.
  - apply (bool_decide_eq_true_1 _). vm_compute. reflexivity.
Defined.

(** carol lists her rooms. *)
Lemma rooms_shown_to_participants_witness :
  exists l,
    fst (Rooms.get_my_rooms (E := Sample.quiet) "carol" (start SampleStore.server))
    = Ret (Ok l)
    /\ (length l <= 100)%nat
    /\ l `sublist_of` rooms (db SampleStore.server)
    /\ (forall room, room ∈ l -> "carol" ∈ r_participant_usernames room)
    /\ (forall room, room ∈ rooms (db SampleStore.server) ->
          "carol" ∈ r_participant_usernames room ->
          room ∈ l \/ length l = 100%nat).
Proof.
  exact (proj2 (rooms_shown_to_participants (E := Sample.quiet) "carol"
                  (start SampleStore.server) sample_quiet)).
Defined.

(** bob connects as [s2] and joins the lobby; alice removes him over
    HTTP and then writes to the lobby: bob's connection gets the
    message. *)
Lemma removed_participant_still_listens_witness :
  let t := run (E := Sample.quiet)
             [Connect "s2" {["QUERY_STRING" := "username=bob"]};
              JoinRoom "s2" (PDict [("room_id", PStr Sample.room_hex)])]
             (start SampleStore.server) in
  let removed := Rooms.remove_participant (E := Sample.quiet) Sample.room_hex "bob" "alice" t in
  ("bob" ∉ r_participant_usernames (pull_participant "bob" Sample.lobby))
  /\ exists m recipients,
       event_of Sample.room_hex m recipients
         ∈ effects_since (snd removed)
             (snd (send_message (E := Sample.quiet) "s1" (Sample.send "hi") (snd removed)))
       /\ m_sender_username m = "alice" /\ m_text m = "hi"
       /\ "s2" ∈ recipients.
Proof.
  intros t removed.
  destruct (removed_participant_still_listens (E := Sample.quiet)
              Sample.room_hex "bob" "alice" t 170 Sample.lobby "s2" "s1"
              (Sample.send "hi") "alice" Sample.room_hex
              (pull_participant "bob" Sample.lobby) "hi" sample_quiet)
    as (_ & Hout & _ & Hheard).
  - split; [reflexivity|]. split; [vm_compute; reflexivity | reflexivity].
  - apply list_elem_of_further, list_elem_of_here.
  - discriminate.
  - split; [vm_compute; reflexivity | discriminate].
  - apply (bool_decide_eq_true_1 _). vm_compute. reflexivity.
  - split.
    + eexists. split; [reflexivity|]. split; [reflexivity|]. split; [discriminate|].
      split; [reflexivity|]. split; [reflexivity|]. split; [discriminate|].
      split; [vm_compute; reflexivity | discriminate].
    + split; [vm_compute; reflexivity | apply list_elem_of_here].
  - split; [exact Hout | exact Hheard].
Defined.

(** ** From the socket to the listing *)

(** X24. A message that [send_message] accepts is stored under the
    ObjectId of the room, which is the key that [get_messages] reads by.
    With no other task in between, after an accepted send every
    participant who asks for the messages of the room, under any string
    that reads as the same ObjectId and with a limit, between 1 and 200,
    that the room does not exceed, gets a list that contains the message,
    with the sender's name and the stripped text. *)
Theorem sent_message_is_listed {E : Env} {O : Orders}
    (sid : string) (data : pyval) (t : Task) (u rid : string) (o : oid) (room : Room)
    (text room_id : string) (limit : nat) (x_username : string) :
  undisturbed ->
  sorts_by_created_at ->
  accepted sid data t u rid o room text ->
  ObjectId room_id = Some o ->
  PyStr.strip x_username ∈ r_participant_usernames room ->
  (1 <= limit <= 200)%nat ->
  let sent := snd (send_message sid data t) in
  (length (List.filter (in_room o) (messages (db (srv sent)))) <= limit)%nat ->
  exists msgs m,
    fst (Messages.get_messages room_id limit x_username sent) = Ret (Ok msgs)
    /\ m ∈ msgs
    /\ m_room_id m = o /\ m_sender_username m = u /\ m_text m = text
    /\ m_created_at m = utcnow (reads t).
Proof.
  intros quiet Hsort Hacc Ho Hin _ sent Hlimit. subst sent.
  destruct (send_message_undisturbed _ _ _ _ _ _ _ _ quiet Hacc)
    as (_ & _ & _ & Hrooms & Hmsgs & _).
  destruct (send_message_accepted _ _ _ _ _ _ _ _ Hacc)
    as (m & rec & Hmo & Hmu & Hmt & Hmc & _ & Hlog).
  set (t1 := snd (send_message sid data t)) in *.
  assert (m ∈ messages (db (srv t1))) as Hstored.
  { rewrite Hmsgs. apply elem_of_app. right.
    destruct (PyStr.contains "@ai" (PyStr.lower text)).
    - destruct Hlog as (m_ai & rec_ai & _ & _ & _ & _ & Hlog).
      rewrite (effects_since_app _ _ _ Hlog). unfold persisted, event_of. simpl.
      apply list_elem_of_here.
    - rewrite (effects_since_app _ _ _ Hlog). unfold persisted, event_of. simpl.
      apply list_elem_of_here. }
  destruct (get_messages_quiet quiet room_id limit x_username t1 o Ho) as (t' & -> & _).
  simpl. rewrite Hrooms.
  destruct Hacc as (_ & -> & _). rewrite (bool_decide_eq_true_2 _ Hin).
  eexists _, m. split; [reflexivity|]. split; [|now repeat split].
  destruct (Hsort (List.filter (in_room o) (messages (db (srv t1))))) as [Hperm _].
  rewrite take_ge by (rewrite Hperm; exact Hlimit).
  rewrite Hperm. apply list_elem_of_In, filter_In.
  split; [now apply list_elem_of_In|]. unfold in_room. now apply N.eqb_eq.
Qed.

(** alice writes to the lobby over her connection; bob, a participant,
    reads the lobby under the upper-case spelling of its id. *)
Lemma sent_message_is_listed_witness :
  exists msgs m,
    fst (Messages.get_messages (E := Sample.quiet) (O := SampleStore.orders)
           "0000000000000000000000AA" 50 "bob"
           (snd (send_message (E := Sample.quiet) "s1" (Sample.send "hi")
                   (start SampleStore.server))))
    = Ret (Ok msgs)
    /\ m ∈ msgs
    /\ m_room_id m = 170%N /\ m_sender_username m = "alice" /\ m_text m = "hi"
    /\ m_created_at m = 1000%Z.
Proof.
  refine (sent_message_is_listed (E := Sample.quiet) (O := SampleStore.orders)
            "s1" (Sample.send "hi") (start SampleStore.server) "alice" Sample.room_hex
            170 Sample.lobby "hi" "0000000000000000000000AA" 50 "bob"
            sample_quiet sample_sorts _ eq_refl _ _ _).
  - split.
    + eexists. split; [reflexivity|]. split; [reflexivity|]. split; [discriminate|].
      split; [reflexivity|]. split; [reflexivity|]. split; [discriminate|].
      split; [reflexivity | discriminate].
    + split; [reflexivity | apply list_elem_of_here].
  - apply list_elem_of_further, list_elem_of_here.
  - lia.
  - vm_compute. lia.
Defined.
